(** * OCR layout reconstruction (ocr_json2text_line.py): a shallow embedding

    The Python module turns the JSON answer of an OCR service into plain
    text lines.  Python values are dynamically typed, so JSON data is
    an inductive type [json]; Python exceptions are an explicit error
    result [res]; Python floats are IEEE-754 binary64 numbers, taken from
    the Standard Library's [SpecFloat] (precision 53, emax 1024); strings
    are lists of Unicode code points, as [str] is in Python. *)

From Stdlib Require Import ZArith List Bool Lia Permutation Sorted.
From Stdlib Require Import String Ascii DecimalString SpecFloat.
Import ListNotations.
Local Open Scope Z_scope.
Set Warnings "-register-all".

(** [length] and [concat] are those of lists throughout. *)
Abbreviation length := List.length (only parsing).
Abbreviation concat := List.concat (only parsing).

(** ** Strings *)

Module PyStr.

(** A Python [str] is a sequence of code points. *)
Definition pystr := list Z.

(** An ASCII literal as a [str]. *)
Definition u (s : string) : pystr :=
  map (fun a => Z.of_N (N_of_ascii a)) (list_ascii_of_string s).
Arguments u s%_string.

Definition pystr_eqb (a b : pystr) : bool :=
  if list_eq_dec Z.eq_dec a b then true else false.

(** [str.isspace] for one character (the code points of the Unicode
    database with bidirectional type WS, B or S, or category Zs). *)
Definition isspace (c : Z) : bool :=
  ((0x09 <=? c) && (c <=? 0x0D)) || ((0x1C <=? c) && (c <=? 0x20))
  || (c =? 0x85) || (c =? 0xA0) || (c =? 0x1680)
  || ((0x2000 <=? c) && (c <=? 0x200A))
  || (c =? 0x2028) || (c =? 0x2029) || (c =? 0x202F) || (c =? 0x205F)
  || (c =? 0x3000).

Fixpoint lstrip (s : pystr) : pystr :=
  match s with
  | c :: s' => if isspace c then lstrip s' else s
  | [] => []
  end.

Definition rstrip (s : pystr) : pystr := rev (lstrip (rev s)).

(** [s.strip()] *)
Definition strip (s : pystr) : pystr := rstrip (lstrip s).

(** [s.split(sep)] for a one-character separator: never empty. *)
Fixpoint split (sep : Z) (s : pystr) : list pystr :=
  match s with
  | [] => [[]]
  | c :: s' =>
      if c =? sep then [] :: split sep s'
      else match split sep s' with
           | p :: ps => (c :: p) :: ps
           | [] => [[c]]
           end
  end.

(** [sep.join(parts)] *)
Fixpoint join (sep : pystr) (parts : list pystr) : pystr :=
  match parts with
  | [] => []
  | [p] => p
  | p :: ps => p ++ sep ++ join sep ps
  end.

(** [' ' * n] (empty for [n <= 0]) *)
Definition spaces (n : Z) : pystr := repeat 0x20 (Z.to_nat n).

End PyStr.
Export PyStr.

(** ** Exceptions and the error monad *)

Inductive exn_class :=
| KeyError | TypeError | ValueError | AttributeError | IndexError
| OverflowError | ZeroDivisionError | StatisticsError.

Definition exn_class_eqb (a b : exn_class) : bool :=
  match a, b with
  | KeyError, KeyError | TypeError, TypeError | ValueError, ValueError
  | AttributeError, AttributeError | IndexError, IndexError
  | OverflowError, OverflowError | ZeroDivisionError, ZeroDivisionError
  | StatisticsError, StatisticsError => true
  | _, _ => false
  end.

(** [issubclass(a, b)]: [statistics.StatisticsError] derives from
    [ValueError]; the other classes are unrelated to one another. *)
Definition subclass (a b : exn_class) : bool :=
  match a, b with
  | StatisticsError, ValueError => true
  | _, _ => exn_class_eqb a b
  end.

(** An exception object: its class and [str(e)]. *)
Record exn := mk_exn { exn_cls : exn_class; exn_str : pystr }.

Inductive res (A : Type) :=
| Ok (a : A)
| Raise (e : exn).
Arguments Ok {A} a.
Arguments Raise {A} e.

Definition bind {A B} (c : res A) (k : A -> res B) : res B :=
  match c with
  | Ok a => k a
  | Raise e => Raise e
  end.

Declare Scope py_scope.
Delimit Scope py_scope with py.
Notation "x <- c ;; k" := (bind c (fun x => k))
  (at level 61, c at next level, right associativity) : py_scope.
Notation "' pat <- c ;; k" := (bind c (fun x => match x with pat => k end))
  (at level 61, pat pattern, c at next level, right associativity) : py_scope.
Local Open Scope py_scope.

Definition raise {A} (c : exn_class) (msg : pystr) : res A :=
  Raise (mk_exn c msg).

(** [isinstance(e, classes)] for an [except (C1, C2, ...)] clause. *)
Definition caught (classes : list exn_class) (e : exn) : bool :=
  existsb (subclass (exn_cls e)) classes.

(** [try: body  except classes as e: handler e] *)
Definition try_except {A} (body : res A) (classes : list exn_class)
    (handler : exn -> res A) : res A :=
  match body with
  | Ok a => Ok a
  | Raise e => if caught classes e then handler e else Raise e
  end.

(** [[f(x) for x in l]], stopping at the first exception. *)
Fixpoint mapM {A B} (f : A -> res B) (l : list A) : res (list B) :=
  match l with
  | [] => Ok []
  | a :: l' => b <- f a ;; bs <- mapM f l' ;; Ok (b :: bs)
  end.

(** ** Integers from strings: [int(s)] *)

Module PyInt.

(** The code points of the decimal digits zero of the Unicode database
    (category Nd); each is followed by its digits one to nine. *)
Definition decimal_zeros : list Z :=
  [0x30; 0x660; 0x6F0; 0x7C0; 0x966; 0x9E6; 0xA66; 0xAE6; 0xB66; 0xBE6;
   0xC66; 0xCE6; 0xD66; 0xDE6; 0xE50; 0xED0; 0xF20; 0x1040; 0x1090; 0x17E0;
   0x1810; 0x1946; 0x19D0; 0x1A80; 0x1A90; 0x1B50; 0x1BB0; 0x1C40; 0x1C50;
   0xA620; 0xA8D0; 0xA900; 0xA9D0; 0xA9F0; 0xAA50; 0xABF0; 0xFF10; 0x104A0;
   0x10D30; 0x11066; 0x110F0; 0x11136; 0x111D0; 0x112F0; 0x11450; 0x114D0;
   0x11650; 0x116C0; 0x11730; 0x118E0; 0x11950; 0x11C50; 0x11D50; 0x11DA0;
   0x16A60; 0x16AC0; 0x16B50; 0x1D7CE; 0x1D7D8; 0x1D7E2; 0x1D7EC; 0x1D7F6;
   0x1E140; 0x1E2F0; 0x1E950; 0x1FBF0].

(** The value of a decimal digit character. *)
Definition decimal (c : Z) : option Z :=
  match find (fun z => (z <=? c) && (c <? z + 10)) decimal_zeros with
  | Some z => Some (c - z)
  | None => None
  end.

(** Before a number is read from a [str], every non-ASCII character is
    replaced: whitespace by a space, a decimal digit by its ASCII digit,
    anything else by a question mark. *)
Definition to_ascii_decimal (c : Z) : Z :=
  if c <? 128 then c
  else if isspace c then 0x20
  else match decimal c with
       | Some d => 0x30 + d
       | None => 0x3F
       end.

(** C's [isspace], and the trimming of a literal on both sides. *)
Definition c_isspace (c : Z) : bool :=
  ((0x09 <=? c) && (c <=? 0x0D)) || (c =? 0x20).

Fixpoint skip_space (s : pystr) : pystr :=
  match s with
  | c :: s' => if c_isspace c then skip_space s' else s
  | [] => []
  end.

Definition trim (s : pystr) : pystr := rev (skip_space (rev (skip_space s))).

Definition ascii_digit (c : Z) : option Z :=
  if (0x30 <=? c) && (c <=? 0x39) then Some (c - 0x30) else None.

(** The longest run of digits and single underscores at the head of [s]:
    its value, its number of digits, whether it is well formed (no doubled
    and no trailing underscore) and the rest of [s]. *)
Fixpoint scan_digits (acc cnt : Z) (prev_us : bool) (s : pystr)
  : Z * Z * bool * pystr :=
  match s with
  | [] => (acc, cnt, negb prev_us, [])
  | c :: s' =>
      match ascii_digit c with
      | Some d => scan_digits (acc * 10 + d) (cnt + 1) false s'
      | None =>
          if c =? 0x5F then
            if prev_us then (acc, cnt, false, s)
            else scan_digits acc cnt true s'
          else (acc, cnt, negb prev_us, s)
      end
  end.

Definition max_str_digits : Z := 4300.

Inductive literal := Lit (z : Z) | Invalid | TooLong (digits : Z).

(** [int(s)] on a [str], base 10: an optional sign, then digits with
    single underscores between them, at most [max_str_digits] digits. *)
Definition parse_int (s : pystr) : literal :=
  let t := skip_space (map to_ascii_decimal s) in
  let '(neg, body) :=
    match t with
    | 0x2B :: b => (false, b)
    | 0x2D :: b => (true, b)
    | _ => (false, t)
    end in
  match body with
  | 0x5F :: _ => Invalid
  | _ =>
      let '(v, cnt, wf, rest) := scan_digits 0 0 false body in
      if negb wf || (cnt =? 0) then Invalid
      else if max_str_digits <? cnt then TooLong cnt
      else match skip_space rest with
           | [] => Lit (if neg then - v else v)
           | _ => Invalid
           end
  end.

End PyInt.
Export PyInt.

(** ** Floats: IEEE-754 binary64, as CPython's [float] *)

Module PyFloat.

Definition float := spec_float.

Definition prec : Z := 53.
Definition emax : Z := 1024.

Definition fadd : float -> float -> float := SFadd prec emax.
Definition fsub : float -> float -> float := SFsub prec emax.
Definition fmul : float -> float -> float := SFmul prec emax.
Definition fabs : float -> float := SFabs.
Definition flt : float -> float -> bool := SFltb.
Definition fle : float -> float -> bool := SFleb.
Definition fgt (a b : float) : bool := flt b a.
Definition fge (a b : float) : bool := fle b a.

Definition is_zero (x : float) : bool :=
  match x with S754_zero _ => true | _ => false end.

(** The sign bit; a NaN counts as positive. *)
Definition sign_bit (x : float) : bool :=
  match x with
  | S754_zero s | S754_infinity s | S754_finite s _ _ => s
  | S754_nan => false
  end.

(** [a / b] on floats: division by a zero raises. *)
Definition fdiv (a b : float) : res float :=
  if is_zero b then raise ZeroDivisionError (u "float division by zero")
  else Ok (SFdiv prec emax a b).

(** The float nearest to [d * 10^e10] (ties to even): how a decimal literal
    of the source, or one read by [float(s)], is converted. *)
Definition of_decimal (d e10 : Z) : float :=
  match d with
  | Z0 => S754_zero false
  | Zpos p | Zneg p =>
      let s := d <? 0 in
      if 0 <=? e10 then binary_normalize prec emax (d * 10 ^ e10) 0 false
      else SFdiv prec emax (S754_finite s p 0)
                           (S754_finite false (Z.to_pos (10 ^ (- e10))) 0)
  end.

Definition f0 : float := S754_zero false.            (* 0.0 *)
Definition f0_5 : float := Eval vm_compute in of_decimal 5 (-1).
Definition f0_4 : float := Eval vm_compute in of_decimal 4 (-1).
Definition f0_7 : float := Eval vm_compute in of_decimal 7 (-1).
Definition f1 : float := Eval vm_compute in of_decimal 1 0.
Definition f1_2 : float := Eval vm_compute in of_decimal 12 (-1).
Definition f1_5 : float := Eval vm_compute in of_decimal 15 (-1).
Definition f2 : float := Eval vm_compute in of_decimal 2 0.
Definition f32 : float := Eval vm_compute in of_decimal 32 0.
Definition f1e_6 : float := Eval vm_compute in of_decimal 1 (-6).

(** [float(n)] for an [int], also the implicit conversion of an [int]
    operand in mixed arithmetic. *)
Definition of_int (n : Z) : res float :=
  match binary_normalize prec emax n 0 false with
  | S754_infinity _ =>
      raise OverflowError (u "int too large to convert to float")
  | f => Ok f
  end.

(** [int(x)] for a float: truncation toward zero. *)
Definition to_int (x : float) : res Z :=
  match x with
  | S754_zero _ => Ok 0
  | S754_infinity _ =>
      raise OverflowError (u "cannot convert float infinity to integer")
  | S754_nan => raise ValueError (u "cannot convert float NaN to integer")
  | S754_finite s m e =>
      let a := if 0 <=? e then Zpos m * 2 ^ e else Z.quot (Zpos m) (2 ^ (- e)) in
      Ok (if s then - a else a)
  end.

(** The integer nearest to [m * 2^e], ties to even. *)
Definition nearest_even (m e : Z) : Z :=
  if 0 <=? e then m * 2 ^ e
  else
    let d := 2 ^ (- e) in
    let q := m / d in
    let r := m mod d in
    match 2 * r ?= d with
    | Lt => q
    | Gt => q + 1
    | Eq => if Z.even q then q else q + 1
    end.

(** [round(x)]: an [int]. *)
Definition round (x : float) : res Z :=
  match x with
  | S754_zero _ => Ok 0
  | S754_infinity _ =>
      raise OverflowError (u "cannot convert float infinity to integer")
  | S754_nan => raise ValueError (u "cannot convert float NaN to integer")
  | S754_finite s m e =>
      let a := nearest_even (Zpos m) e in
      Ok (if s then - a else a)
  end.

(** [round(x, ndigits)] for [0 <= ndigits]: a float, the decimal with
    [ndigits] places nearest to [x], read back as a float. *)
Definition round_to (x : float) (ndigits : Z) : float :=
  match x with
  | S754_finite s m e =>
      let n := nearest_even (Zpos m * 10 ^ ndigits) e in
      if n =? 0 then S754_zero s
      else SFdiv prec emax (S754_finite s (Z.to_pos n) 0)
                           (S754_finite false (Z.to_pos (10 ^ ndigits)) 0)
  | _ => x
  end.

(** C's [floor]. *)
Definition floor (x : float) : float :=
  match x with
  | S754_finite s m e =>
      if 0 <=? e then x
      else
        let d := 2 ^ (- e) in
        let n := if s then - ((Zpos m + d - 1) / d) else Zpos m / d in
        binary_normalize prec emax n 0 s
  | _ => x
  end.

(** C's [fmod]: exact, with the sign of [x]. *)
Definition fmod (x y : float) : float :=
  match x, y with
  | S754_nan, _ | _, S754_nan => S754_nan
  | S754_infinity _, _ => S754_nan
  | _, S754_zero _ => S754_nan
  | _, S754_infinity _ => x
  | S754_zero _, _ => x
  | S754_finite sx mx ex, S754_finite sy my ey =>
      if flt (fabs x) (fabs y) then x
      else
        let e := Z.min ex ey in
        let r := Z.rem (Zpos mx * 2 ^ (ex - e)) (Zpos my * 2 ^ (ey - e)) in
        binary_normalize prec emax (if sx then - r else r) e sx
  end.

(** [a // b] on floats (CPython's [float_floor_div]): the quotient of the
    exact remainder, snapped to the nearest integral value. *)
Definition ffloordiv (vx wx : float) : res float :=
  if is_zero wx then raise ZeroDivisionError (u "float floor division by zero")
  else
    let md := fmod vx wx in
    let div := SFdiv prec emax (fsub vx md) wx in
    let div :=
      if negb (is_zero md) && negb (Bool.eqb (flt wx f0) (flt md f0))
      then fsub div f1 else div in
    if negb (is_zero div) then
      let fl := floor div in
      Ok (if fgt (fsub div fl) f0_5 then fadd fl f1 else fl)
    else Ok (S754_zero (sign_bit (SFdiv prec emax vx wx))).

(** [max(a, b)] and [min(a, b)]: the first argument unless the second one
    is strictly better. *)
Definition fmax (a b : float) : float := if fgt b a then b else a.
Definition fmin (a b : float) : float := if flt b a then b else a.

(** Truth value of a float: anything but a zero. *)
Definition truthy (x : float) : bool := negb (is_zero x).

End PyFloat.
Export PyFloat.

(** ** Floats from strings: [float(s)] *)

Module PyFloatLiteral.

Definition is_digit (c : Z) : bool := (0x30 <=? c) && (c <=? 0x39).

(** Underscores may only stand between two digits; they are removed. *)
Fixpoint drop_underscores (prev : Z) (s : pystr) : option pystr :=
  match s with
  | [] => if prev =? 0x5F then None else Some []
  | c :: s' =>
      if c =? 0x5F then
        if is_digit prev then drop_underscores c s' else None
      else if (prev =? 0x5F) && negb (is_digit c) then None
      else option_map (cons c) (drop_underscores c s')
  end.

Fixpoint take_digits (acc cnt : Z) (s : pystr) : Z * Z * pystr :=
  match s with
  | c :: s' =>
      if is_digit c then take_digits (acc * 10 + (c - 0x30)) (cnt + 1) s'
      else (acc, cnt, s)
  | [] => (acc, cnt, [])
  end.

Definition lower (c : Z) : Z :=
  if (0x41 <=? c) && (c <=? 0x5A) then c + 32 else c.

Definition split_sign (s : pystr) : bool * pystr :=
  match s with
  | 0x2B :: b => (false, b)
  | 0x2D :: b => (true, b)
  | _ => (false, s)
  end.

(** An exponent part [e[+-]digits] at the head of [s], if there is one. *)
Definition exponent (s : pystr) : option (Z * pystr) :=
  match s with
  | c :: s' =>
      if lower c =? 0x65 then
        let '(neg, b) := split_sign s' in
        let '(v, cnt, rest) := take_digits 0 0 b in
        if cnt =? 0 then None else Some (if neg then - v else v, rest)
      else None
  | [] => None
  end.

(** The unsigned part of a literal: infinity, nan or a decimal number. *)
Definition magnitude (s : pystr) : option float :=
  let l := map lower s in
  if pystr_eqb l (u "inf") || pystr_eqb l (u "infinity")
  then Some (S754_infinity false)
  else if pystr_eqb l (u "nan") then Some S754_nan
  else
    let '(d1, n1, r1) := take_digits 0 0 s in
    let '(d, n2, r2) :=
      match r1 with
      | 0x2E :: r => take_digits d1 0 r
      | _ => (d1, 0, r1)
      end in
    if n1 + n2 =? 0 then None
    else
      match r2 with
      | [] => Some (of_decimal d (- n2))
      | _ =>
          match exponent r2 with
          | Some (e, []) => Some (of_decimal d (e - n2))
          | _ => None
          end
      end.

(** [float(s)] on a [str]. *)
Definition parse_float (s : pystr) : option float :=
  match drop_underscores 0 (trim (map to_ascii_decimal s)) with
  | Some t =>
      let '(neg, b) := split_sign t in
      match magnitude b with
      | Some x => Some (if neg then SFopp x else x)
      | None => None
      end
  | None => None
  end.

End PyFloatLiteral.
Export PyFloatLiteral.

(** ** JSON values and the built-in operations applied to them *)

Inductive json :=
| JNone
| JBool (b : bool)
| JInt (n : Z)
| JFloat (x : float)
| JStr (s : pystr)
| JList (items : list json)
| JDict (entries : list (pystr * json)).

(** [type(v).__name__] *)
Definition type_name (v : json) : pystr :=
  match v with
  | JNone => u "NoneType"
  | JBool _ => u "bool"
  | JInt _ => u "int"
  | JFloat _ => u "float"
  | JStr _ => u "str"
  | JList _ => u "list"
  | JDict _ => u "dict"
  end.

(** [bool(v)] *)
Definition truth (v : json) : bool :=
  match v with
  | JNone => false
  | JBool b => b
  | JInt n => negb (n =? 0)
  | JFloat x => PyFloat.truthy x
  | JStr s => match s with [] => false | _ => true end
  | JList l => match l with [] => false | _ => true end
  | JDict d => match d with [] => false | _ => true end
  end.

(** [a or b] *)
Definition or_else (a b : json) : json := if truth a then a else b.

Module Json.

Fixpoint lookup (k : pystr) (entries : list (pystr * json)) : option json :=
  match entries with
  | [] => None
  | (k', v) :: rest => if pystr_eqb k k' then Some v else lookup k rest
  end.

(** [k in d] for a dict [d] *)
Definition contains (entries : list (pystr * json)) (k : pystr) : bool :=
  match lookup k entries with Some _ => true | None => false end.

Definition no_attribute {A} (v : json) (attr : pystr) : res A :=
  raise AttributeError
    (u "'" ++ type_name v ++ u "' object has no attribute '" ++ attr ++ u "'").

(** [d[k]] for a dict [d] *)
Definition getitem (entries : list (pystr * json)) (k : pystr) : res json :=
  match lookup k entries with
  | Some v => Ok v
  | None => raise KeyError (u "'" ++ k ++ u "'")
  end.

(** [v.get(k, default)]: only a dict has the method. *)
Definition get (v : json) (k : pystr) (default : json) : res json :=
  match v with
  | JDict entries =>
      Ok (match lookup k entries with Some x => x | None => default end)
  | _ => no_attribute v (u "get")
  end.

(** The items a [for] loop or a comprehension draws from [v]. *)
Definition iter (v : json) : res (list json) :=
  match v with
  | JList items => Ok items
  | JStr s => Ok (map (fun c => JStr [c]) s)
  | JDict entries => Ok (map (fun kv => JStr (fst kv)) entries)
  | _ => raise TypeError (u "'" ++ type_name v ++ u "' object is not iterable")
  end.

(** [v.split(',')] *)
Definition split_comma (v : json) : res (list pystr) :=
  match v with
  | JStr s => Ok (split 0x2C s)
  | _ => no_attribute v (u "split")
  end.

(** [v.strip()] *)
Definition strip (v : json) : res pystr :=
  match v with
  | JStr s => Ok (PyStr.strip s)
  | _ => no_attribute v (u "strip")
  end.

Definition decimal_string (n : Z) : pystr :=
  u (DecimalString.NilZero.string_of_int (Z.to_int n)).

(** [repr(s)] of a [str] without quotes, backslashes or unprintable
    characters; escapes are not modelled. *)
Definition repr (s : pystr) : pystr := u "'" ++ s ++ u "'".

(** [int(s)] for a [str] *)
Definition int_of_str (s : pystr) : res Z :=
  match parse_int s with
  | Lit z => Ok z
  | Invalid =>
      raise ValueError (u "invalid literal for int() with base 10: " ++ repr s)
  | TooLong n =>
      raise ValueError
        (u "Exceeds the limit (4300 digits) for integer string conversion: value has "
           ++ decimal_string n
           ++ u " digits; use sys.set_int_max_str_digits() to increase the limit")
  end.

(** [int(v)] *)
Definition int (v : json) : res Z :=
  match v with
  | JInt n => Ok n
  | JBool b => Ok (if b then 1 else 0)
  | JFloat x => PyFloat.to_int x
  | JStr s => int_of_str s
  | _ =>
      raise TypeError
        (u "int() argument must be a string, a bytes-like object or a real number, not '"
           ++ type_name v ++ u "'")
  end.

(** [float(v)] *)
Definition float (v : json) : res PyFloat.float :=
  match v with
  | JInt n => of_int n
  | JBool b => Ok (if b then f1 else f0)
  | JFloat x => Ok x
  | JStr s =>
      match parse_float s with
      | Some x => Ok x
      | None => raise ValueError (u "could not convert string to float: " ++ repr s)
      end
  | _ =>
      raise TypeError
        (u "float() argument must be a string or a real number, not '"
           ++ type_name v ++ u "'")
  end.

(** [ord(v)] *)
Definition ord (v : json) : res Z :=
  match v with
  | JStr [c] => Ok c
  | JStr s =>
      raise TypeError
        (u "ord() expected a character, but string of length "
           ++ decimal_string (Z.of_nat (length s)) ++ u " found")
  | _ =>
      raise TypeError
        (u "ord() expected string of length 1, but " ++ type_name v ++ u " found")
  end.

(** [v == s] for a [str] literal [s] *)
Definition eq_str (v : json) (s : pystr) : bool :=
  match v with
  | JStr t => pystr_eqb t s
  | _ => false
  end.

End Json.

(** ** The data classes *)

(** [min] and [max] of a non-empty sequence of ints (the first element and
    the rest). *)
Definition min_of (a : Z) (l : list Z) : Z := fold_left Z.min l a.
Definition max_of (a : Z) (l : list Z) : Z := fold_left Z.max l a.

Module BoundingBox.

Record t := cls { x : Z; y : Z; width : Z; height : Z }.

(** The strings ["0,0,0,0"], the default of every [boundingBox] key. *)
Definition default_string : json := JStr (u "0,0,0,0").

(** [[p.strip() for p in pieces if p.strip()]] *)
Definition usable (pieces : list pystr) : list pystr :=
  map PyStr.strip
    (filter (fun p => match PyStr.strip p with [] => false | _ => true end)
            pieces).

(** The body of the [try] block: [Some b] when it returns [b], [None] when
    control falls through to the end of the block. *)
Definition from_string_try (bbox_str : json) : res (option t) :=
  pieces <- Json.split_comma bbox_str ;;
  let parts := usable pieces in
  if (length parts =? 4)%nat then
    ns <- mapM Json.int_of_str parts ;;
    match ns with
    | [x; y; w; h] => Ok (Some (cls x y w h))
    | _ => raise ValueError (u "not enough values to unpack")
    end
  else if (length parts =? 8)%nat then
    match parts with
    | [p0; p1; p2; p3; p4; p5; p6; p7] =>
        xs <- mapM Json.int_of_str [p0; p2; p4; p6] ;;
        ys <- mapM Json.int_of_str [p1; p3; p5; p7] ;;
        match xs, ys with
        | x0 :: xs', y0 :: ys' =>
            let min_x := min_of x0 xs' in
            let max_x := max_of x0 xs' in
            let min_y := min_of y0 ys' in
            let max_y := max_of y0 ys' in
            Ok (Some (cls min_x min_y (max_x - min_x) (max_y - min_y)))
        | _, _ => raise ValueError (u "min() arg is an empty sequence")
        end
    | _ => raise IndexError (u "list index out of range")
    end
  else Ok None.

(** [BoundingBox.from_string(bbox_str)] *)
Definition from_string (bbox_str : json) : res t :=
  r <- try_except (from_string_try bbox_str) [ValueError; IndexError]
         (fun _ => Ok None) ;;
  match r with
  | Some b => Ok b
  | None => Ok (cls 0 0 0 0)
  end.

End BoundingBox.

Module Word.

Record t := cls { word : json; boundingBox : BoundingBox.t }.

Definition from_dict (data : json) : res t :=
  w <- Json.get data (u "word") (JStr []) ;;
  bs <- Json.get data (u "boundingBox") BoundingBox.default_string ;;
  bb <- BoundingBox.from_string bs ;;
  Ok (cls w bb).

End Word.

Module Line.

(** [style] holds the value that [str(...)] is applied to: the conversion
    cannot fail on JSON data and the field is never read. *)
Record t := cls {
  text : json;
  words : list Word.t;
  boundingBox : BoundingBox.t;
  text_height : Z;
  style : json
}.

Definition from_dict (data : json) : res t :=
  ws <- Json.get data (u "words") (JList []) ;;
  items <- Json.iter ws ;;
  words <- mapM Word.from_dict items ;;
  text <- Json.get data (u "text") (JStr []) ;;
  bs <- Json.get data (u "boundingBox") BoundingBox.default_string ;;
  bb <- BoundingBox.from_string bs ;;
  th <- Json.get data (u "text_height") (JInt 0) ;;
  text_height <- Json.int (or_else th (JInt 0)) ;;
  st <- Json.get data (u "style") (JStr []) ;;
  Ok (cls text words bb text_height (or_else st (JStr []))).

End Line.

Module Region.

Record t := cls {
  lang : json;
  dir : json;
  lines : list Line.t;
  boundingBox : BoundingBox.t
}.

Definition from_dict (data : json) : res t :=
  ls <- Json.get data (u "lines") (JList []) ;;
  items <- Json.iter ls ;;
  lines <- mapM Line.from_dict items ;;
  lang <- Json.get data (u "lang") (JStr []) ;;
  dir <- Json.get data (u "dir") (JStr (u "h")) ;;
  bs <- Json.get data (u "boundingBox") BoundingBox.default_string ;;
  bb <- BoundingBox.from_string bs ;;
  Ok (cls lang dir lines bb).

End Region.

(** [TextDirection.HORIZONTAL.value] and [TextDirection.VERTICAL.value] *)
Definition HORIZONTAL : pystr := u "h".
Definition VERTICAL : pystr := u "v".

(** ** Sorting

    [sorted] and [list.sort] are stable and compare keys with [<] only.
    On keys that [<] orders totally (ints, floats other than NaN) the result
    is the one of this insertion sort. *)

Fixpoint insert_by {K A} (ltb : K -> K -> bool) (k : K) (a : A)
    (l : list (K * A)) : list (K * A) :=
  match l with
  | [] => [(k, a)]
  | (k', a') :: l' =>
      if ltb k' k then (k', a') :: insert_by ltb k a l' else (k, a) :: l
  end.

Definition sort_keyed {K A} (ltb : K -> K -> bool) (l : list (K * A))
  : list (K * A) :=
  fold_right (fun ka acc => insert_by ltb (fst ka) (snd ka) acc) [] l.

(** [sorted(l, key=key)] for a key function that cannot fail. *)
Definition sorted_by {K A} (ltb : K -> K -> bool) (key : A -> K) (l : list A)
  : list A :=
  map snd (sort_keyed ltb (map (fun a => (key a, a)) l)).

(** ** The calibration store and the clock

    What [json.load] finds in [ocr_layout_constants.json], whether the file
    can be opened for writing, and [int(time.time())]. *)

Inductive file_state :=
| Absent                  (* [os.path.exists] is false *)
| Unreadable              (* opening or reading raises [OSError] *)
| Malformed               (* not UTF-8 or not JSON: [json.load] raises [ValueError] *)
| Holds (content : json). (* [json.load] returns [content] *)

Record world := mk_world {
  constants_file : file_state;
  writable : bool;
  time : Z
}.

(** Computations that read or write the store and may raise. *)
Definition M (A : Type) : Type := world -> res A * world.

Definition lift {A} (c : res A) : M A := fun w => (c, w).

Definition bindM {A B} (c : M A) (k : A -> M B) : M B :=
  fun w =>
    match c w with
    | (Ok a, w') => k a w'
    | (Raise e, w') => (Raise e, w')
    end.

Notation "x <-- c ;; k" := (bindM c (fun x => k))
  (at level 61, c at next level, right associativity) : py_scope.
Notation "' pat <-- c ;; k" := (bindM c (fun x => match x with pat => k end))
  (at level 61, pat pattern, c at next level, right associativity) : py_scope.

(** [try: body  except classes as e: handler e] around a computation with
    effects. *)
Definition try_exceptM {A} (body : M A) (classes : list exn_class)
    (handler : exn -> M A) : M A :=
  fun w =>
    match body w with
    | (Ok a, w') => (Ok a, w')
    | (Raise e, w') =>
        if caught classes e then handler e w' else (Raise e, w')
    end.

(** ** Fragments: the dicts built for the lines of horizontal regions

    [y_mid] is the key that [_group_fragments_by_line] adds to each dict. *)

Module Fragment.

Record t := mk {
  text : pystr;
  x : Z;
  y : Z;
  width : Z;
  height : Z;
  y_mid : option float
}.

(** [frag['y_mid']] *)
Definition get_y_mid (frag : t) : res float :=
  match y_mid frag with
  | Some v => Ok v
  | None => raise KeyError (u "'y_mid'")
  end.

(** [frag['y_mid'] = v] *)
Definition set_y_mid (frag : t) (v : float) : t :=
  mk (text frag) (x frag) (y frag) (width frag) (height frag) (Some v).

End Fragment.

(** ** The converter *)

Module OCRJsonToTextLine.

Definition same_line_threshold_ratio : float := f0_4.

(** *** Layout constants: estimation and persistence *)

Definition cjk_code (code : Z) : bool :=
  ((0x4E00 <=? code) && (code <=? 0x9FFF))
  || ((0x3400 <=? code) && (code <=? 0x4DBF))
  || ((0x20000 <=? code) && (code <=? 0x2A6DF))
  || ((0x2A700 <=? code) && (code <=? 0x2B73F))
  || ((0x2B740 <=? code) && (code <=? 0x2B81F))
  || ((0x2B820 <=? code) && (code <=? 0x2CEAF)).

Fixpoint contains_cjk_loop (chars : list json) : res bool :=
  match chars with
  | [] => Ok false
  | ch :: rest =>
      code <- Json.ord ch ;;
      if cjk_code code then Ok true else contains_cjk_loop rest
  end.

Definition _contains_cjk (s : json) : res bool :=
  chars <- Json.iter s ;;
  contains_cjk_loop chars.

(** [statistics.median] *)
Definition median (data : list float) : res float :=
  let data := sorted_by flt (fun v => v) data in
  let n := length data in
  if (n =? 0)%nat then raise StatisticsError (u "no median for empty data")
  else if (Nat.modulo n 2 =? 1)%nat then Ok (nth (Nat.div n 2) data f0)
  else
    let i := Nat.div n 2 in
    fdiv (fadd (nth (i - 1) data f0) (nth i data f0)) f2.

Definition _robust_median (values : list float) : res float :=
  match values with
  | [] => Ok f0
  | v0 :: _ => try_except (median values) [StatisticsError] (fun _ => Ok v0)
  end.

Definition _load_constants : M json :=
  fun w =>
    match constants_file w with
    | Holds content => (Ok content, w)
    | Absent | Unreadable | Malformed => (Ok (JDict []), w)
    end.

(** A write that fails with [OSError] leaves the file as it was. *)
Definition _save_constants (constants : json) : M unit :=
  fun w =>
    if writable w
    then (Ok tt, mk_world (Holds constants) (writable w) (time w))
    else (Ok tt, w).

(** The loop over [line.words]; a [Word] and a [BoundingBox] are always
    true, so [not w] is false and [w.boundingBox] is true. *)
Fixpoint word_samples (words : list Word.t) (char_heights : list float)
  : res (list float) :=
  match words with
  | [] => Ok char_heights
  | w :: rest =>
      if negb (truth (Word.word w)) then word_samples rest char_heights
      else
        cjk <- _contains_cjk (Word.word w) ;;
        if cjk && (0 <? BoundingBox.height (Word.boundingBox w)) then
          h <- of_int (BoundingBox.height (Word.boundingBox w)) ;;
          word_samples rest (char_heights ++ [h])
        else word_samples rest char_heights
  end.

(** The loop over [region.lines] *)
Fixpoint line_samples (lines : list Line.t)
    (char_heights line_heights : list float) : res (list float * list float) :=
  match lines with
  | [] => Ok (char_heights, line_heights)
  | line :: rest =>
      line_heights <-
        (if 0 <? BoundingBox.height (Line.boundingBox line) then
           h <- of_int (BoundingBox.height (Line.boundingBox line)) ;;
           Ok (line_heights ++ [h])
         else if negb (Line.text_height line =? 0) then
           h <- of_int (Line.text_height line) ;;
           Ok (line_heights ++ [h])
         else Ok line_heights) ;;
      char_heights <- word_samples (Line.words line) char_heights ;;
      line_samples rest char_heights line_heights
  end.

(** The loop over [regions] *)
Fixpoint collect_samples (regions : list Region.t)
    (char_heights line_heights : list float) : res (list float * list float) :=
  match regions with
  | [] => Ok (char_heights, line_heights)
  | region :: rest =>
      '(char_heights, line_heights) <-
        line_samples (Region.lines region) char_heights line_heights ;;
      collect_samples rest char_heights line_heights
  end.

(** [lh / current_char_height for lh in line_heights if lh > 0] *)
Fixpoint ratios (line_heights : list float) (current_char_height : float)
  : res (list float) :=
  match line_heights with
  | [] => Ok []
  | lh :: rest =>
      if fgt lh f0 then
        r <- fdiv lh current_char_height ;;
        rs <- ratios rest current_char_height ;;
        Ok (r :: rs)
      else ratios rest current_char_height
  end.

(** The estimates of the current document: char height, line height and
    multiplier. *)
Definition current_estimates (char_heights line_heights : list float)
  : res (float * float * float) :=
  current_char_height <-
    (if (5 <=? length char_heights)%nat then _robust_median char_heights
     else Ok f0) ;;
  current_line_height <-
    (if (3 <=? length line_heights)%nat then _robust_median line_heights
     else Ok f0) ;;
  current_multiplier <-
    (if fgt current_char_height f0 && fgt current_line_height f0 then
       rs <- ratios line_heights current_char_height ;;
       _robust_median rs
     else Ok f0) ;;
  Ok (current_char_height, current_line_height, current_multiplier).

Definition is_dict (v : json) : bool :=
  match v with JDict _ => true | _ => false end.

(** The values read from the loaded constants: previous char height,
    multiplier and sample counts. *)
Definition history (loaded : json) : res (float * float * Z * Z) :=
  ch <- Json.get loaded (u "char_height") (JInt 0) ;;
  prev_char_height <- Json.float (or_else ch (JInt 0)) ;;
  lm <- Json.get loaded (u "line_height_multiplier") (JInt 0) ;;
  prev_multiplier <- Json.float (or_else lm (JInt 0)) ;;
  sc <- Json.get loaded (u "sample_counts") (JDict []) ;;
  prev_counts <-
    (if is_dict sc then Json.get loaded (u "sample_counts") (JDict [])
     else Ok (JDict [])) ;;
  c <- Json.get prev_counts (u "char") (JInt 0) ;;
  prev_char_n <- Json.int c ;;
  l <- Json.get prev_counts (u "line") (JInt 0) ;;
  prev_line_n <- Json.int l ;;
  Ok (prev_char_height, prev_multiplier, prev_char_n, prev_line_n).

(** [min(0.7, n / float(n + prev_n + 1e-6))] *)
Definition alpha (n prev_n : Z) : res float :=
  total <- of_int (n + prev_n) ;;
  nf <- of_int n ;;
  q <- fdiv nf (fadd total f1e_6) ;;
  Ok (fmin f0_7 q).

(** The two blocks that fall back on history or blend with it, one for the
    char height ([sparse_char], [char_n], [prev_char_n]) and one for the
    multiplier ([sparse_line], [line_n], [prev_line_n]). *)
Definition blend (current prev : float) (sparse : bool) (n prev_n : Z)
  : res float :=
  if fgt prev f0 then
    if sparse || fle current f0 then Ok prev
    else
      a <- alpha n prev_n ;;
      Ok (fadd (fmul a current) (fmul (fsub f1 a) prev))
  else Ok current.

Definition estimate_layout_constants (regions : list Region.t)
  : M (float * float * (Z * Z)) :=
  '(char_heights, line_heights) <-- lift (collect_samples regions [] []) ;;
  '(current_char_height, current_line_height, current_multiplier) <--
    lift (current_estimates char_heights line_heights) ;;
  loaded <-- _load_constants ;;
  '(prev_char_height, prev_multiplier, prev_char_n, prev_line_n) <--
    lift (history loaded) ;;
  let char_n := Z.of_nat (length char_heights) in
  let line_n := Z.of_nat (length line_heights) in
  let sparse_char := char_n <? 5 in
  let sparse_line := line_n <? 3 in
  final_char_height <--
    lift (blend current_char_height prev_char_height sparse_char
                char_n prev_char_n) ;;
  final_multiplier <--
    lift (blend current_multiplier prev_multiplier sparse_line
                line_n prev_line_n) ;;
  let final_char_height :=
    if fle final_char_height f0 then f32 else final_char_height in
  let final_multiplier :=
    if fle final_multiplier f0 then f1_5 else final_multiplier in
  let final_multiplier := fmax f1_2 (fmin f2 final_multiplier) in
  let new_char_n := Z.min 1000 (prev_char_n + char_n) in
  let new_line_n := Z.min 1000 (prev_line_n + line_n) in
  fun w =>
    (_ <-- _save_constants (JDict [
        (u "char_height", JFloat (round_to final_char_height 2));
        (u "line_height_multiplier", JFloat (round_to final_multiplier 3));
        (u "sample_counts",
         JDict [(u "char", JInt new_char_n); (u "line", JInt new_line_n)]);
        (u "updated_at", JInt (time w))]) ;;
     lift (Ok (final_char_height, final_multiplier, (char_n, line_n)))) w.

(** *** Fragments, rows and spacing *)

Definition is_empty {A} (l : list A) : bool :=
  match l with [] => true | _ => false end.

(** The loop over [region.lines]; [line] and [line.boundingBox] are always
    true, so [bbox] is the box of the line. *)
Fixpoint line_fragments (lines : list Line.t) (fragments : list Fragment.t)
  : res (list Fragment.t) :=
  match lines with
  | [] => Ok fragments
  | line :: rest =>
      if negb (truth (Line.text line)) then line_fragments rest fragments
      else
        let bbox := Line.boundingBox line in
        t <- Json.strip (Line.text line) ;;
        line_fragments rest
          (fragments ++
             [Fragment.mk t (BoundingBox.x bbox) (BoundingBox.y bbox)
                (BoundingBox.width bbox) (BoundingBox.height bbox) None])
  end.

Fixpoint region_fragments (regions : list Region.t)
    (fragments : list Fragment.t) : res (list Fragment.t) :=
  match regions with
  | [] => Ok fragments
  | region :: rest =>
      if negb (Json.eq_str (Region.dir region) HORIZONTAL)
      then region_fragments rest fragments
      else
        fragments <- line_fragments (Region.lines region) fragments ;;
        region_fragments rest fragments
  end.

Definition _collect_horizontal_fragments (regions : list Region.t)
  : res (list Fragment.t) :=
  region_fragments regions [].

(** [frag['y_mid'] = frag['y'] + frag['height'] / 2.0] *)
Definition with_y_mid (frag : Fragment.t) : res Fragment.t :=
  h <- of_int (Fragment.height frag) ;;
  half <- fdiv h f2 ;;
  yf <- of_int (Fragment.y frag) ;;
  Ok (Fragment.set_y_mid frag (fadd yf half)).

(** [fragments.sort(key=lambda frag: frag['y_mid'])]: the keys are computed
    first, then the list is sorted. *)
Definition sort_by_y_mid (fragments : list Fragment.t)
  : res (list Fragment.t) :=
  keyed <- mapM (fun frag => k <- Fragment.get_y_mid frag ;; Ok (k, frag))
                fragments ;;
  Ok (map snd (sort_keyed flt keyed)).

(** [sorted(current_group, key=lambda frag: frag['x'])] *)
Definition sorted_by_x (group : list Fragment.t) : list Fragment.t :=
  sorted_by Z.ltb Fragment.x group.

(** The clustering loop: the closed groups, the current group and its
    running mean. *)
Fixpoint group_loop (threshold : float) (items : list Fragment.t)
    (groups : list (list Fragment.t)) (current_group : list Fragment.t)
    (current_mid : option float)
  : res (list (list Fragment.t) * list Fragment.t) :=
  match items with
  | [] => Ok (groups, current_group)
  | item :: rest =>
      match current_group, current_mid with
      | _ :: _, Some mid =>
          ym <- Fragment.get_y_mid item ;;
          if fle (fabs (fsub ym mid)) threshold then
            let current_group := current_group ++ [item] in
            n1 <- of_int (Z.of_nat (length current_group) - 1) ;;
            ym <- Fragment.get_y_mid item ;;
            n <- of_int (Z.of_nat (length current_group)) ;;
            mid <- fdiv (fadd (fmul mid n1) ym) n ;;
            group_loop threshold rest groups current_group (Some mid)
          else
            let groups := groups ++ [sorted_by_x current_group] in
            ym <- Fragment.get_y_mid item ;;
            group_loop threshold rest groups [item] (Some ym)
      | _, _ =>
          ym <- Fragment.get_y_mid item ;;
          group_loop threshold rest groups [item] (Some ym)
      end
  end.

(** Returns the row groups; the second component is the caller's list
    [fragments] as the call leaves it: every dict with its [y_mid], sorted
    in place. *)
Definition _group_fragments_by_line (fragments : list Fragment.t)
    (line_spacing ratio : float)
  : res (list (list Fragment.t) * list Fragment.t) :=
  if is_empty fragments then Ok ([], fragments)
  else
    fragments <- mapM with_y_mid fragments ;;
    fragments <- sort_by_y_mid fragments ;;
    let threshold := fmax f1 (fmul ratio line_spacing) in
    '(groups, current_group) <- group_loop threshold fragments [] [] None ;;
    let groups :=
      if negb (is_empty current_group)
      then groups ++ [sorted_by_x current_group] else groups in
    Ok (groups, fragments).

Definition _compute_row_indent_spaces (row : list Fragment.t) (base_left : Z)
    (char_height : float) : res Z :=
  match map Fragment.x row with
  | [] => Ok 0
  | x0 :: xs =>
      let char_height := if fle char_height f0 then f32 else char_height in
      let left_x := min_of x0 xs in
      let indent_px := Z.max 0 (left_x - base_left) in
      px <- of_int indent_px ;;
      q <- fdiv px char_height ;;
      spaces <- PyFloat.round (fmul q f2) ;;
      Ok (Z.max 0 spaces)
  end.

Definition _compute_blank_lines_between (prev_row curr_row : list Fragment.t)
    (line_spacing : float) : res Z :=
  match map (fun item => Fragment.y item + Fragment.height item) prev_row,
        map Fragment.y curr_row with
  | b0 :: bs, t0 :: ts =>
      if fle line_spacing f0 then Ok 0
      else
        let prev_bottom := max_of b0 bs in
        let curr_top := min_of t0 ts in
        g <- of_int (curr_top - prev_bottom) ;;
        let gap_px := fmax f0 g in
        q <- ffloordiv gap_px line_spacing ;;
        blanks <- to_int q ;;
        Ok (Z.max 0 blanks)
  | _, _ => Ok 0
  end.

(** The loop of [_join_fragments_with_spacing]: the parts so far and
    [prev_right]. *)
Fixpoint join_loop (row : list Fragment.t) (char_height : float)
    (parts : list pystr) (prev_right : option Z) : res (list pystr) :=
  match row with
  | [] => Ok parts
  | frag :: rest =>
      match prev_right with
      | None =>
          join_loop rest char_height (parts ++ [Fragment.text frag])
            (Some (Fragment.x frag + Fragment.width frag))
      | Some prev =>
          let gap_px := Z.max 0 (Fragment.x frag - prev) in
          px <- of_int gap_px ;;
          q <- fdiv px char_height ;;
          spaces <- PyFloat.round (fmul q f2) ;;
          let parts := if 0 <? spaces then parts ++ [PyStr.spaces spaces] else parts in
          join_loop rest char_height (parts ++ [Fragment.text frag])
            (Some (Fragment.x frag + Fragment.width frag))
      end
  end.

Definition _join_fragments_with_spacing (row : list Fragment.t)
    (char_height : float) : res pystr :=
  if is_empty row then Ok []
  else
    let char_height := if fle char_height f0 then f32 else char_height in
    parts <- join_loop row char_height [] None ;;
    Ok (join [] parts).

(** The loop over the row groups: the text lines so far and [prev_row]. *)
Fixpoint rows_loop (grouped : list (list Fragment.t)) (base_left : Z)
    (char_height line_spacing : float) (text_lines : list pystr)
    (prev_row : option (list Fragment.t)) : res (list pystr) :=
  match grouped with
  | [] => Ok text_lines
  | row :: rest =>
      text_lines <-
        match prev_row with
        | Some prev =>
            blanks <- _compute_blank_lines_between prev row line_spacing ;;
            Ok (if 0 <? blanks
                then text_lines ++ repeat [] (Z.to_nat blanks)
                else text_lines)
        | None => Ok text_lines
        end ;;
      indent_spaces <- _compute_row_indent_spaces row base_left char_height ;;
      joined <- _join_fragments_with_spacing row char_height ;;
      let stripped := PyStr.strip joined in
      if is_empty stripped
      then rows_loop rest base_left char_height line_spacing text_lines prev_row
      else
        rows_loop rest base_left char_height line_spacing
          (text_lines ++ [PyStr.spaces indent_spaces ++ stripped]) (Some row)
  end.

(** The texts of the lines of one vertical region *)
Fixpoint vertical_lines (lines : list Line.t) (text_lines : list pystr)
  : res (list pystr) :=
  match lines with
  | [] => Ok text_lines
  | line :: rest =>
      t <- Json.strip (or_else (Line.text line) (JStr [])) ;;
      vertical_lines rest (if is_empty t then text_lines else text_lines ++ [t])
  end.

Fixpoint vertical_texts (regions : list Region.t) (text_lines : list pystr)
  : res (list pystr) :=
  match regions with
  | [] => Ok text_lines
  | region :: rest =>
      let sorted_lines :=
        sorted_by Z.ltb (fun l => BoundingBox.x (Line.boundingBox l))
                  (Region.lines region) in
      text_lines <- vertical_lines sorted_lines text_lines ;;
      vertical_texts rest text_lines
  end.

Definition convert_regions_to_text_lines (regions : list Region.t)
    (char_height line_multiplier : float) : res (list pystr) :=
  fragments <- _collect_horizontal_fragments regions ;;
  text_lines <-
    (if negb (is_empty fragments) then
       let line_spacing := fmax f1 (fmul char_height line_multiplier) in
       '(grouped, fragments) <-
         _group_fragments_by_line fragments line_spacing
                                  same_line_threshold_ratio ;;
       let base_left :=
         match map Fragment.x fragments with
         | [] => 0
         | x0 :: xs => min_of x0 xs
         end in
       rows_loop grouped base_left char_height line_spacing [] None
     else Ok []) ;;
  let vertical_regions :=
    filter (fun r => Json.eq_str (Region.dir r) VERTICAL) regions in
  let vertical_regions :=
    sorted_by Z.ltb (fun r => BoundingBox.x (Region.boundingBox r))
              vertical_regions in
  vertical_texts vertical_regions text_lines.

(** *** The entry point *)

(** ["转换失败: "] *)
Definition failure_prefix : pystr :=
  [0x8F6C; 0x6362; 0x5931; 0x8D25; 0x3A; 0x20].

(** ["JSON数据中缺少'Result'字段"] *)
Definition missing_result : pystr :=
  u "JSON" ++ [0x6570; 0x636E; 0x4E2D; 0x7F3A; 0x5C11] ++ u "'Result'"
    ++ [0x5B57; 0x6BB5].

(** The body of the [try] block *)
Definition convert_try (ocr_json : list (pystr * json)) : M pystr :=
  if negb (Json.contains ocr_json (u "Result"))
  then lift (raise ValueError missing_result)
  else
    result <-- lift (Json.getitem ocr_json (u "Result")) ;;
    regions_data <-- lift (Json.get result (u "regions") (JList [])) ;;
    items <-- lift (Json.iter regions_data) ;;
    regions <-- lift (mapM Region.from_dict items) ;;
    '(char_h, line_mul, _) <-- estimate_layout_constants regions ;;
    lines <-- lift (convert_regions_to_text_lines regions char_h line_mul) ;;
    lift (Ok (join [0x0A] lines)).

(** [convert_json_to_text(ocr_json)] for a dict [ocr_json], given by its
    entries. *)
Definition convert_json_to_text (ocr_json : list (pystr * json)) : M pystr :=
  try_exceptM (convert_try ocr_json) [KeyError; TypeError; ValueError]
    (fun e => lift (Ok (failure_prefix ++ exn_str e))).

End OCRJsonToTextLine.

(** * Notions used in the statements *)

Module BoundingBoxSpec.
Import BoundingBox.

Definition zero_rect : t := cls 0 0 0 0.

(** The usable tokens of a box string. *)
Definition tokens (s : pystr) : list pystr := usable (split 0x2C s).

(** A box string is malformed when it has neither 4 nor 8 usable tokens, or
    when one of its tokens is not an integer literal. *)
Definition malformed (s : pystr) : Prop :=
  (length (tokens s) <> 4%nat /\ length (tokens s) <> 8%nat)
  \/ exists p, In p (tokens s) /\ forall z, parse_int p <> Lit z.

End BoundingBoxSpec.

Module FloatSpec.

(** A shift record without rounding bits. *)
Definition exact (m : Z) : shr_record := Build_shr_record m false false.

(** The float of a positive int below [2^53]: the mantissa is the int
    shifted to 53 bits. *)
Definition canon (p : positive) : float :=
  S754_finite false (Z.to_pos (Zpos p * 2 ^ (53 - Zpos (digits2_pos p))))
              (Zpos (digits2_pos p) - 53).

(** The float of an int from 0 up to [2^53]. *)
Definition Z2F (n : Z) : float :=
  match n with
  | Zpos p => canon p
  | _ => S754_zero false
  end.

End FloatSpec.

Module EstimatorSpec.
Import OCRJsonToTextLine.

(** What [_load_constants] returns in a world. *)
Definition loaded (w : world) : json :=
  match constants_file w with
  | Holds content => content
  | Absent | Unreadable | Malformed => JDict []
  end.

(** No persisted history: the store file is missing, unreadable or
    corrupt. *)
Definition no_history (w : world) : Prop :=
  constants_file w = Absent \/ constants_file w = Unreadable
  \/ constants_file w = Malformed.

(** The final clamping of the multiplier. *)
Definition clamp (x : float) : float := fmax f1_2 (fmin f2 x).

(** The fallbacks on the hard-coded defaults. *)
Definition or_default (default x : float) : float :=
  if fle x f0 then default else x.

(** The dict that a run hands to [_save_constants]. *)
Definition constants (char_height multiplier : float) (char_n line_n now : Z)
  : json :=
  JDict [
    (u "char_height", JFloat (round_to char_height 2));
    (u "line_height_multiplier", JFloat (round_to multiplier 3));
    (u "sample_counts",
     JDict [(u "char", JInt char_n); (u "line", JInt line_n)]);
    (u "updated_at", JInt now)].

(** The sample counts that the next run reads from the store. *)
Definition previous_counts (w : world) : option (Z * Z) :=
  match history (loaded w) with
  | Ok (_, _, c, l) => Some (c, l)
  | Raise _ => None
  end.

(** Documents as the OCR service sends them: the text of a word is a
    string and the heights are below [2^53]. *)
Definition plain_word (w : Word.t) : Prop :=
  (exists s, Word.word w = JStr s)
  /\ BoundingBox.height (Word.boundingBox w) < 2 ^ 53.

Definition plain_line (l : Line.t) : Prop :=
  Forall plain_word (Line.words l)
  /\ BoundingBox.height (Line.boundingBox l) < 2 ^ 53
  /\ 0 <= Line.text_height l < 2 ^ 53.

Definition plain_region (r : Region.t) : Prop :=
  Forall plain_line (Region.lines r).

(** The store after a sequence of estimation runs, one per document. *)
Fixpoint run_all (docs : list (list Region.t)) (w : world) : world :=
  match docs with
  | [] => w
  | regions :: rest => run_all rest (snd (estimate_layout_constants regions w))
  end.

(** The blending weight and the blend in the words of the specification:
    [weight = min(0.7, current_count / (current_count + historical_count))]
    and [weight * current + (1 - weight) * historical]. *)
Definition spec_weight (n hist_n : Z) : res float :=
  nf <- of_int n ;;
  total <- of_int (n + hist_n) ;;
  q <- fdiv nf total ;;
  Ok (fmin f0_7 q).

Definition spec_blend (current hist : float) (n hist_n : Z) : res float :=
  a <- spec_weight n hist_n ;;
  Ok (fadd (fmul a current) (fmul (fsub f1 a) hist)).

(** C5 in the words of the claim: with history and a usable estimate of the
    document, the value returned is the blend with the weight
    [min(0.7, n / (n + hist_n))] (before the defaults and the clamp, which
    leave a positive blend in range as it is). *)
Definition C5_as_stated : Prop :=
  forall regions w w' ch m cnt chs lhs cch clh cm pch pm pcn pln,
    estimate_layout_constants regions w = (Ok (ch, m, cnt), w') ->
    collect_samples regions [] [] = Ok (chs, lhs) ->
    current_estimates chs lhs = Ok (cch, clh, cm) ->
    history (loaded w) = Ok (pch, pm, pcn, pln) ->
    (fgt pch f0 = true -> (5 <= length chs)%nat -> fgt cch f0 = true ->
     exists b, spec_blend cch pch (Z.of_nat (length chs)) pcn = Ok b
               /\ ch = or_default f32 b)
    /\ (fgt pm f0 = true -> (3 <= length lhs)%nat -> fgt cm f0 = true ->
        exists b, spec_blend cm pm (Z.of_nat (length lhs)) pln = Ok b
                  /\ m = clamp (or_default f1_5 b)).

End EstimatorSpec.

(** Concrete documents and stores *)
Module Examples.

Definition cjk_word (h : Z) : Word.t :=
  Word.cls (JStr [0x4E2D]) (BoundingBox.cls 0 0 h h).

Definition line_of (words : list Word.t) (h : Z) : Line.t :=
  Line.cls (JStr (u "text")) words (BoundingBox.cls 0 0 100 h) 0 (JStr []).

Definition region_of (lines : list Line.t) : Region.t :=
  Region.cls (JStr []) (JStr (u "h")) lines (BoundingBox.cls 0 0 0 0).

(** One line of height 60 with five CJK words of height 40. *)
Definition doc5 : list Region.t :=
  [region_of [line_of (repeat (cjk_word 40) 5) 60]].

(** Three lines of height 60, each with two CJK words of height 40. *)
Definition doc6 : list Region.t :=
  [region_of (repeat (line_of [cjk_word 40; cjk_word 40] 60) 3)].

Definition w_cold : world := mk_world Absent true 1700000000.

(** A store with char height 20.0, multiplier 1.5 and five samples each. *)
Definition w_hist : world :=
  mk_world
    (Holds (JDict [
       (u "char_height", JFloat (of_decimal 20 0));
       (u "line_height_multiplier", JFloat f1_5);
       (u "sample_counts", JDict [(u "char", JInt 5); (u "line", JInt 5)]);
       (u "updated_at", JInt 1600000000)]))
    true 1700000000.

(** A fragment without height: its midpoint is [y]. *)
Definition frag (name : string) (x y : Z) : Fragment.t :=
  Fragment.mk (u name) x y 10 0 None.

(** A fragment of height 20. *)
Definition box (name : string) (x y : Z) : Fragment.t :=
  Fragment.mk (u name) x y 50 20 None.

Definition f10 : float := of_decimal 10 0.
Definition f75 : float := of_decimal 75 0.

End Examples.

Module ClusterSpec.
Import OCRJsonToTextLine.

(** [f'] is the dict [f] once its [y_mid] key is set. *)
Definition annotated (f f' : Fragment.t) : Prop :=
  exists v, f' = Fragment.set_y_mid f v.









End ClusterSpec.

Module BlankSpec.
Import OCRJsonToTextLine ClusterSpec.

(** [floor(gap_px / line_spacing)] with the division of floats. *)
Definition floor_of_quotient (gap_px line_spacing : float) : res Z :=
  q <- fdiv gap_px line_spacing ;;
  to_int (floor q).



End BlankSpec.

(** * Notions used in the further properties *)

Module DocumentSpec.

(** The value of a [boundingBox] key is absent or a string. *)
Definition box_field (entries : list (pystr * json)) : Prop :=
  match Json.lookup (u "boundingBox") entries with
  | None | Some (JStr _) => True
  | Some _ => False
  end.

(** A word of the input schema: a dict whose box, if any, is a string. *)
Definition word_json (v : json) : Prop :=
  exists entries, v = JDict entries /\ box_field entries.

(** The [words] (or [lines]) of a dict: absent, or a list of items that
    satisfy [P]. *)
Definition items_field (key : pystr) (P : json -> Prop)
    (entries : list (pystr * json)) : Prop :=
  match Json.lookup key entries with
  | None => True
  | Some (JList items) => Forall P items
  | Some _ => False
  end.

(** The items under a key, [[]] when the key is absent. *)
Definition items_of (key : pystr) (entries : list (pystr * json))
  : list json :=
  match Json.lookup key entries with
  | Some (JList items) => items
  | _ => []
  end.

(** A line of the input schema: its words are words, its box a string, its
    [text_height] an int, a bool or absent. *)
Definition line_json (v : json) : Prop :=
  exists entries,
    v = JDict entries /\ box_field entries
    /\ items_field (u "words") word_json entries
    /\ match Json.lookup (u "text_height") entries with
       | None | Some (JInt _) | Some (JBool _) | Some JNone => True
       | Some _ => False
       end.

(** A region of the input schema. *)
Definition region_json (v : json) : Prop :=
  exists entries,
    v = JDict entries /\ box_field entries
    /\ items_field (u "lines") line_json entries.

End DocumentSpec.

Module StoreSpec.

(** What [float(v or 0)] reads from a stored float [x]: a zero of either
    sign reads as [0.0]. *)
Definition read_back (x : float) : float := if is_zero x then f0 else x.

End StoreSpec.

Module LayoutSpec.
Import OCRJsonToTextLine.

(** A region that [_collect_horizontal_fragments] reads. *)
Definition horizontal (r : Region.t) : bool :=
  Json.eq_str (Region.dir r) HORIZONTAL.

(** The text of a line is a string, or it is false ([None], [0], ...). *)
Definition textual (line : Line.t) : Prop :=
  truth (Line.text line) = true -> exists s, Line.text line = JStr s.

(** The fragment of a line: none when the text is empty. *)
Definition fragment_of (line : Line.t) : list Fragment.t :=
  match Line.text line with
  | JStr (c :: s) =>
      let bbox := Line.boundingBox line in
      [Fragment.mk (PyStr.strip (c :: s)) (BoundingBox.x bbox)
         (BoundingBox.y bbox) (BoundingBox.width bbox)
         (BoundingBox.height bbox) None]
  | _ => []
  end.

(** The fragments of a document: those of the lines of its horizontal
    regions, in document order. *)
Definition fragments_of (regions : list Region.t) : list Fragment.t :=
  flat_map (fun r => if horizontal r
                     then flat_map fragment_of (Region.lines r) else [])
           regions.

(** Two keyed values in the order of their keys: the key of the second is
    not below the key of the first. *)
Definition key_ordered {K A} (ltb : K -> K -> bool) (p q : K * A) : Prop :=
  ltb (fst q) (fst p) = false.

(** Left to right. *)
Definition by_x (a b : Fragment.t) : Prop := Fragment.x a <= Fragment.x b.

(** Top to bottom: the midpoint of [b] is not above the one of [a]. *)
Definition by_y_mid (a b : Fragment.t) : Prop :=
  exists ma mb,
    Fragment.y_mid a = Some ma /\ Fragment.y_mid b = Some mb
    /\ flt mb ma = false.

(** The left edge of a row. *)
Definition row_left (row : list Fragment.t) : Z :=
  match map Fragment.x row with
  | [] => 0
  | x0 :: xs => min_of x0 xs
  end.

(** The gap before a fragment, given the right edge of the one before. *)
Definition gap_before (prev_right : Z) (frag : Fragment.t) : Z :=
  Z.max 0 (Fragment.x frag - prev_right).

(** Every gap of the row is a whole number of char heights [c] (and below
    [2^52] pixels). *)
Fixpoint aligned (c : Z) (prev_right : Z) (row : list Fragment.t) : Prop :=
  match row with
  | [] => True
  | frag :: rest =>
      (c | gap_before prev_right frag) /\ gap_before prev_right frag < 2 ^ 52
      /\ aligned c (Fragment.x frag + Fragment.width frag) rest
  end.

(** The texts of the row, each after two spaces per char height of gap. *)
Fixpoint spaced (c : Z) (prev_right : Z) (row : list Fragment.t) : pystr :=
  match row with
  | [] => []
  | frag :: rest =>
      PyStr.spaces (2 * (gap_before prev_right frag / c))
        ++ Fragment.text frag
        ++ spaced c (Fragment.x frag + Fragment.width frag) rest
  end.

(** The first of the text lines, if any, is not a blank line. *)
Definition starts_with_text (text_lines : list pystr) : Prop :=
  match text_lines with
  | [] => True
  | line :: _ => line <> []
  end.

(** The vertical regions, left to right, as the converter visits them. *)
Definition vertical_regions (regions : list Region.t) : list Region.t :=
  sorted_by Z.ltb (fun r => BoundingBox.x (Region.boundingBox r))
    (filter (fun r => Json.eq_str (Region.dir r) VERTICAL) regions).

End LayoutSpec.

Module VerticalSpec.
Import OCRJsonToTextLine.

(** The text line of a line of a vertical region: none when the stripped
    text is empty. *)
Definition line_text (line : Line.t) : list pystr :=
  match Line.text line with
  | JStr s => if is_empty (PyStr.strip s) then [] else [PyStr.strip s]
  | _ => []
  end.

(** The text lines of the vertical regions: regions left to right, and the
    lines of each region left to right. *)
Definition vertical_text_of (regions : list Region.t) : list pystr :=
  flat_map
    (fun r =>
       flat_map line_text
         (sorted_by Z.ltb (fun l => BoundingBox.x (Line.boundingBox l))
                    (Region.lines r)))
    (LayoutSpec.vertical_regions regions).

End VerticalSpec.

Module SampleSpec.
Import OCRJsonToTextLine.

(** A word gives a char-height sample when its text has a CJK ideograph
    and its box has a positive height. *)
Definition is_char_sample (w : Word.t) : bool :=
  match Word.word w with
  | JStr s => existsb cjk_code s && (0 <? BoundingBox.height (Word.boundingBox w))
  | _ => false
  end.

(** The char-height samples of a document, in document order. *)
Definition char_samples_of (regions : list Region.t) : list float :=
  flat_map
    (fun r =>
       flat_map
         (fun l =>
            map (fun w => FloatSpec.Z2F (BoundingBox.height (Word.boundingBox w)))
                (filter is_char_sample (Line.words l)))
         (Region.lines r))
    regions.

(** The line-height sample of a line: the height of its box when positive,
    else its [text_height] when not 0. *)
Definition line_sample (l : Line.t) : list float :=
  if 0 <? BoundingBox.height (Line.boundingBox l)
  then [FloatSpec.Z2F (BoundingBox.height (Line.boundingBox l))]
  else if negb (Line.text_height l =? 0)
       then [FloatSpec.Z2F (Line.text_height l)]
       else [].

Definition line_samples_of (regions : list Region.t) : list float :=
  flat_map (fun r => flat_map line_sample (Region.lines r)) regions.

End SampleSpec.

Module TokenSpec.

(** A field of a box string that [from_string] drops: no comma in it and
    nothing left once stripped. *)
Definition blank_field (ws : pystr) : Prop :=
  ~ In 0x2C ws /\ PyStr.strip ws = [].

End TokenSpec.

(** * Properties *)

(** ** The error monad *)

Lemma exn_class_eqb_eq a b : exn_class_eqb a b = true <-> a = b.
Proof. destruct a, b; simpl; split; congruence. Qed.

Lemma bind_Ok {A B} (c : res A) (k : A -> res B) (b : B) :
  bind c k = Ok b -> exists a, c = Ok a /\ k a = Ok b.
Proof. destruct c as [a|e]; simpl; intros H; [eauto | discriminate]. Qed.

Lemma bind_Raise {A B} (c : res A) (k : A -> res B) (e : exn) :
  bind c k = Raise e -> c = Raise e \/ exists a, c = Ok a /\ k a = Raise e.
Proof. destruct c as [a|e']; simpl; intros H; [eauto | left; congruence]. Qed.

Lemma mapM_length {A B} (f : A -> res B) (l : list A) (bs : list B) :
  mapM f l = Ok bs -> length bs = length l.
Proof.
  revert bs. induction l as [|a l IH]; simpl; intros bs H.
  - now inversion H.
  - destruct (f a) as [b|e]; simpl in H; [|discriminate].
    destruct (mapM f l) as [bs'|e]; simpl in H; [|discriminate].
    inversion H; subst. simpl. now rewrite (IH bs').
Qed.

(** If [f] fails on some element, so does the comprehension, with an
    exception that [f] raises on an element. *)
Lemma mapM_Raise {A B} (f : A -> res B) (l : list A) (e : exn) :
  mapM f l = Raise e -> exists a, In a l /\ f a = Raise e.
Proof.
  induction l as [|a l IH]; simpl; intros H; [discriminate|].
  destruct (f a) as [b|e'] eqn:Ea; simpl in H.
  - destruct (mapM f l) as [bs|e'']; simpl in H; [discriminate|].
    inversion H; subst. destruct (IH eq_refl) as [a' [Hin Ha']]. eauto.
  - inversion H; subst. eauto.
Qed.

Lemma mapM_Ok_all {A B} (f : A -> res B) (l : list A) (bs : list B) :
  mapM f l = Ok bs -> forall a, In a l -> exists b, f a = Ok b.
Proof.
  revert bs. induction l as [|a l IH]; simpl; intros bs H a' Hin; [tauto|].
  destruct (f a) as [b|e] eqn:Ea; simpl in H; [|discriminate].
  destruct (mapM f l) as [bs'|e] eqn:El; simpl in H; [|discriminate].
  destruct Hin as [<-|Hin]; eauto.
Qed.

(** ** Minimum and maximum of a sequence *)

Lemma min_of_le (a : Z) (l : list Z) : min_of a l <= a.
Proof.
  unfold min_of. revert a. induction l as [|b l IH]; simpl; intros a; [lia|].
  specialize (IH (Z.min a b)). lia.
Qed.

Lemma max_of_ge (a : Z) (l : list Z) : a <= max_of a l.
Proof.
  unfold max_of. revert a. induction l as [|b l IH]; simpl; intros a; [lia|].
  specialize (IH (Z.max a b)). lia.
Qed.

(** ** Parsing a bounding box *)

Module BoundingBoxFacts.
Import BoundingBox BoundingBoxSpec.

Lemma int_of_str_Raise (p : pystr) (e : exn) :
  Json.int_of_str p = Raise e -> exn_cls e = ValueError.
Proof.
  unfold Json.int_of_str, raise.
  destruct (parse_int p); intros H; inversion H; reflexivity.
Qed.

Lemma int_of_str_Ok (p : pystr) (z : Z) :
  Json.int_of_str p = Ok z <-> parse_int p = Lit z.
Proof.
  unfold Json.int_of_str, raise.
  destruct (parse_int p); split; intros H; inversion H; reflexivity.
Qed.

Lemma ints_Raise (l : list pystr) (e : exn) :
  mapM Json.int_of_str l = Raise e -> exn_cls e = ValueError.
Proof.
  intros H. apply mapM_Raise in H. destruct H as [p [_ Hp]].
  exact (int_of_str_Raise p e Hp).
Qed.

Lemma ints_bad (l : list pystr) (p : pystr) :
  In p l -> (forall z, parse_int p <> Lit z) ->
  exists e, mapM Json.int_of_str l = Raise e.
Proof.
  intros Hin Hbad.
  destruct (mapM Json.int_of_str l) as [ns|e] eqn:E; [|eauto].
  destruct (mapM_Ok_all _ _ _ E p Hin) as [z Hz].
  apply int_of_str_Ok in Hz. now elim (Hbad z).
Qed.

(** What the [try] block does with a string: it returns a box, falls
    through, or raises [ValueError]. *)
Lemma from_string_try_str (s : pystr) :
  (exists r, from_string_try (JStr s) = Ok r)
  \/ exists e, from_string_try (JStr s) = Raise e /\ exn_cls e = ValueError.
Proof.
  unfold from_string_try, Json.split_comma. cbn [bind]. fold (tokens s).
  destruct (length (tokens s) =? 4)%nat eqn:E4.
  - destruct (mapM Json.int_of_str (tokens s)) as [ns|e] eqn:Ei; cbn [bind].
    + destruct ns as [|x [|y [|w [|h [|? ?]]]]]; unfold raise; eauto.
    + right. exists e. split; [reflexivity | exact (ints_Raise _ _ Ei)].
  - destruct (length (tokens s) =? 8)%nat eqn:E8; [|eauto].
    destruct (tokens s) as [|p0 [|p1 [|p2 [|p3 [|p4 [|p5 [|p6 [|p7 [|? ?]]]]]]]]];
      try discriminate E8.
    destruct (mapM Json.int_of_str [p0; p2; p4; p6]) as [xs|e] eqn:Ex;
      cbn [bind].
    + destruct (mapM Json.int_of_str [p1; p3; p5; p7]) as [ys|e] eqn:Ey;
        cbn [bind].
      * apply mapM_length in Ex. apply mapM_length in Ey.
        destruct xs; [discriminate|]. destruct ys; [discriminate|].
        left. eexists. reflexivity.
      * right. exists e. split; [reflexivity | exact (ints_Raise _ _ Ey)].
    + right. exists e. split; [reflexivity | exact (ints_Raise _ _ Ex)].
Qed.

Lemma from_string_total (s : pystr) : exists b, from_string (JStr s) = Ok b.
Proof.
  unfold from_string.
  destruct (from_string_try_str s) as [[r Hr]|[e [He Hc]]]; rewrite ?Hr, ?He.
  - simpl. destruct r; eauto.
  - unfold try_except, caught. rewrite Hc. simpl. eauto.
Qed.

Lemma from_string_malformed (s : pystr) :
  malformed s -> from_string (JStr s) = Ok zero_rect.
Proof.
  intros Hm. unfold from_string, from_string_try, Json.split_comma.
  cbn [bind]. fold (tokens s). unfold malformed in Hm.
  destruct (length (tokens s) =? 4)%nat eqn:E4.
  - apply Nat.eqb_eq in E4.
    destruct Hm as [[H4 _]|[p [Hin Hbad]]]; [contradiction|].
    destruct (ints_bad _ _ Hin Hbad) as [e He]. rewrite He. cbn [bind].
    unfold try_except, caught. rewrite (ints_Raise _ _ He). reflexivity.
  - destruct (length (tokens s) =? 8)%nat eqn:E8; [|reflexivity].
    apply Nat.eqb_eq in E8.
    destruct Hm as [[_ H8]|[p [Hin Hbad]]]; [contradiction|].
    destruct (tokens s) as [|p0 [|p1 [|p2 [|p3 [|p4 [|p5 [|p6 [|p7 [|? ?]]]]]]]]];
      try discriminate E8.
    assert (Hsplit : In p [p0; p2; p4; p6] \/ In p [p1; p3; p5; p7])
      by (simpl in *; intuition).
    destruct (mapM Json.int_of_str [p0; p2; p4; p6]) as [xs|e] eqn:Ex.
    + destruct Hsplit as [Hx|Hy].
      * destruct (ints_bad _ _ Hx Hbad) as [e He]. congruence.
      * destruct (ints_bad _ _ Hy Hbad) as [e He]. rewrite He.
        cbn [bind]. unfold try_except, caught.
        rewrite (ints_Raise _ _ He). reflexivity.
    + cbn [bind]. unfold try_except, caught.
      rewrite (ints_Raise _ _ Ex). reflexivity.
Qed.

Lemma tokens_empty : tokens [] = [].
Proof. reflexivity. Qed.

End BoundingBoxFacts.

(** C2.  [BoundingBox.from_string] never raises on a string, and on a
    malformed string (neither 4 nor 8 usable tokens, a token that is not an
    integer, the empty string) it returns the zero rectangle (0, 0, 0, 0). *)
Theorem C2_from_string_total_and_zero_on_malformed (s : pystr) :
  (exists b, BoundingBox.from_string (JStr s) = Ok b)
  /\ (BoundingBoxSpec.malformed s \/ s = [] ->
      BoundingBox.from_string (JStr s) = Ok (BoundingBox.cls 0 0 0 0)).
Proof.
  split.
  - apply BoundingBoxFacts.from_string_total.
  - intros [Hm | ->].
    + now apply BoundingBoxFacts.from_string_malformed.
    + reflexivity.
Qed.

Lemma C2_witness :
  (BoundingBoxSpec.malformed (u "12,x7,3,4") \/ u "12,x7,3,4" = [])
  /\ BoundingBox.from_string (JStr (u "12,x7,3,4"))
     = Ok (BoundingBox.cls 0 0 0 0).
Proof.
  assert (H : BoundingBoxSpec.malformed (u "12,x7,3,4") \/ u "12,x7,3,4" = []).
  { left. right. exists (u "x7"). split.
    - vm_compute. tauto.
    - intros z. vm_compute. discriminate. }
  split; [exact H|].
  exact (proj2 (C2_from_string_total_and_zero_on_malformed (u "12,x7,3,4")) H).
Defined.

(** The box of a string with four integer tokens is made of these
    integers. *)
Lemma from_string_four (s : pystr) (px py pw ph : pystr) (x y w h : Z) :
  BoundingBoxSpec.tokens s = [px; py; pw; ph] ->
  parse_int px = Lit x -> parse_int py = Lit y ->
  parse_int pw = Lit w -> parse_int ph = Lit h ->
  BoundingBox.from_string (JStr s) = Ok (BoundingBox.cls x y w h).
Proof.
  intros Ht Hx Hy Hw Hh.
  unfold BoundingBox.from_string, BoundingBox.from_string_try, Json.split_comma.
  cbn [bind]. fold (BoundingBoxSpec.tokens s). rewrite Ht.
  cbn [length Nat.eqb mapM].
  apply BoundingBoxFacts.int_of_str_Ok in Hx, Hy, Hw, Hh.
  rewrite Hx, Hy, Hw, Hh. reflexivity.
Qed.

(** The box of any other string has no negative dimension. *)
Lemma from_string_not_four (s : pystr) (b : BoundingBox.t) :
  BoundingBox.from_string (JStr s) = Ok b ->
  length (BoundingBoxSpec.tokens s) <> 4%nat ->
  0 <= BoundingBox.width b /\ 0 <= BoundingBox.height b.
Proof.
  unfold BoundingBox.from_string, BoundingBox.from_string_try, Json.split_comma.
  cbn [bind]. fold (BoundingBoxSpec.tokens s). intros H Hn.
  apply Nat.eqb_neq in Hn. rewrite Hn in H.
  destruct (length (BoundingBoxSpec.tokens s) =? 8)%nat eqn:E8.
  - destruct (BoundingBoxSpec.tokens s)
      as [|p0 [|p1 [|p2 [|p3 [|p4 [|p5 [|p6 [|p7 [|? ?]]]]]]]]];
      try discriminate E8.
    destruct (mapM Json.int_of_str [p0; p2; p4; p6]) as [xs|e] eqn:Ex;
      cbn [bind] in H.
    + destruct (mapM Json.int_of_str [p1; p3; p5; p7]) as [ys|e] eqn:Ey;
        cbn [bind] in H.
      * apply mapM_length in Ex. apply mapM_length in Ey.
        destruct xs as [|x0 xs]; [discriminate|].
        destruct ys as [|y0 ys]; [discriminate|].
        cbn in H. inversion H; subst; clear H. cbn.
        pose proof (min_of_le x0 xs). pose proof (max_of_ge x0 xs).
        pose proof (min_of_le y0 ys). pose proof (max_of_ge y0 ys). lia.
      * unfold try_except, caught in H.
        rewrite (BoundingBoxFacts.ints_Raise _ _ Ey) in H.
        cbn in H. inversion H; subst. cbn. lia.
    + unfold try_except, caught in H.
      rewrite (BoundingBoxFacts.ints_Raise _ _ Ex) in H.
      cbn in H. inversion H; subst. cbn. lia.
  - cbn in H. inversion H; subst. cbn. lia.
Qed.

(** C9 as stated fails: the four-token form takes width and height as they
    are written, negative or not. *)
Lemma C9_counterexample :
  ~ (forall (s : pystr) (b : BoundingBox.t),
       BoundingBox.from_string (JStr s) = Ok b ->
       0 <= BoundingBox.width b /\ 0 <= BoundingBox.height b).
Proof.
  intros H.
  specialize (H (u "0,0,-5,-7") (BoundingBox.cls 0 0 (-5) (-7)) eq_refl).
  cbn in H. lia.
Qed.

(** C9, amended.  The box that [BoundingBox.from_string] returns has width
    and height at least 0 unless the string has exactly four usable tokens;
    for four integer tokens the width and the height are the third and the
    fourth integer as written. *)
Theorem C9_from_string_dimensions (s : pystr) (b : BoundingBox.t) :
  BoundingBox.from_string (JStr s) = Ok b ->
  (length (BoundingBoxSpec.tokens s) <> 4%nat ->
   0 <= BoundingBox.width b /\ 0 <= BoundingBox.height b)
  /\ (forall px py pw ph x y w h,
        BoundingBoxSpec.tokens s = [px; py; pw; ph] ->
        parse_int px = Lit x -> parse_int py = Lit y ->
        parse_int pw = Lit w -> parse_int ph = Lit h ->
        BoundingBox.width b = w /\ BoundingBox.height b = h).
Proof.
  intros H. split.
  - now apply from_string_not_four.
  - intros px py pw ph x y w h Ht Hx Hy Hw Hh.
    rewrite (from_string_four s px py pw ph x y w h Ht Hx Hy Hw Hh) in H.
    inversion H; subst. cbn. split; reflexivity.
Qed.

Lemma C9_witness :
  BoundingBox.from_string (JStr (u "10,20,30,22,29,40,9,38"))
  = Ok (BoundingBox.cls 9 20 21 20)
  /\ 0 <= 21 /\ 0 <= 20.
Proof.
  split; [reflexivity|].
  apply (proj1 (C9_from_string_dimensions (u "10,20,30,22,29,40,9,38")
                  (BoundingBox.cls 9 20 21 20) eq_refl)).
  vm_compute. discriminate.
Defined.

(** ** Floats: comparisons *)

Lemma flt_fle (a b : float) : flt a b = true -> fle a b = true.
Proof.
  unfold flt, fle, SFltb, SFleb.
  destruct (SFcompare a b) as [[]|]; congruence.
Qed.

Lemma fgt_not_fle (x : float) : fgt x f0 = true -> fle x f0 = false.
Proof.
  unfold fgt, flt, fle, SFltb, SFleb, f0.
  destruct x as [s|s| |s m e]; simpl; try destruct s; congruence.
Qed.

Lemma fgt_not_zero (x : float) : fgt x f0 = true -> is_zero x = false.
Proof.
  unfold fgt, flt, SFltb, f0. destruct x as [s|s| |s m e]; simpl; congruence.
Qed.

Lemma not_fle_not_zero (x : float) : fle x f0 = false -> is_zero x = false.
Proof.
  unfold fle, SFleb, f0. destruct x as [s|s| |s m e]; simpl; congruence.
Qed.

(** ** Small ints as floats *)

Lemma digits2_iter_xO (p k : positive) :
  digits2_pos (Pos.iter xO p k) = (digits2_pos p + k)%positive.
Proof.
  induction k as [|k IH] using Pos.peano_ind.
  - simpl. lia.
  - rewrite Pos.iter_succ. simpl. rewrite IH. lia.
Qed.

Lemma digits2_lower (p : positive) : 2 ^ (Zpos (digits2_pos p) - 1) <= Zpos p.
Proof.
  induction p as [p IH|p IH|]; simpl digits2_pos.
  - rewrite Pos2Z.inj_succ.
    replace (Z.succ (Zpos (digits2_pos p)) - 1)
      with (Z.succ (Zpos (digits2_pos p) - 1)) by lia.
    rewrite Z.pow_succ_r by lia. lia.
  - rewrite Pos2Z.inj_succ.
    replace (Z.succ (Zpos (digits2_pos p)) - 1)
      with (Z.succ (Zpos (digits2_pos p) - 1)) by lia.
    rewrite Z.pow_succ_r by lia. lia.
  - simpl. lia.
Qed.

Lemma digits2_small (p : positive) :
  Zpos p < 2 ^ 53 -> Zpos (digits2_pos p) <= 53.
Proof.
  intros H.
  destruct (Z_le_gt_dec (Zpos (digits2_pos p)) 53) as [|Hgt]; [assumption|].
  pose proof (digits2_lower p).
  assert (2 ^ 53 <= 2 ^ (Zpos (digits2_pos p) - 1))
    by (apply Z.pow_le_mono_r; lia).
  lia.
Qed.

(** An int below [2^53] converts to a float without rounding: the
    conversion succeeds and its result is finite, positive and not zero. *)
Lemma of_int_small (n : Z) :
  0 < n < 2 ^ 53 -> exists m e, of_int n = Ok (S754_finite false m e).
Proof.
  intros [Hpos Hlt]. destruct n as [|p|p]; try lia.
  pose proof (digits2_small p Hlt) as Hd.
  unfold of_int, binary_normalize, binary_round.
  unfold fexp, emin, prec, emax.
  replace (Z.max (Zpos (digits2_pos p) + 0 - 53) (3 - 1024 - 53))
    with (Zpos (digits2_pos p) - 53) by lia.
  unfold shl_align.
  destruct (Zpos (digits2_pos p) - 53 - 0) as [|k|k] eqn:Ek; try lia.
  - unfold binary_round_aux, shr_fexp, shr_record_of_loc, fexp, emin.
    cbn [Zdigits2].
    replace (Z.max (Zpos (digits2_pos p) + 0 - 53) (3 - 1024 - 53) - 0)
      with 0 by lia.
    cbn [shr shr_m loc_of_shr_record round_nearest_even Zdigits2].
    replace (Z.max (Zpos (digits2_pos p) + 0 - 53) (3 - 1024 - 53) - 0)
      with 0 by lia.
    cbn. eauto.
  - unfold binary_round_aux, shr_fexp, shr_record_of_loc, fexp, emin.
    cbn [Zdigits2]. rewrite digits2_iter_xO.
    replace (Z.max (Zpos (digits2_pos p + k) + (Zpos (digits2_pos p) - 53) - 53)
                   (3 - 1024 - 53) - (Zpos (digits2_pos p) - 53))
      with 0 by lia.
    cbn [shr shr_m loc_of_shr_record round_nearest_even Zdigits2].
    rewrite digits2_iter_xO.
    replace (Z.max (Zpos (digits2_pos p + k) + (Zpos (digits2_pos p) - 53) - 53)
                   (3 - 1024 - 53) - (Zpos (digits2_pos p) - 53))
      with 0 by lia.
    cbn [shr shr_m].
    destruct (Zpos (digits2_pos p) - 53 <=? 1024 - 53) eqn:El; [eauto|].
    apply Z.leb_gt in El. lia.
Qed.

(** ** The estimator *)

Module EstimatorFacts.
Import OCRJsonToTextLine EstimatorSpec.

Lemma clamp_bounds (x : float) :
  fle f1_2 (clamp x) = true /\ fle (clamp x) f2 = true.
Proof.
  unfold clamp, fmax, fmin, fgt.
  destruct (flt x f2) eqn:E2.
  - destruct (flt f1_2 x) eqn:E1.
    + split; now apply flt_fle.
    + split; reflexivity.
  - split; reflexivity.
Qed.

(** The run, stage by stage: the samples, the estimates of the document,
    the history, the two blends, then the defaults, the clamp and the
    write. *)
Lemma estimate_unfold (regions : list Region.t) (w : world) :
  estimate_layout_constants regions w =
  match collect_samples regions [] [] with
  | Raise e => (Raise e, w)
  | Ok (chs, lhs) =>
    match current_estimates chs lhs with
    | Raise e => (Raise e, w)
    | Ok (cch, clh, cm) =>
      match history (loaded w) with
      | Raise e => (Raise e, w)
      | Ok (pch, pm, pcn, pln) =>
        let char_n := Z.of_nat (length chs) in
        let line_n := Z.of_nat (length lhs) in
        match blend cch pch (char_n <? 5) char_n pcn with
        | Raise e => (Raise e, w)
        | Ok fch =>
          match blend cm pm (line_n <? 3) line_n pln with
          | Raise e => (Raise e, w)
          | Ok fm =>
            let ch := or_default f32 fch in
            let m := clamp (or_default f1_5 fm) in
            (Ok (ch, m, (char_n, line_n)),
             snd (_save_constants
                    (constants ch m (Z.min 1000 (pcn + char_n))
                               (Z.min 1000 (pln + line_n)) (time w)) w))
          end
        end
      end
    end
  end.
Proof.
  unfold estimate_layout_constants, bindM, lift, _load_constants, loaded.
  destruct (collect_samples regions [] []) as [[chs lhs]|e]; [|reflexivity].
  destruct (current_estimates chs lhs) as [[[cch clh] cm]|e]; [|reflexivity].
  replace (match constants_file w with
           | Holds content => (Ok content, w)
           | _ => (Ok (JDict []), w)
           end)
    with (Ok (match constants_file w with
              | Holds content => content
              | _ => JDict []
              end), w)
    by (destruct (constants_file w); reflexivity).
  destruct (history _) as [[[[pch pm] pcn] pln]|e]; [|reflexivity].
  cbv zeta.
  destruct (blend cch pch _ _ _) as [fch|e]; [|reflexivity].
  destruct (blend cm pm _ _ _) as [fm|e]; [|reflexivity].
  unfold _save_constants. destruct (writable w); reflexivity.
Qed.

(** A run that returns: every stage returned. *)
Lemma estimate_Ok (regions : list Region.t) (w w' : world)
    (ch m : float) (cnt : Z * Z) :
  estimate_layout_constants regions w = (Ok (ch, m, cnt), w') ->
  exists chs lhs cch clh cm pch pm pcn pln fch fm,
    collect_samples regions [] [] = Ok (chs, lhs)
    /\ current_estimates chs lhs = Ok (cch, clh, cm)
    /\ history (loaded w) = Ok (pch, pm, pcn, pln)
    /\ blend cch pch (Z.of_nat (length chs) <? 5)
             (Z.of_nat (length chs)) pcn = Ok fch
    /\ blend cm pm (Z.of_nat (length lhs) <? 3)
             (Z.of_nat (length lhs)) pln = Ok fm
    /\ ch = or_default f32 fch
    /\ m = clamp (or_default f1_5 fm)
    /\ cnt = (Z.of_nat (length chs), Z.of_nat (length lhs))
    /\ w' = snd (_save_constants
                   (constants ch m
                      (Z.min 1000 (pcn + Z.of_nat (length chs)))
                      (Z.min 1000 (pln + Z.of_nat (length lhs))) (time w)) w).
Proof.
  rewrite estimate_unfold.
  destruct (collect_samples regions [] []) as [[chs lhs]|e] eqn:E1;
    [|discriminate].
  destruct (current_estimates chs lhs) as [[[cch clh] cm]|e] eqn:E2;
    [|discriminate].
  destruct (history (loaded w)) as [[[[pch pm] pcn] pln]|e] eqn:E3;
    [|discriminate].
  cbv zeta.
  destruct (blend cch pch _ _ _) as [fch|e] eqn:Ec; [|discriminate].
  destruct (blend cm pm _ _ _) as [fm|e] eqn:El; [|discriminate].
  intros H. inversion H; subst; clear H.
  exists chs, lhs, cch, clh, cm, pch, pm, pcn, pln, fch, fm.
  repeat split; assumption.
Qed.


(** *** The estimates of the document always exist *)

Lemma median_Raise (data : list float) (e : exn) :
  median data = Raise e -> exn_cls e = StatisticsError.
Proof.
  unfold median.
  destruct (length _ =? 0)%nat; [intros H; now inversion H|].
  destruct (Nat.modulo _ 2 =? 1)%nat; [discriminate|].
  unfold fdiv. simpl. discriminate.
Qed.

Lemma robust_median_total (values : list float) :
  exists v, _robust_median values = Ok v.
Proof.
  unfold _robust_median. destruct values as [|v0 vs]; [eauto|].
  destruct (median (v0 :: vs)) as [v|e] eqn:E; simpl; [eauto|].
  unfold caught. rewrite (median_Raise _ _ E). simpl. eauto.
Qed.

Lemma ratios_total (lhs : list float) (c : float) :
  fgt c f0 = true -> exists rs, ratios lhs c = Ok rs.
Proof.
  intros Hc. induction lhs as [|lh lhs [rs IH]]; simpl; [eauto|].
  destruct (fgt lh f0); [|eauto].
  unfold fdiv. rewrite (fgt_not_zero c Hc). simpl. rewrite IH. simpl. eauto.
Qed.

Lemma current_estimates_total (chs lhs : list float) :
  exists cch clh cm,
    current_estimates chs lhs = Ok (cch, clh, cm)
    /\ ((length chs < 5)%nat -> cch = f0 /\ cm = f0)
    /\ ((length lhs < 3)%nat -> clh = f0 /\ cm = f0).
Proof.
  unfold current_estimates.
  assert (Hc : exists cch,
    (if (5 <=? length chs)%nat then _robust_median chs else Ok f0) = Ok cch
    /\ ((length chs < 5)%nat -> cch = f0)).
  { destruct (5 <=? length chs)%nat eqn:E.
    - destruct (robust_median_total chs) as [v Hv]. exists v. split; [exact Hv|].
      apply Nat.leb_le in E. lia.
    - exists f0. split; reflexivity. }
  assert (Hl : exists clh,
    (if (3 <=? length lhs)%nat then _robust_median lhs else Ok f0) = Ok clh
    /\ ((length lhs < 3)%nat -> clh = f0)).
  { destruct (3 <=? length lhs)%nat eqn:E.
    - destruct (robust_median_total lhs) as [v Hv]. exists v. split; [exact Hv|].
      apply Nat.leb_le in E. lia.
    - exists f0. split; reflexivity. }
  destruct Hc as [cch [-> Hc]]. destruct Hl as [clh [-> Hl]]. cbn [bind].
  destruct (fgt cch f0 && fgt clh f0) eqn:E.
  - apply andb_prop in E. destruct E as [E1 E2].
    destruct (ratios_total lhs cch E1) as [rs ->]. cbn [bind].
    destruct (robust_median_total rs) as [cm ->]. cbn [bind].
    exists cch, clh, cm. split; [reflexivity|]. split; intros Hlt.
    + rewrite (Hc Hlt) in E1. discriminate.
    + rewrite (Hl Hlt) in E2. discriminate.
  - cbn [bind]. exists cch, clh, f0. split; [reflexivity|].
    split; intros Hlt; split; auto.
Qed.

(** Without history the blend is the estimate of the document. *)
Lemma blend_no_history (current : float) (sparse : bool) (n prev_n : Z) :
  blend current f0 sparse n prev_n = Ok current.
Proof. reflexivity. Qed.

Lemma history_empty : history (JDict []) = Ok (f0, f0, 0, 0).
Proof. reflexivity. Qed.

Lemma no_history_loaded (w : world) : no_history w -> loaded w = JDict [].
Proof.
  unfold no_history, loaded. intros [H|[H|H]]; rewrite H; reflexivity.
Qed.


End EstimatorFacts.

(** ** The claims about the estimator *)

(** C3.  Whatever the regions and the state of the store, the multiplier
    that [estimate_layout_constants] returns lies in [1.2, 2.0]. *)
Theorem C3_multiplier_in_range (regions : list Region.t) (w w' : world)
    (ch m : float) (cnt : Z * Z) :
  OCRJsonToTextLine.estimate_layout_constants regions w = (Ok (ch, m, cnt), w') ->
  fle f1_2 m = true /\ fle m f2 = true.
Proof.
  intros H. apply EstimatorFacts.estimate_Ok in H.
  destruct H as (chs & lhs & cch & clh & cm & pch & pm & pcn & pln & fch & fm
                 & _ & _ & _ & _ & _ & _ & -> & _).
  apply EstimatorFacts.clamp_bounds.
Qed.

Lemma C3_witness :
  exists ch m cnt w',
    OCRJsonToTextLine.estimate_layout_constants Examples.doc6 Examples.w_hist
    = (Ok (ch, m, cnt), w')
    /\ fle f1_2 m = true /\ fle m f2 = true.
Proof.
  destruct (OCRJsonToTextLine.estimate_layout_constants
              Examples.doc6 Examples.w_hist) as [[[[ch m] cnt]|e] w'] eqn:E;
    [|vm_compute in E; discriminate].
  exists ch, m, cnt, w'. split; [reflexivity|].
  exact (C3_multiplier_in_range _ _ _ _ _ _ E).
Defined.

(** *** Plain documents can be sampled *)

Lemma contains_cjk_str (s : pystr) :
  exists b, OCRJsonToTextLine._contains_cjk (JStr s) = Ok b.
Proof.
  unfold OCRJsonToTextLine._contains_cjk, Json.iter. cbn [bind].
  induction s as [|c s [b IH]]; cbn [map OCRJsonToTextLine.contains_cjk_loop].
  - eauto.
  - cbn [Json.ord bind]. destruct (OCRJsonToTextLine.cjk_code c); eauto.
Qed.

Lemma word_samples_total (words : list Word.t) :
  Forall EstimatorSpec.plain_word words ->
  forall chs, exists chs', OCRJsonToTextLine.word_samples words chs = Ok chs'.
Proof.
  induction 1 as [|w words [[s Hs] Hh] _ IH]; intros chs;
    cbn [OCRJsonToTextLine.word_samples]; [eauto|].
  destruct (negb (truth (Word.word w))); [apply IH|].
  rewrite Hs. destruct (contains_cjk_str s) as [b ->]. cbn [bind].
  destruct (b && (0 <? BoundingBox.height (Word.boundingBox w))) eqn:E;
    [|apply IH].
  apply andb_prop in E. destruct E as [_ E]. apply Z.ltb_lt in E.
  destruct (of_int_small (BoundingBox.height (Word.boundingBox w)))
    as (m & e & ->); [lia|].
  cbn [bind]. apply IH.
Qed.

Lemma line_samples_total (lines : list Line.t) :
  Forall EstimatorSpec.plain_line lines ->
  forall chs lhs,
    exists r, OCRJsonToTextLine.line_samples lines chs lhs = Ok r.
Proof.
  induction 1 as [|l lines (Hw & Hh & Ht) _ IH]; intros chs lhs;
    cbn [OCRJsonToTextLine.line_samples]; [eauto|].
  assert (Hl : exists lhs',
    (if 0 <? BoundingBox.height (Line.boundingBox l)
     then h <- of_int (BoundingBox.height (Line.boundingBox l)) ;;
          Ok (lhs ++ [h])
     else if negb (Line.text_height l =? 0)
          then h <- of_int (Line.text_height l) ;; Ok (lhs ++ [h])
          else Ok lhs) = Ok lhs').
  { destruct (0 <? BoundingBox.height (Line.boundingBox l)) eqn:E.
    - apply Z.ltb_lt in E.
      destruct (of_int_small (BoundingBox.height (Line.boundingBox l)))
        as (m & e & ->); [lia|]. cbn [bind]. eauto.
    - destruct (Line.text_height l =? 0) eqn:E0; cbn [negb]; [eauto|].
      apply Z.eqb_neq in E0.
      destruct (of_int_small (Line.text_height l)) as (m & e & ->); [lia|].
      cbn [bind]. eauto. }
  destruct Hl as [lhs' ->]. cbn [bind].
  destruct (word_samples_total _ Hw chs) as [chs' ->]. cbn [bind]. apply IH.
Qed.

Lemma collect_samples_total (regions : list Region.t) :
  Forall EstimatorSpec.plain_region regions ->
  forall chs lhs,
    exists chs' lhs',
      OCRJsonToTextLine.collect_samples regions chs lhs = Ok (chs', lhs').
Proof.
  induction 1 as [|r regions Hr _ IH]; intros chs lhs;
    cbn [OCRJsonToTextLine.collect_samples]; [eauto|].
  destruct (line_samples_total _ Hr chs lhs) as [[chs1 lhs1] ->]. cbn [bind].
  apply IH.
Qed.

(** A cold start on a document whose samples can be collected. *)
Lemma cold_start_run (regions : list Region.t) (w : world)
    (chs lhs : list float) :
  EstimatorSpec.no_history w ->
  OCRJsonToTextLine.collect_samples regions [] [] = Ok (chs, lhs) ->
  exists ch m w',
    OCRJsonToTextLine.estimate_layout_constants regions w
    = (Ok (ch, m, (Z.of_nat (length chs), Z.of_nat (length lhs))), w')
    /\ ((length chs < 5)%nat -> ch = f32)
    /\ ((length lhs < 3)%nat -> m = f1_5).
Proof.
  intros Hw Hs. rewrite EstimatorFacts.estimate_unfold, Hs.
  destruct (EstimatorFacts.current_estimates_total chs lhs)
    as (cch & clh & cm & -> & Hc & Hl).
  rewrite (EstimatorFacts.no_history_loaded w Hw), EstimatorFacts.history_empty.
  cbv zeta. rewrite !EstimatorFacts.blend_no_history.
  eexists _, _, _. split; [reflexivity|]. split; intros Hlt.
  - destruct (Hc Hlt) as [-> _]. reflexivity.
  - destruct (Hl Hlt) as [_ ->]. reflexivity.
Qed.

(** On a cold start every plain document gets an answer. *)
Lemma cold_start_returns (regions : list Region.t) (w : world) :
  EstimatorSpec.no_history w ->
  Forall EstimatorSpec.plain_region regions ->
  exists r w',
    OCRJsonToTextLine.estimate_layout_constants regions w = (Ok r, w').
Proof.
  intros Hw Hr.
  destruct (collect_samples_total regions Hr [] []) as (chs & lhs & Hs).
  destruct (cold_start_run regions w chs lhs Hw Hs) as (ch & m & w' & H & _).
  eauto.
Qed.

(** C4.  Without persisted history (store file missing, unreadable or
    corrupt), a document whose samples can be collected gets an answer; its
    char height is exactly 32.0 when there are fewer than 5 CJK char-height
    samples, and its multiplier is exactly 1.5 when there are fewer than 3
    line-height samples. *)
Theorem C4_cold_start_defaults (regions : list Region.t) (w : world)
    (chs lhs : list float) :
  EstimatorSpec.no_history w ->
  OCRJsonToTextLine.collect_samples regions [] [] = Ok (chs, lhs) ->
  exists ch m w',
    OCRJsonToTextLine.estimate_layout_constants regions w
    = (Ok (ch, m, (Z.of_nat (length chs), Z.of_nat (length lhs))), w')
    /\ ((length chs < 5)%nat -> ch = f32)
    /\ ((length lhs < 3)%nat -> m = f1_5).
Proof. exact (cold_start_run regions w chs lhs). Qed.

Lemma C4_witness :
  EstimatorSpec.no_history Examples.w_cold
  /\ exists chs lhs,
       OCRJsonToTextLine.collect_samples
         [Examples.region_of [Examples.line_of [Examples.cjk_word 40] 60]] [] []
       = Ok (chs, lhs)
       /\ exists ch m w',
            OCRJsonToTextLine.estimate_layout_constants
              [Examples.region_of [Examples.line_of [Examples.cjk_word 40] 60]]
              Examples.w_cold
            = (Ok (ch, m, (Z.of_nat (length chs), Z.of_nat (length lhs))), w')
            /\ ((length chs < 5)%nat -> ch = f32)
            /\ ((length lhs < 3)%nat -> m = f1_5).
Proof.
  assert (Hw : EstimatorSpec.no_history Examples.w_cold) by (left; reflexivity).
  split; [exact Hw|].
  eexists _, _. split; [vm_compute; reflexivity|].
  apply (C4_cold_start_defaults _ Examples.w_cold _ _ Hw).
  vm_compute; reflexivity.
Defined.

(** C5 as stated fails: the weight that the code uses has [1e-6] added to
    its denominator.  Five samples of height 40 against a history of 20.0
    with five samples give 29.999999000000102 and not 30.0. *)
Lemma C5_counterexample : ~ EstimatorSpec.C5_as_stated.
Proof.
  intros H.
  destruct (OCRJsonToTextLine.estimate_layout_constants
              Examples.doc5 Examples.w_hist) as [[[[ch m] cnt]|e] w'] eqn:E;
    [|vm_compute in E; discriminate].
  destruct (OCRJsonToTextLine.collect_samples Examples.doc5 [] [])
    as [[chs lhs]|e] eqn:Es; [|vm_compute in Es; discriminate].
  destruct (OCRJsonToTextLine.current_estimates chs lhs)
    as [[[cch clh] cm]|e] eqn:Ec;
    [|vm_compute in Es; inversion Es; subst; vm_compute in Ec; discriminate].
  destruct (OCRJsonToTextLine.history (EstimatorSpec.loaded Examples.w_hist))
    as [[[[pch pm] pcn] pln]|e] eqn:Eh; [|vm_compute in Eh; discriminate].
  destruct (H _ _ _ _ _ _ _ _ _ _ _ _ _ _ _ E Es Ec Eh) as [Hc _].
  vm_compute in Es. inversion Es; subst; clear Es.
  vm_compute in Ec. inversion Ec; subst; clear Ec.
  vm_compute in Eh. inversion Eh; subst; clear Eh.
  vm_compute in E. inversion E; subst; clear E.
  destruct Hc as [b [Hb Hch]]; [reflexivity | simpl; lia | reflexivity |].
  vm_compute in Hb. inversion Hb; subst; clear Hb.
  vm_compute in Hch. discriminate.
Qed.

(** C5, amended.  With history ([prev > 0]) and a usable estimate of the
    document (not sparse, positive), the char height and the multiplier are
    blended independently as [a * current + (1 - a) * prev] with
    [a = min(0.7, n / (n + prev_n + 1e-6))], [n] and [prev_n] being the
    sample counts of the document and of the history; the char height
    returned is this blend (32.0 if the blend is not positive), the
    multiplier returned is this blend (1.5 if it is not positive) clamped
    to [1.2, 2.0]. *)
Theorem C5_blend_with_history (regions : list Region.t) (w w' : world)
    (ch m : float) (cnt : Z * Z) (chs lhs : list float)
    (cch clh cm pch pm : float) (pcn pln : Z) :
  OCRJsonToTextLine.estimate_layout_constants regions w = (Ok (ch, m, cnt), w') ->
  OCRJsonToTextLine.collect_samples regions [] [] = Ok (chs, lhs) ->
  OCRJsonToTextLine.current_estimates chs lhs = Ok (cch, clh, cm) ->
  OCRJsonToTextLine.history (EstimatorSpec.loaded w) = Ok (pch, pm, pcn, pln) ->
  (fgt pch f0 = true -> (5 <= length chs)%nat -> fgt cch f0 = true ->
   exists total nf q,
     of_int (Z.of_nat (length chs) + pcn) = Ok total
     /\ of_int (Z.of_nat (length chs)) = Ok nf
     /\ fdiv nf (fadd total f1e_6) = Ok q
     /\ let a := fmin f0_7 q in
        ch = EstimatorSpec.or_default f32
               (fadd (fmul a cch) (fmul (fsub f1 a) pch)))
  /\ (fgt pm f0 = true -> (3 <= length lhs)%nat -> fgt cm f0 = true ->
      exists total nf q,
        of_int (Z.of_nat (length lhs) + pln) = Ok total
        /\ of_int (Z.of_nat (length lhs)) = Ok nf
        /\ fdiv nf (fadd total f1e_6) = Ok q
        /\ let a := fmin f0_7 q in
           m = EstimatorSpec.clamp
                 (EstimatorSpec.or_default f1_5
                    (fadd (fmul a cm) (fmul (fsub f1 a) pm)))).
Proof.
  intros H Hs Hc Hh. apply EstimatorFacts.estimate_Ok in H.
  destruct H as (chs' & lhs' & cch' & clh' & cm' & pch' & pm' & pcn' & pln'
                 & fch & fm & Hs' & Hc' & Hh' & Hbc & Hbl & -> & -> & _).
  rewrite Hs in Hs'. inversion Hs'; subst chs' lhs'; clear Hs'.
  rewrite Hc in Hc'. inversion Hc'; subst cch' clh' cm'; clear Hc'.
  rewrite Hh in Hh'. inversion Hh'; subst pch' pm' pcn' pln'; clear Hh'.
  assert (Hblend : forall cur prev sparse n pn r,
    OCRJsonToTextLine.blend cur prev sparse n pn = Ok r ->
    fgt prev f0 = true -> sparse = false -> fgt cur f0 = true ->
    exists total nf q,
      of_int (n + pn) = Ok total /\ of_int n = Ok nf
      /\ fdiv nf (fadd total f1e_6) = Ok q
      /\ r = fadd (fmul (fmin f0_7 q) cur) (fmul (fsub f1 (fmin f0_7 q)) prev)).
  { intros cur prev sparse n pn r Hb Hp -> Hcur.
    unfold OCRJsonToTextLine.blend in Hb.
    rewrite Hp, (fgt_not_fle cur Hcur) in Hb. cbn [orb] in Hb.
    apply bind_Ok in Hb. destruct Hb as [a [Ha Hr]].
    unfold OCRJsonToTextLine.alpha in Ha.
    apply bind_Ok in Ha. destruct Ha as [total [Ht Ha]].
    apply bind_Ok in Ha. destruct Ha as [nf [Hn Ha]].
    apply bind_Ok in Ha. destruct Ha as [q [Hq Ha]].
    inversion Ha; subst a. inversion Hr; subst r.
    exists total, nf, q. repeat split; assumption. }
  split; intros Hp Hn Hcur.
  - destruct (Hblend _ _ _ _ _ _ Hbc Hp) as (total & nf & q & Ht & Hnf & Hq & ->);
      [apply Z.ltb_ge; lia | exact Hcur |].
    exists total, nf, q. repeat split; assumption.
  - destruct (Hblend _ _ _ _ _ _ Hbl Hp) as (total & nf & q & Ht & Hnf & Hq & ->);
      [apply Z.ltb_ge; lia | exact Hcur |].
    exists total, nf, q. repeat split; assumption.
Qed.

Lemma C5_witness :
  exists ch m cnt w' total nf q,
    OCRJsonToTextLine.estimate_layout_constants Examples.doc6 Examples.w_hist
    = (Ok (ch, m, cnt), w')
    /\ of_int (6 + 5) = Ok total
    /\ of_int 6 = Ok nf
    /\ fdiv nf (fadd total f1e_6) = Ok q
    /\ ch = EstimatorSpec.or_default f32
              (fadd (fmul (fmin f0_7 q) (of_decimal 40 0))
                    (fmul (fsub f1 (fmin f0_7 q)) (of_decimal 20 0))).
Proof.
  destruct (OCRJsonToTextLine.estimate_layout_constants
              Examples.doc6 Examples.w_hist) as [[[[ch m] cnt]|e] w'] eqn:E;
    [|vm_compute in E; discriminate].
  pose proof (C5_blend_with_history Examples.doc6 Examples.w_hist w' ch m cnt
    (repeat (of_decimal 40 0) 6) (repeat (of_decimal 60 0) 3)
    (of_decimal 40 0) (of_decimal 60 0) f1_5 (of_decimal 20 0) f1_5 5 5
    E eq_refl eq_refl eq_refl) as [Hc _].
  destruct Hc as (total & nf & q & Ht & Hn & Hq & Hch);
    [reflexivity | simpl; lia | reflexivity |].
  exists ch, m, cnt, w', total, nf, q.
  repeat split; assumption.
Defined.







(** Two runs from that store: 5 + 6 + 5 char samples, 5 + 3 + 1 line
    samples. *)
Lemma run_all_example :
  EstimatorSpec.previous_counts
    (EstimatorSpec.run_all [Examples.doc6; Examples.doc5] Examples.w_hist)
  = Some (16, 9).
Proof. reflexivity. Qed.

(** The counts of a cold start read as 0. *)
Lemma previous_counts_cold (w : world) :
  EstimatorSpec.no_history w -> EstimatorSpec.previous_counts w = Some (0, 0).
Proof.
  intros H. unfold EstimatorSpec.previous_counts.
  now rewrite (EstimatorFacts.no_history_loaded w H).
Qed.

(** ** Sorting permutes *)

Lemma insert_by_perm {K A} (ltb : K -> K -> bool) (k : K) (a : A)
    (l : list (K * A)) :
  Permutation (insert_by ltb k a l) ((k, a) :: l).
Proof.
  induction l as [|[k' a'] l IH]; simpl.
  - apply Permutation_refl.
  - destruct (ltb k' k).
    + eapply perm_trans; [apply perm_skip, IH | apply perm_swap].
    + apply Permutation_refl.
Qed.

Lemma sort_keyed_perm {K A} (ltb : K -> K -> bool) (l : list (K * A)) :
  Permutation (sort_keyed ltb l) l.
Proof.
  induction l as [|[k a] l IH]; simpl.
  - apply perm_nil.
  - eapply perm_trans; [apply insert_by_perm | apply perm_skip, IH].
Qed.

Lemma sorted_by_perm {K A} (ltb : K -> K -> bool) (key : A -> K) (l : list A) :
  Permutation (sorted_by ltb key l) l.
Proof.
  unfold sorted_by.
  eapply perm_trans; [apply Permutation_map, sort_keyed_perm|].
  rewrite map_map. simpl. rewrite map_id. apply Permutation_refl.
Qed.

Lemma sorted_by_not_nil {K A} (ltb : K -> K -> bool) (key : A -> K)
    (l : list A) :
  l <> [] -> sorted_by ltb key l <> [].
Proof.
  intros Hl Hs. pose proof (sorted_by_perm ltb key l) as Hp.
  rewrite Hs in Hp. apply Permutation_nil in Hp. contradiction.
Qed.

(** ** The clusterer *)

Module ClusterFacts.
Import OCRJsonToTextLine ClusterSpec.

Lemma with_y_mid_annotated (f f' : Fragment.t) :
  with_y_mid f = Ok f' -> annotated f f' /\ Fragment.y_mid f' <> None.
Proof.
  unfold with_y_mid. intros H.
  apply bind_Ok in H. destruct H as [h [_ H]].
  apply bind_Ok in H. destruct H as [half [_ H]].
  apply bind_Ok in H. destruct H as [yf [_ H]].
  inversion H; subst. split; [eexists; reflexivity | discriminate].
Qed.

Lemma marked_annotated (fragments marked : list Fragment.t) :
  mapM with_y_mid fragments = Ok marked ->
  Forall2 annotated fragments marked
  /\ Forall (fun f => Fragment.y_mid f <> None) marked.
Proof.
  revert marked. induction fragments as [|f fs IH]; simpl; intros marked H.
  - inversion H. split; constructor.
  - apply bind_Ok in H. destruct H as [f' [Hf H]].
    apply bind_Ok in H. destruct H as [fs' [Hfs H]].
    inversion H; subst. destruct (IH fs' Hfs) as [IH1 IH2].
    destruct (with_y_mid_annotated f f' Hf) as [Ha Hy].
    split; constructor; assumption.
Qed.

Lemma keyed_snd (l : list Fragment.t) (keyed : list (float * Fragment.t)) :
  mapM (fun frag => k <- Fragment.get_y_mid frag ;; Ok (k, frag)) l = Ok keyed ->
  map snd keyed = l.
Proof.
  revert keyed. induction l as [|f l IH]; simpl; intros keyed H.
  - now inversion H.
  - apply bind_Ok in H. destruct H as [kf [Hk H]].
    apply bind_Ok in H. destruct H as [rest [Hr H]].
    inversion H; subst.
    apply bind_Ok in Hk. destruct Hk as [k [_ Hk]]. inversion Hk; subst.
    simpl. now rewrite (IH rest Hr).
Qed.

Lemma sort_by_y_mid_perm (l sorted : list Fragment.t) :
  sort_by_y_mid l = Ok sorted -> Permutation sorted l.
Proof.
  unfold sort_by_y_mid. intros H.
  apply bind_Ok in H. destruct H as [keyed [Hk H]]. inversion H; subst.
  rewrite <- (keyed_snd l keyed Hk).
  apply Permutation_map, sort_keyed_perm.
Qed.

Lemma sort_by_y_mid_total (l : list Fragment.t) :
  Forall (fun f => Fragment.y_mid f <> None) l ->
  exists sorted, sort_by_y_mid l = Ok sorted.
Proof.
  intros Hl. unfold sort_by_y_mid.
  assert (H : exists keyed,
    mapM (fun frag => k <- Fragment.get_y_mid frag ;; Ok (k, frag)) l = Ok keyed).
  { induction Hl as [|f l Hf Hl [keyed IH]]; simpl; [eauto|].
    unfold Fragment.get_y_mid at 1.
    destruct (Fragment.y_mid f) as [v|]; [|contradiction].
    simpl. rewrite IH. simpl. eauto. }
  destruct H as [keyed ->]. simpl. eauto.
Qed.

(** The loop keeps every fragment: what it has closed and what it still
    holds is what it had and what it was given; no closed group is
    empty.  (A current group always comes with its running mean.) *)
Lemma group_loop_perm (threshold : float) (items : list Fragment.t) :
  forall groups cur mid groups' cur',
    (mid = None -> cur = []) ->
    group_loop threshold items groups cur mid = Ok (groups', cur') ->
    Permutation (concat groups' ++ cur') (concat groups ++ cur ++ items)
    /\ (Forall (fun g => g <> []) groups -> Forall (fun g => g <> []) groups').
Proof.
  induction items as [|item rest IH]; intros groups cur mid groups' cur' Hm H.
  - simpl in H. inversion H; subst. rewrite app_nil_r. split; auto.
  - cbn [group_loop] in H.
    assert (Hstart :
      (ym <- Fragment.get_y_mid item ;;
       group_loop threshold rest groups [item] (Some ym)) = Ok (groups', cur') ->
      Permutation (concat groups' ++ cur') (concat groups ++ item :: rest)
      /\ (Forall (fun g => g <> []) groups -> Forall (fun g => g <> []) groups')).
    { intros H'. apply bind_Ok in H'. destruct H' as [ym [_ H']].
      apply IH in H'; [exact H' | discriminate]. }
    destruct cur as [|c cs]; [exact (Hstart H)|].
    destruct mid as [mid|]; [|discriminate (Hm eq_refl)].
    apply bind_Ok in H. destruct H as [ym [_ H]].
    destruct (fle (fabs (fsub ym mid)) threshold).
    + cbv zeta in H.
      apply bind_Ok in H. destruct H as [n1 [_ H]].
      apply bind_Ok in H. destruct H as [ym' [_ H]].
      apply bind_Ok in H. destruct H as [n [_ H]].
      apply bind_Ok in H. destruct H as [mid' [_ H]].
      apply IH in H; [|discriminate]. destruct H as [Hp Hn].
      split; [|exact Hn].
      eapply perm_trans; [exact Hp|].
      rewrite <- !app_assoc. apply Permutation_refl.
    + cbv zeta in H.
      apply bind_Ok in H. destruct H as [ym' [_ H]].
      apply IH in H; [|discriminate]. destruct H as [Hp Hn]. split.
      * eapply perm_trans; [exact Hp|].
        rewrite concat_app.
        change (List.concat [sorted_by_x (c :: cs)])
          with (sorted_by_x (c :: cs) ++ []).
        rewrite app_nil_r, <- app_assoc.
        apply Permutation_app_head.
        apply Permutation_app; [apply sorted_by_perm | apply Permutation_refl].
      * intros Hg. apply Hn. apply Forall_app. split; [exact Hg|].
        constructor; [|constructor].
        apply sorted_by_not_nil. discriminate.
Qed.

Lemma get_y_mid_Some (f : Fragment.t) :
  Fragment.y_mid f <> None -> exists v, Fragment.get_y_mid f = Ok v.
Proof.
  unfold Fragment.get_y_mid. destruct (Fragment.y_mid f); [eauto|contradiction].
Qed.

(** The loop returns when every fragment has its [y_mid] and the list is
    short enough for its length to be a float. *)
Lemma group_loop_total (threshold : float) (items : list Fragment.t) :
  forall groups cur mid,
    Forall (fun f => Fragment.y_mid f <> None) items ->
    Z.of_nat (length cur + length items) < 2 ^ 53 ->
    exists r, group_loop threshold items groups cur mid = Ok r.
Proof.
  induction items as [|item rest IH]; intros groups cur mid Hy Hlen.
  - simpl. eauto.
  - inversion Hy as [|? ? Hitem Hrest]; subst.
    destruct (get_y_mid_Some item Hitem) as [ym Hym].
    cbn [group_loop]. cbn [length] in Hlen.
    assert (Hstart : exists r,
      (ym <- Fragment.get_y_mid item ;;
       group_loop threshold rest groups [item] (Some ym)) = Ok r).
    { rewrite Hym. cbn [bind]. apply IH; [exact Hrest|]. cbn [length]. lia. }
    destruct cur as [|c cs]; [exact Hstart|].
    destruct mid as [mid|]; [|exact Hstart].
    rewrite Hym. cbn [bind].
    destruct (fle (fabs (fsub ym mid)) threshold); cbv zeta.
    + rewrite length_app. cbn [length] in *.
      destruct (of_int_small (Z.of_nat (S (length cs) + 1) - 1)) as (m1 & e1 & ->);
        [lia|].
      cbn [bind].
      destruct (of_int_small (Z.of_nat (S (length cs) + 1))) as (m2 & e2 & ->);
        [lia|].
      cbn [bind]. unfold fdiv at 1. cbn [is_zero bind].
      apply IH; [exact Hrest|]. rewrite length_app. cbn [length]. lia.
    + apply IH; [exact Hrest|]. cbn [length]. lia.
Qed.

Lemma mapM_nil_inv {A B} (f : A -> res B) (l : list A) :
  mapM f l = Ok [] -> l = [].
Proof.
  intros H. apply mapM_length in H. destruct l; [reflexivity|discriminate].
Qed.

(** The stages of [_group_fragments_by_line] on a non-empty list. *)
Lemma group_fragments_Ok (fragments : list Fragment.t) (ls ratio : float)
    (groups : list (list Fragment.t)) (frs : list Fragment.t) :
  _group_fragments_by_line fragments ls ratio = Ok (groups, frs) ->
  exists marked,
    mapM with_y_mid fragments = Ok marked
    /\ Permutation frs marked
    /\ Permutation (concat groups) marked
    /\ Forall (fun g => g <> []) groups.
Proof.
  unfold _group_fragments_by_line.
  destruct fragments as [|f fs]; cbn [is_empty].
  - intros H. inversion H; subst. exists []. repeat split; constructor.
  - intros H.
    apply bind_Ok in H. destruct H as [marked [Hm H]].
    apply bind_Ok in H. destruct H as [sorted [Hs H]].
    cbv zeta in H.
    apply bind_Ok in H. destruct H as [[gs cur] [Hg H]].
    inversion H; subst; clear H.
    apply group_loop_perm in Hg; [|reflexivity]. destruct Hg as [Hp Hn].
    pose proof (sort_by_y_mid_perm _ _ Hs) as Hsp.
    exists marked. split; [exact Hm|]. split; [exact Hsp|].
    cbn [List.concat app] in Hp.
    destruct cur as [|c cs]; cbn [is_empty negb].
    + rewrite app_nil_r in Hp. split.
      * eapply perm_trans; [exact Hp | exact Hsp].
      * apply Hn. constructor.
    + split.
      * rewrite concat_app.
        change (List.concat [sorted_by_x (c :: cs)])
          with (sorted_by_x (c :: cs) ++ []).
        rewrite app_nil_r.
        eapply perm_trans; [|exact Hsp]. eapply perm_trans; [|exact Hp].
        apply Permutation_app_head. apply sorted_by_perm.
      * apply Forall_app. split; [apply Hn; constructor|].
        constructor; [|constructor]. apply sorted_by_not_nil. discriminate.
Qed.

Lemma group_fragments_total (fragments marked : list Fragment.t)
    (ls ratio : float) :
  mapM with_y_mid fragments = Ok marked ->
  Z.of_nat (length fragments) < 2 ^ 53 ->
  exists groups frs,
    _group_fragments_by_line fragments ls ratio = Ok (groups, frs).
Proof.
  intros Hm Hlen. unfold _group_fragments_by_line.
  destruct (is_empty fragments); [eauto|].
  rewrite Hm. cbn [bind].
  destruct (marked_annotated _ _ Hm) as [_ Hy].
  destruct (sort_by_y_mid_total marked Hy) as [sorted Hs]. rewrite Hs.
  cbn [bind]. cbv zeta.
  pose proof (sort_by_y_mid_perm _ _ Hs) as Hp.
  destruct (group_loop_total (fmax f1 (fmul ratio ls)) sorted [] [] None)
    as [[gs cur] Hg].
  - eapply Permutation_Forall; [apply Permutation_sym; exact Hp | exact Hy].
  - cbn [length]. rewrite (Permutation_length Hp).
    rewrite (mapM_length _ _ _ Hm). lia.
  - rewrite Hg. cbn [bind]. eauto.
Qed.

(** *** The running mean *)






End ClusterFacts.


(** ** Sorting sorts *)

Module SortFacts.
Import OCRJsonToTextLine LayoutSpec.

Section Sorting.
Context {K A : Type} (ltb : K -> K -> bool).
Hypothesis ltb_asym : forall a b, ltb a b = true -> ltb b a = false.

Abbreviation ordered := (key_ordered ltb).

Lemma insert_by_HdRel (x : K * A) (k : K) (a : A) (l : list (K * A)) :
  HdRel ordered x l -> ordered x (k, a) ->
  HdRel ordered x (insert_by ltb k a l).
Proof.
  intros Hl Hx. destruct l as [|[k' a'] l]; cbn [insert_by].
  - constructor. exact Hx.
  - destruct (ltb k' k); constructor; [|exact Hx].
    inversion Hl; assumption.
Qed.

Lemma insert_by_sorted (k : K) (a : A) (l : list (K * A)) :
  Sorted ordered l -> Sorted ordered (insert_by ltb k a l).
Proof.
  induction l as [|[k' a'] l IH]; intros Hs; cbn [insert_by].
  - repeat constructor.
  - inversion Hs as [|? ? Hs' Hhd]; subst.
    destruct (ltb k' k) eqn:E.
    + constructor; [exact (IH Hs')|].
      apply insert_by_HdRel; [exact Hhd|].
      unfold key_ordered. cbn [fst]. now apply ltb_asym.
    + constructor; [exact Hs|]. constructor. exact E.
Qed.

Lemma sort_keyed_sorted (l : list (K * A)) : Sorted ordered (sort_keyed ltb l).
Proof.
  induction l as [|[k a] l IH]; cbn [sort_keyed fold_right]; [constructor|].
  apply insert_by_sorted. exact IH.
Qed.

(** The values of a sorted list of keyed values, when the key of each value
    determines the order [R] between values. *)
Lemma sorted_values (R : A -> A -> Prop) (inv : K * A -> Prop)
    (l : list (K * A)) :
  (forall p q, inv p -> inv q -> ordered p q -> R (snd p) (snd q)) ->
  Forall inv l -> Sorted ordered l -> Sorted R (map snd l).
Proof.
  intros HR Hinv Hs. induction Hs as [|p l Hs IH Hhd]; cbn [map];
    [constructor|].
  inversion Hinv as [|? ? Hp Hl]; subst.
  constructor; [exact (IH Hl)|].
  destruct Hhd as [|q l' Hpq]; cbn [map]; constructor.
  inversion Hl; subst. now apply HR.
Qed.

End Sorting.

Lemma sorted_by_x_sorted (group : list Fragment.t) :
  Sorted by_x (sorted_by_x group).
Proof.
  unfold sorted_by_x, sorted_by.
  apply (sorted_values Z.ltb by_x (fun p => fst p = Fragment.x (snd p))).
  - intros [k a] [k' a'] Hp Hq Ho. cbn [fst snd] in *. subst.
    unfold by_x. apply Z.ltb_ge in Ho. exact Ho.
  - apply (Permutation_Forall (Permutation_sym (sort_keyed_perm Z.ltb _))).
    apply Forall_forall. intros p Hp. apply in_map_iff in Hp.
    destruct Hp as [a [<- _]]. reflexivity.
  - apply sort_keyed_sorted. intros a b H.
    apply Z.ltb_lt in H. apply Z.ltb_ge. lia.
Qed.

Lemma SFcompare_antisym (a b : float) :
  SFcompare a b = Some Lt -> SFcompare b a = Some Gt.
Proof.
  destruct a as [sa|sa| |sa ma ea], b as [sb|sb| |sb mb eb]; cbn [SFcompare];
    try destruct sa; try destruct sb; try congruence.
  all: change (Pos.compare_cont Eq mb ma) with (Pos.compare mb ma);
    change (Pos.compare_cont Eq ma mb) with (Pos.compare ma mb);
    rewrite (Z.compare_antisym ea eb), (Pos.compare_antisym ma mb);
    destruct (ea ?= eb); destruct (ma ?= mb)%positive; cbn [CompOpp];
    congruence.
Qed.

Lemma flt_asym (a b : float) : flt a b = true -> flt b a = false.
Proof.
  unfold flt, SFltb. destruct (SFcompare a b) as [[]|] eqn:E; try discriminate.
  intros _. now rewrite (SFcompare_antisym a b E).
Qed.

Lemma keyed_y_mid (l : list Fragment.t) (keyed : list (float * Fragment.t)) :
  mapM (fun frag => k <- Fragment.get_y_mid frag ;; Ok (k, frag)) l = Ok keyed ->
  Forall (fun p => Fragment.y_mid (snd p) = Some (fst p)) keyed.
Proof.
  revert keyed. induction l as [|f l IH]; cbn [mapM]; intros keyed H.
  - inversion H. constructor.
  - apply bind_Ok in H. destruct H as [kf [Hk H]].
    apply bind_Ok in H. destruct H as [rest [Hr H]].
    inversion H; subst. constructor; [|exact (IH rest Hr)].
    apply bind_Ok in Hk. destruct Hk as [k [Hk Hkf]]. inversion Hkf; subst.
    cbn [fst snd]. unfold Fragment.get_y_mid in Hk.
    destruct (Fragment.y_mid f); inversion Hk; reflexivity.
Qed.

Lemma sort_by_y_mid_sorted (l sorted : list Fragment.t) :
  sort_by_y_mid l = Ok sorted -> Sorted by_y_mid sorted.
Proof.
  unfold sort_by_y_mid. intros H.
  apply bind_Ok in H. destruct H as [keyed [Hk H]]. inversion H; subst.
  apply (sorted_values flt by_y_mid
           (fun p => Fragment.y_mid (snd p) = Some (fst p))).
  - intros [k a] [k' a'] Hp Hq Ho. cbn [fst snd] in *.
    exists k, k'. auto.
  - apply (Permutation_Forall (Permutation_sym (sort_keyed_perm flt _))).
    exact (keyed_y_mid _ _ Hk).
  - apply sort_keyed_sorted. exact flt_asym.
Qed.


End SortFacts.

(** C10.  The row groups that [_group_fragments_by_line] returns partition
    its input: their concatenation is a permutation of the input fragments
    (each with its [y_mid] set), so every fragment is in exactly one group,
    and no group is empty.  The call returns whenever every midpoint can be
    computed (no int too large for a float). *)
Theorem C10_groups_partition (fragments : list Fragment.t) (ls ratio : float) :
  (forall marked,
     mapM OCRJsonToTextLine.with_y_mid fragments = Ok marked ->
     Z.of_nat (length fragments) < 2 ^ 53 ->
     exists groups frs,
       OCRJsonToTextLine._group_fragments_by_line fragments ls ratio
       = Ok (groups, frs))
  /\ (forall groups frs,
        OCRJsonToTextLine._group_fragments_by_line fragments ls ratio
        = Ok (groups, frs) ->
        exists marked,
          Forall2 ClusterSpec.annotated fragments marked
          /\ Permutation frs marked
          /\ Permutation (concat groups) marked
          /\ Forall (fun g => g <> []) groups).
Proof.
  split.
  - intros marked Hm Hlen.
    exact (ClusterFacts.group_fragments_total fragments marked ls ratio Hm Hlen).
  - intros groups frs H.
    destruct (ClusterFacts.group_fragments_Ok _ _ _ _ _ H)
      as (marked & Hm & Hf & Hg & Hn).
    exists marked. split; [|auto].
    exact (proj1 (ClusterFacts.marked_annotated _ _ Hm)).
Qed.

Lemma C10_witness :
  exists groups frs marked,
    OCRJsonToTextLine._group_fragments_by_line
      [Examples.frag "a" 0 0; Examples.frag "b" 50 4; Examples.frag "c" 100 7]
      Examples.f10 OCRJsonToTextLine.same_line_threshold_ratio
    = Ok (groups, frs)
    /\ length groups = 2%nat
    /\ Permutation (concat groups) marked
    /\ Forall (fun g => g <> []) groups.
Proof.
  destruct (OCRJsonToTextLine._group_fragments_by_line
      [Examples.frag "a" 0 0; Examples.frag "b" 50 4; Examples.frag "c" 100 7]
      Examples.f10 OCRJsonToTextLine.same_line_threshold_ratio)
    as [[groups frs]|e] eqn:E; [|vm_compute in E; discriminate].
  destruct (proj2 (C10_groups_partition _ _ _) groups frs E)
    as (marked & _ & _ & Hp & Hn).
  exists groups, frs, marked. split; [reflexivity|].
  split; [vm_compute in E; inversion E; reflexivity|]. split; assumption.
Defined.


(** The other half fails as well: with midpoints 0, 4 and 7 the last two
    are 3 <= 0.4 * 10 apart, yet the third is 5 away from the running mean
    2 and starts a new row group. *)
Lemma close_pair_split :
  exists a b c,
    OCRJsonToTextLine._group_fragments_by_line
      [Examples.frag "a" 0 0; Examples.frag "b" 50 4; Examples.frag "c" 100 7]
      Examples.f10 OCRJsonToTextLine.same_line_threshold_ratio
    = Ok ([[a; b]; [c]], [a; b; c])
    /\ Fragment.get_y_mid b = Ok (of_decimal 4 0)
    /\ Fragment.get_y_mid c = Ok (of_decimal 7 0)
    /\ fle (fabs (fsub (of_decimal 7 0) (of_decimal 4 0)))
           (fmul f0_4 Examples.f10) = true.
Proof. eexists _, _, _. vm_compute. repeat split; reflexivity. Qed.

(** The threshold is never below 1.0: with a line spacing of 1.0, midpoints
    0 and 1 are more than 0.4 apart and still share a row group. *)
Lemma C6_threshold_floor :
  exists groups frs,
    OCRJsonToTextLine._group_fragments_by_line
      [Examples.frag "a" 0 0; Examples.frag "b" 50 1] f1
      OCRJsonToTextLine.same_line_threshold_ratio = Ok (groups, frs)
    /\ length groups = 1%nat
    /\ fgt (fabs (fsub (of_decimal 1 0) (of_decimal 0 0))) (fmul f0_4 f1) = true.
Proof. eexists _, _. vm_compute. repeat split; reflexivity. Qed.




(** ** Floor division of floats *)

Module FloatFacts.
Import FloatSpec.











(** *** Exact arithmetic on ints below [2^53] *)

(** [iter_pos] applies its function as often as [Pos.iter] *)
Lemma iter_pos_comm {A} (f : A -> A) (n : positive) (x : A) :
  iter_pos f n (f x) = f (iter_pos f n x).
Proof.
  revert x. induction n as [n IH|n IH|]; intros x; simpl.
  - now rewrite !IH.
  - now rewrite !IH.
  - reflexivity.
Qed.

Lemma iter_pos_succ {A} (f : A -> A) (n : positive) (x : A) :
  iter_pos f (Pos.succ n) x = f (iter_pos f n x).
Proof.
  revert x. induction n as [n IH|n IH|]; intros x; simpl.
  - rewrite !IH. now rewrite !iter_pos_comm.
  - now rewrite !iter_pos_comm.
  - reflexivity.
Qed.

Lemma shr_exact (t : positive) :
  forall q : positive, iter_pos shr_1 t (exact (Zpos q * 2 ^ Zpos t)) = exact (Zpos q).
Proof.
  induction t as [|t IH] using Pos.peano_ind; intros q.
  - change (2 ^ 1) with 2. replace (Zpos q * 2) with (Zpos q~0) by lia. reflexivity.
  - rewrite iter_pos_succ. rewrite Pos2Z.inj_succ, Z.pow_succ_r by lia.
    replace (Zpos q * (2 * 2 ^ Zpos t)) with (Zpos q~0 * 2 ^ Zpos t) by lia.
    rewrite IH. reflexivity.
Qed.

Lemma Zdigits2_shift (j : Z) : 0 <= j ->
  forall q : positive, Zdigits2 (Zpos q * 2 ^ j) = Zpos (digits2_pos q) + j.
Proof.
  intros Hj. pattern j. apply natlike_ind; [| |exact Hj].
  - intros q. rewrite Z.mul_1_r. simpl. lia.
  - intros k Hk IH q. rewrite Z.pow_succ_r by lia.
    replace (Zpos q * (2 * 2 ^ k)) with (Zpos q~0 * 2 ^ k) by lia.
    rewrite IH. simpl digits2_pos. lia.
Qed.

Lemma round_aux_exact (p : positive) (j : Z) :
  Zpos (digits2_pos p) <= 53 -> 53 - Zpos (digits2_pos p) <= j ->
  binary_round_aux prec emax false (Zpos p * 2 ^ j) (- j) loc_Exact = canon p.
Proof.
  intros Hd Hj. set (D := Zpos (digits2_pos p)) in *.
  assert (HD : 0 < D) by (unfold D; lia).
  unfold binary_round_aux, shr_fexp, shr_record_of_loc.
  rewrite Zdigits2_shift by lia. fold D.
  unfold fexp, emin, prec, emax.
  replace (Z.max (D + j + - j - 53) (3 - 1024 - 53) - - j) with (j - (53 - D)) by lia.
  assert (Hm : Zpos p * 2 ^ j = (Zpos p * 2 ^ (53 - D)) * 2 ^ (j - (53 - D))).
  { rewrite <- Z.mul_assoc, <- Z.pow_add_r by lia. f_equal. f_equal. lia. }
  assert (Hpos : 0 < Zpos p * 2 ^ (53 - D)) by (apply Z.mul_pos_pos; [lia | apply Z.pow_pos_nonneg; lia]).
  destruct (Zpos p * 2 ^ (53 - D)) as [|c|c] eqn:Ec; try lia.
  assert (Hdc : Zpos (digits2_pos c) = 53).
  { change (Zpos (digits2_pos c)) with (Zdigits2 (Zpos c)). rewrite <- Ec.
    rewrite Zdigits2_shift by lia. fold D. lia. }
  assert (Hfinal : forall e, e = D - 53 ->
    (let '(mrs'', e'') := shr (Build_shr_record (round_nearest_even (Zpos c) loc_Exact) false false) e
        (Z.max (Zdigits2 (round_nearest_even (Zpos c) loc_Exact) + e - 53) (3 - 1024 - 53) - e) in
     match shr_m mrs'' with
     | 0 => S754_zero false
     | Zpos m => if e'' <=? 1024 - 53 then S754_finite false m e'' else S754_infinity false
     | Z.neg _ => S754_nan
     end) = canon p).
  { intros e ->. cbn [round_nearest_even Zdigits2]. rewrite Hdc.
    replace (Z.max (53 + (D - 53) - 53) (3 - 1024 - 53) - (D - 53)) with 0 by lia.
    cbn [shr shr_m]. 
    destruct (D - 53 <=? 1024 - 53) eqn:El; [|apply Z.leb_gt in El; lia].
    unfold canon. fold D. rewrite Ec. reflexivity. }
  destruct (j - (53 - D)) as [|t|t] eqn:Et; try lia.
  - rewrite Hm. change (2 ^ 0) with 1. rewrite Z.mul_1_r. cbn [shr].
    cbn [shr_m loc_of_shr_record].
    apply Hfinal. lia.
  - rewrite Hm. unfold shr. fold (exact (Zpos c * 2 ^ Zpos t)). rewrite shr_exact.
    unfold exact. cbn [shr_m loc_of_shr_record].
    apply Hfinal. lia.
Qed.

Lemma iter_xO_pow (p d : positive) : Zpos (Pos.iter xO p d) = Zpos p * 2 ^ Zpos d.
Proof.
  induction d as [|d IH] using Pos.peano_ind.
  - simpl. lia.
  - rewrite Pos.iter_succ, Pos2Z.inj_succ, Z.pow_succ_r by lia.
    rewrite Pos2Z.inj_xO, IH. lia.
Qed.

Lemma normalize_exact (p : positive) (j : Z) :
  Zpos (digits2_pos p) <= 53 -> 0 <= j ->
  binary_normalize prec emax (Zpos p * 2 ^ j) (- j) false = canon p.
Proof.
  intros Hd Hj. set (D := Zpos (digits2_pos p)) in *.
  assert (Hpos : 0 < Zpos p * 2 ^ j) by (apply Z.mul_pos_pos; [lia | apply Z.pow_pos_nonneg; lia]).
  destruct (Zpos p * 2 ^ j) as [|mx|mx] eqn:Em; try lia.
  unfold binary_normalize, binary_round.
  assert (Hdm : Zpos (digits2_pos mx) = D + j).
  { change (Zpos (digits2_pos mx)) with (Zdigits2 (Zpos mx)). rewrite <- Em.
    now rewrite Zdigits2_shift. }
  rewrite Hdm. unfold fexp, emin, prec, emax.
  replace (Z.max (D + j + - j - 53) (3 - 1024 - 53)) with (D - 53) by lia.
  unfold shl_align.
  destruct (D - 53 - - j) as [|d|d] eqn:Ed.
  - rewrite <- Em. apply (round_aux_exact p j); fold D; lia.
  - rewrite <- Em. apply (round_aux_exact p j); fold D; lia.
  - rewrite iter_xO_pow, <- Em, <- Z.mul_assoc, <- Z.pow_add_r by lia.
    replace (D - 53) with (- (j + Zpos d)) by lia.
    apply (round_aux_exact p (j + Zpos d)); fold D; lia.
Qed.

Lemma of_int_canon (p : positive) :
  Zpos p < 2 ^ 53 -> of_int (Zpos p) = Ok (canon p).
Proof.
  intros H. unfold of_int.
  replace (binary_normalize prec emax (Zpos p) 0 false) with (canon p); [reflexivity|].
  symmetry. rewrite <- (normalize_exact p 0); [|apply digits2_small; exact H|lia].
  f_equal. lia.
Qed.

Lemma canon_mantissa (p : positive) :
  Zpos (digits2_pos p) <= 53 ->
  Zpos (Z.to_pos (Zpos p * 2 ^ (53 - Zpos (digits2_pos p)))) = Zpos p * 2 ^ (53 - Zpos (digits2_pos p)).
Proof.
  intros H. rewrite Z2Pos.id; [reflexivity|].
  apply Z.mul_pos_pos; [lia | apply Z.pow_pos_nonneg; lia].
Qed.


Lemma digits2_upper (p : positive) : Zpos p < 2 ^ Zpos (digits2_pos p).
Proof.
  induction p as [p IH|p IH|]; simpl digits2_pos.
  - rewrite Pos2Z.inj_succ, Z.pow_succ_r, Pos2Z.inj_xI by lia. lia.
  - rewrite Pos2Z.inj_succ, Z.pow_succ_r, Pos2Z.inj_xO by lia. lia.
  - simpl. lia.
Qed.

Lemma digits2_mono (p q : positive) :
  Zpos p <= Zpos q -> Zpos (digits2_pos p) <= Zpos (digits2_pos q).
Proof.
  intros H. pose proof (digits2_lower p). pose proof (digits2_upper q).
  destruct (Z_le_gt_dec (Zpos (digits2_pos p)) (Zpos (digits2_pos q))); [assumption|].
  assert (2 ^ Zpos (digits2_pos q) <= 2 ^ (Zpos (digits2_pos p) - 1))
    by (apply Z.pow_le_mono_r; lia).
  lia.
Qed.

Lemma digits2_mul (q y x : positive) :
  Zpos x = Zpos q * Zpos y ->
  Zpos (digits2_pos x) <= Zpos (digits2_pos q) + Zpos (digits2_pos y).
Proof.
  intros H. pose proof (digits2_lower x). pose proof (digits2_upper q).
  pose proof (digits2_upper y).
  destruct (Z_le_gt_dec (Zpos (digits2_pos x)) (Zpos (digits2_pos q) + Zpos (digits2_pos y))); [assumption|].
  assert (2 ^ (Zpos (digits2_pos q) + Zpos (digits2_pos y)) <= 2 ^ (Zpos (digits2_pos x) - 1))
    by (apply Z.pow_le_mono_r; lia).
  rewrite Z.pow_add_r in * by lia. nia.
Qed.

Lemma digits2_bound (p : positive) : Zpos p < 2 ^ 53 <-> Zpos (digits2_pos p) <= 53.
Proof.
  split; intros H.
  - destruct (Z_le_gt_dec (Zpos (digits2_pos p)) 53) as [|Hgt]; [assumption|].
    pose proof (digits2_lower p).
    assert (2 ^ 53 <= 2 ^ (Zpos (digits2_pos p) - 1)) by (apply Z.pow_le_mono_r; lia).
    lia.
  - pose proof (digits2_upper p).
    assert (2 ^ Zpos (digits2_pos p) <= 2 ^ 53) by (apply Z.pow_le_mono_r; lia). lia.
Qed.



Lemma div_eucl_exact (a b q : Z) : 0 < b -> a = q * b -> Z.div_eucl a b = (q, 0).
Proof.
  intros Hb ->.
  assert (Hd : q * b / b = q) by (apply Z.div_mul; lia).
  assert (Hm : (q * b) mod b = 0) by (apply Z.mod_mul; lia).
  unfold Z.div in Hd. unfold Z.modulo in Hm.
  destruct (Z.div_eucl (q * b) b) as [q' r']. simpl in *. congruence.
Qed.

Lemma SFdiv_canon (x y q : positive) :
  Zpos x < 2 ^ 53 -> Zpos x = Zpos q * Zpos y ->
  SFdiv prec emax (canon x) (canon y) = canon q.
Proof.
  intros Hx Hxy.
  assert (Hdx : Zpos (digits2_pos x) <= 53) by now apply digits2_bound.
  assert (Hdy : Zpos (digits2_pos y) <= Zpos (digits2_pos x)) by (apply digits2_mono; nia).
  assert (Hdq : Zpos (digits2_pos q) <= Zpos (digits2_pos x)) by (apply digits2_mono; nia).
  pose proof (digits2_mul q y x Hxy) as Hmul.
  set (Dx := Zpos (digits2_pos x)) in *. set (Dy := Zpos (digits2_pos y)) in *.
  set (Dq := Zpos (digits2_pos q)) in *.
  unfold canon, SFdiv, SFdiv_core_binary. fold Dx Dy.
  rewrite !Z2Pos.id by (apply Z.mul_pos_pos; [lia | apply Z.pow_pos_nonneg; lia]).
  rewrite !Zdigits2_shift by lia. fold Dx Dy.
  unfold fexp, emin, prec, emax.
  replace (Z.min (Z.max (Dx + (53 - Dx) + (Dx - 53) - (Dy + (53 - Dy) + (Dy - 53)) - 53) (3 - 1024 - 53)) (Dx - 53 - (Dy - 53)))
    with (- (53 - Dx + Dy)) by lia.
  replace (Dx - 53 - (Dy - 53) - - (53 - Dx + Dy)) with 53 by lia.
  cbv iota beta. rewrite Z.shiftl_mul_pow2 by lia.
  rewrite (div_eucl_exact _ _ (Zpos q * 2 ^ (53 - Dx + Dy))).
  - replace (new_location (Zpos y * 2 ^ (53 - Dy)) 0) with loc_Exact
      by (unfold new_location; destruct (Z.even _); reflexivity).
    apply round_aux_exact; fold Dq; lia.
  - apply Z.mul_pos_pos; [lia | apply Z.pow_pos_nonneg; lia].
  - rewrite Hxy.
    replace (Zpos q * 2 ^ (53 - Dx + Dy) * (Zpos y * 2 ^ (53 - Dy)))
      with (Zpos q * Zpos y * (2 ^ (53 - Dx + Dy) * 2 ^ (53 - Dy))) by ring.
    rewrite <- !Z.mul_assoc. f_equal. f_equal.
    rewrite <- !Z.pow_add_r by lia. f_equal. lia.
Qed.









End FloatFacts.


(** The two gaps of the counterexample, evaluated. *)
Lemma blank_lines_not_floor_of_quotient :
  OCRJsonToTextLine._compute_blank_lines_between
    [Examples.frag "a" 0 0] [Examples.frag "b" 0 161] (of_decimal 322 (-1))
  = Ok 4
  /\ BlankSpec.floor_of_quotient (of_decimal 161 0) (of_decimal 322 (-1))
     = Ok 5.
Proof. split; vm_compute; reflexivity. Qed.



(** The scenario of a line spacing of 75 (char height 50, multiplier 1.5):
    rows of height 20 at y = 0 and y = 100 are 80 pixels apart and get one
    blank line. *)
Lemma blank_lines_scenario :
  OCRJsonToTextLine._compute_blank_lines_between
    [Examples.box "a" 0 0] [Examples.box "b" 0 100] Examples.f75 = Ok 1.
Proof. reflexivity. Qed.

(** ** The entry point *)

(** The entry point can raise: a document whose [Result] is not a dict
    makes [result.get] raise [AttributeError], which the handler does not
    catch. *)
Lemma convert_can_raise :
  ~ (forall (ocr_json : list (pystr * json)) (w : world),
       exists s w',
         OCRJsonToTextLine.convert_json_to_text ocr_json w = (Ok s, w')).
Proof.
  intros H.
  destruct (H [(u "Result", JInt 5)] Examples.w_cold) as (s & w' & E).
  vm_compute in E. discriminate.
Qed.

(** The exception that escapes there. *)
Lemma convert_result_not_dict :
  OCRJsonToTextLine.convert_json_to_text [(u "Result", JInt 5)] Examples.w_cold
  = (Raise (mk_exn AttributeError (u "'int' object has no attribute 'get'")),
     Examples.w_cold).
Proof. reflexivity. Qed.

Lemma caught_classes (classes : list exn_class) (e : exn) :
  caught classes e = false -> ~ In (exn_cls e) classes.
Proof.
  unfold caught. intros H Hin.
  assert (Ht : existsb (subclass (exn_cls e)) classes = true).
  { apply existsb_exists. exists (exn_cls e). split; [exact Hin|].
    destruct (exn_cls e); reflexivity. }
  congruence.
Qed.

(** What the handler does: a missing [Result] key gives the diagnostic
    string ["转换失败: JSON数据中缺少'Result'字段"], an exception [e] of
    class [KeyError], [TypeError] or [ValueError] gives
    ["转换失败: " + str(e)], and an exception that escapes is of none of
    these classes. *)
Lemma convert_failures_caught (ocr_json : list (pystr * json)) (w : world) :
  (Json.contains ocr_json (u "Result") = false ->
   OCRJsonToTextLine.convert_json_to_text ocr_json w
   = (Ok (OCRJsonToTextLine.failure_prefix ++ OCRJsonToTextLine.missing_result),
      w))
  /\ (forall e w',
        OCRJsonToTextLine.convert_try ocr_json w = (Raise e, w') ->
        In (exn_cls e) [KeyError; TypeError; ValueError] ->
        OCRJsonToTextLine.convert_json_to_text ocr_json w
        = (Ok (OCRJsonToTextLine.failure_prefix ++ exn_str e), w'))
  /\ (forall e w',
        OCRJsonToTextLine.convert_json_to_text ocr_json w = (Raise e, w') ->
        ~ In (exn_cls e) [KeyError; TypeError; ValueError]).
Proof.
  unfold OCRJsonToTextLine.convert_json_to_text, try_exceptM.
  repeat split.
  - intros Hm. unfold OCRJsonToTextLine.convert_try. rewrite Hm. reflexivity.
  - intros e w' He Hin. rewrite He.
    assert (Hc : caught [KeyError; TypeError; ValueError] e = true).
    { unfold caught. apply existsb_exists. exists (exn_cls e).
      split; [exact Hin|]. destruct (exn_cls e); reflexivity. }
    rewrite Hc. reflexivity.
  - intros e w'.
    destruct (OCRJsonToTextLine.convert_try ocr_json w) as [[s|e1] w1];
      [discriminate|].
    destruct (caught [KeyError; TypeError; ValueError] e1) eqn:Hc;
      [discriminate|].
    intros H. inversion H; subst. now apply caught_classes.
Qed.

(** A document without the [Result] key. *)
Lemma convert_missing_result :
  OCRJsonToTextLine.convert_json_to_text [(u "regions", JList [])]
    Examples.w_cold
  = (Ok (OCRJsonToTextLine.failure_prefix ++ OCRJsonToTextLine.missing_result),
     Examples.w_cold).
Proof. reflexivity. Qed.

(** A traversal error of a caught class: [regions] is not iterable. *)
Lemma convert_regions_not_iterable :
  OCRJsonToTextLine.convert_json_to_text
    [(u "Result", JDict [(u "regions", JInt 5)])] Examples.w_cold
  = (Ok (OCRJsonToTextLine.failure_prefix ++ u "'int' object is not iterable"),
     Examples.w_cold).
Proof. reflexivity. Qed.

(** C1.  The code breaks the claim: for every document whose [Result] is
    not a dict ([None], a number, a string, a list), in every state of the
    store, [convert_json_to_text] raises [AttributeError] where the claim
    has it return the diagnostic string; the store is left as it was.  The
    handler lists [KeyError], [TypeError] and [ValueError], and the type
    error of the traversal, [.get] on a value that is not a dict, is none
    of them. *)
Theorem C1_result_not_dict_raises (ocr_json : list (pystr * json))
    (v : json) (w : world) :
  Json.lookup (u "Result") ocr_json = Some v ->
  OCRJsonToTextLine.is_dict v = false ->
  exists e,
    OCRJsonToTextLine.convert_json_to_text ocr_json w = (Raise e, w)
    /\ exn_cls e = AttributeError
    /\ exn_str e
       = u "'" ++ type_name v ++ u "' object has no attribute 'get'".
Proof.
  intros Hr Hv.
  unfold OCRJsonToTextLine.convert_json_to_text, try_exceptM,
    OCRJsonToTextLine.convert_try, Json.contains, Json.getitem.
  rewrite Hr. cbn [negb]. unfold bindM, lift.
  destruct v; try discriminate Hv; eexists; repeat split.
Qed.

Lemma C1_witness :
  exists e,
    OCRJsonToTextLine.convert_json_to_text [(u "Result", JInt 5)]
      Examples.w_cold = (Raise e, Examples.w_cold)
    /\ exn_cls e = AttributeError
    /\ exn_str e = u "'int' object has no attribute 'get'".
Proof.
  exact (C1_result_not_dict_raises [(u "Result", JInt 5)] (JInt 5)
           Examples.w_cold eq_refl eq_refl).
Defined.

(** * Further properties of the code *)

(** ** Bounding boxes *)

Module BoxFacts.
Import BoundingBox BoundingBoxSpec.

Lemma min_of_In (a : Z) (l : list Z) : In (min_of a l) (a :: l).
Proof.
  unfold min_of. revert a. induction l as [|b l IH]; intros a; cbn [fold_left].
  - left. reflexivity.
  - destruct (IH (Z.min a b)) as [H|H].
    + rewrite <- H. destruct (Z.min_spec a b) as [[_ ->]|[_ ->]];
        [left | right; left]; reflexivity.
    + right. right. exact H.
Qed.

Lemma max_of_In (a : Z) (l : list Z) : In (max_of a l) (a :: l).
Proof.
  unfold max_of. revert a. induction l as [|b l IH]; intros a; cbn [fold_left].
  - left. reflexivity.
  - destruct (IH (Z.max a b)) as [H|H].
    + rewrite <- H. destruct (Z.max_spec a b) as [[_ ->]|[_ ->]];
        [right; left | left]; reflexivity.
    + right. right. exact H.
Qed.

Lemma min_of_lower (a : Z) (l : list Z) (z : Z) :
  In z (a :: l) -> min_of a l <= z.
Proof.
  unfold min_of. revert a. induction l as [|b l IH]; intros a Hin;
    cbn [fold_left].
  - destruct Hin as [<-|[]]. lia.
  - pose proof (min_of_le (Z.min a b) l) as Hle. unfold min_of in Hle.
    destruct Hin as [<-|[<-|Hin]]; [lia | lia |].
    apply IH. right. exact Hin.
Qed.

Lemma max_of_upper (a : Z) (l : list Z) (z : Z) :
  In z (a :: l) -> z <= max_of a l.
Proof.
  unfold max_of. revert a. induction l as [|b l IH]; intros a Hin;
    cbn [fold_left].
  - destruct Hin as [<-|[]]. lia.
  - pose proof (max_of_ge (Z.max a b) l) as Hle. unfold max_of in Hle.
    destruct Hin as [<-|[<-|Hin]]; [lia | lia |].
    apply IH. right. exact Hin.
Qed.

(** The box of a string with eight integer tokens. *)
Lemma from_string_eight (s : pystr) (p0 p1 p2 p3 p4 p5 p6 p7 : pystr)
    (x0 y0 x1 y1 x2 y2 x3 y3 : Z) :
  tokens s = [p0; p1; p2; p3; p4; p5; p6; p7] ->
  parse_int p0 = Lit x0 -> parse_int p1 = Lit y0 ->
  parse_int p2 = Lit x1 -> parse_int p3 = Lit y1 ->
  parse_int p4 = Lit x2 -> parse_int p5 = Lit y2 ->
  parse_int p6 = Lit x3 -> parse_int p7 = Lit y3 ->
  from_string (JStr s)
  = Ok (cls (min_of x0 [x1; x2; x3]) (min_of y0 [y1; y2; y3])
            (max_of x0 [x1; x2; x3] - min_of x0 [x1; x2; x3])
            (max_of y0 [y1; y2; y3] - min_of y0 [y1; y2; y3])).
Proof.
  intros Ht H0 H1 H2 H3 H4 H5 H6 H7.
  apply BoundingBoxFacts.int_of_str_Ok in H0, H1, H2, H3, H4, H5, H6, H7.
  unfold from_string, from_string_try, Json.split_comma.
  cbn [bind]. fold (tokens s). rewrite Ht.
  cbn [length Nat.eqb mapM].
  rewrite H0, H1, H2, H3, H4, H5, H6, H7. reflexivity.
Qed.

(** [s.split(',')] of fields joined by commas. *)
Lemma split_no_sep (sep : Z) (a : pystr) :
  ~ In sep a -> split sep a = [a].
Proof.
  induction a as [|c a IH]; intros H; cbn [split]; [reflexivity|].
  destruct (Z.eqb_spec c sep) as [->|Hne]; [elim H; left; reflexivity|].
  rewrite IH; [reflexivity|]. intros Hin. apply H. right. exact Hin.
Qed.

Lemma split_app (sep : Z) (a rest : pystr) :
  ~ In sep a -> split sep (a ++ sep :: rest) = a :: split sep rest.
Proof.
  induction a as [|c a IH]; intros H; cbn [split app].
  - now rewrite Z.eqb_refl.
  - destruct (Z.eqb_spec c sep) as [->|Hne]; [elim H; left; reflexivity|].
    rewrite IH; [reflexivity|]. intros Hin. apply H. right. exact Hin.
Qed.

Lemma parse_int_nil : parse_int [] = Invalid.
Proof. reflexivity. Qed.

End BoxFacts.

(** X1.  An 8-token quad string is reduced to the bounding rectangle of its
    four corner points: every corner lies in the box, and each side of the
    box passes through a corner. *)
Theorem quad_bounding_rectangle (s : pystr)
    (p0 p1 p2 p3 p4 p5 p6 p7 : pystr) (x0 y0 x1 y1 x2 y2 x3 y3 : Z) :
  BoundingBoxSpec.tokens s = [p0; p1; p2; p3; p4; p5; p6; p7] ->
  parse_int p0 = Lit x0 -> parse_int p1 = Lit y0 ->
  parse_int p2 = Lit x1 -> parse_int p3 = Lit y1 ->
  parse_int p4 = Lit x2 -> parse_int p5 = Lit y2 ->
  parse_int p6 = Lit x3 -> parse_int p7 = Lit y3 ->
  exists b,
    BoundingBox.from_string (JStr s) = Ok b
    /\ (forall px py, In (px, py) [(x0, y0); (x1, y1); (x2, y2); (x3, y3)] ->
        BoundingBox.x b <= px <= BoundingBox.x b + BoundingBox.width b
        /\ BoundingBox.y b <= py <= BoundingBox.y b + BoundingBox.height b)
    /\ In (BoundingBox.x b) [x0; x1; x2; x3]
    /\ In (BoundingBox.x b + BoundingBox.width b) [x0; x1; x2; x3]
    /\ In (BoundingBox.y b) [y0; y1; y2; y3]
    /\ In (BoundingBox.y b + BoundingBox.height b) [y0; y1; y2; y3].
Proof.
  intros Ht H0 H1 H2 H3 H4 H5 H6 H7.
  eexists. split;
    [exact (BoxFacts.from_string_eight s _ _ _ _ _ _ _ _ _ _ _ _ _ _ _ _
              Ht H0 H1 H2 H3 H4 H5 H6 H7)|].
  cbn [BoundingBox.x BoundingBox.y BoundingBox.width BoundingBox.height].
  replace (min_of x0 [x1; x2; x3] + (max_of x0 [x1; x2; x3] - min_of x0 [x1; x2; x3]))
    with (max_of x0 [x1; x2; x3]) by lia.
  replace (min_of y0 [y1; y2; y3] + (max_of y0 [y1; y2; y3] - min_of y0 [y1; y2; y3]))
    with (max_of y0 [y1; y2; y3]) by lia.
  split; [|repeat split;
           first [apply BoxFacts.min_of_In | apply BoxFacts.max_of_In]].
  intros px py Hin.
  assert (Hx : In px [x0; x1; x2; x3])
    by (simpl in *; intuition congruence).
  assert (Hy : In py [y0; y1; y2; y3])
    by (simpl in *; intuition congruence).
  pose proof (BoxFacts.min_of_lower _ _ _ Hx).
  pose proof (BoxFacts.max_of_upper _ _ _ Hx).
  pose proof (BoxFacts.min_of_lower _ _ _ Hy).
  pose proof (BoxFacts.max_of_upper _ _ _ Hy). lia.
Qed.

Lemma quad_bounding_rectangle_witness :
  exists b,
    BoundingBox.from_string (JStr (u "10,20,30,22,29,40,9,38")) = Ok b
    /\ BoundingBox.x b <= 29 <= BoundingBox.x b + BoundingBox.width b.
Proof.
  destruct (quad_bounding_rectangle (u "10,20,30,22,29,40,9,38")
              (u "10") (u "20") (u "30") (u "22") (u "29") (u "40")
              (u "9") (u "38") 10 20 30 22 29 40 9 38
              eq_refl eq_refl eq_refl eq_refl eq_refl eq_refl eq_refl
              eq_refl eq_refl) as (b & Hb & Hin & _).
  exists b. split; [exact Hb|].
  apply (Hin 29 40). simpl. tauto.
Defined.

(** X2.  Four integer fields joined by commas are read back as they are,
    whatever whitespace surrounds each field. *)
Theorem four_fields_round_trip (a b c d : pystr) (x y w h : Z) :
  ~ In 0x2C a -> ~ In 0x2C b -> ~ In 0x2C c -> ~ In 0x2C d ->
  parse_int (PyStr.strip a) = Lit x -> parse_int (PyStr.strip b) = Lit y ->
  parse_int (PyStr.strip c) = Lit w -> parse_int (PyStr.strip d) = Lit h ->
  BoundingBox.from_string
    (JStr (a ++ 0x2C :: b ++ 0x2C :: c ++ 0x2C :: d))
  = Ok (BoundingBox.cls x y w h).
Proof.
  intros Ha Hb Hc Hd Hx Hy Hw Hh.
  apply (from_string_four _ (PyStr.strip a) (PyStr.strip b) (PyStr.strip c)
           (PyStr.strip d)); try assumption.
  unfold BoundingBoxSpec.tokens, BoundingBox.usable.
  rewrite !BoxFacts.split_app, BoxFacts.split_no_sep by assumption.
  cbn [filter].
  destruct (PyStr.strip a) eqn:Ea; [rewrite BoxFacts.parse_int_nil in Hx; discriminate|].
  destruct (PyStr.strip b) eqn:Eb; [rewrite BoxFacts.parse_int_nil in Hy; discriminate|].
  destruct (PyStr.strip c) eqn:Ec; [rewrite BoxFacts.parse_int_nil in Hw; discriminate|].
  destruct (PyStr.strip d) eqn:Ed; [rewrite BoxFacts.parse_int_nil in Hh; discriminate|].
  cbn [map]. now rewrite Ea, Eb, Ec, Ed.
Qed.

Lemma four_fields_round_trip_witness :
  BoundingBox.from_string (JStr (u " 12" ++ 0x2C :: u "-7 " ++ 0x2C :: u "+30" ++ 0x2C :: u "4"))
  = Ok (BoundingBox.cls 12 (-7) 30 4).
Proof.
  apply four_fields_round_trip;
    try (vm_compute; intuition discriminate); reflexivity.
Defined.

(** X3.  [BoundingBox.from_string] raises exactly when its argument is not
    a string, and then it raises [AttributeError] (the [split] method is
    missing), which its [except] clause does not catch. *)
Theorem from_string_raises_iff_not_str (v : json) :
  match v with
  | JStr _ => exists b, BoundingBox.from_string v = Ok b
  | _ => exists e,
           BoundingBox.from_string v = Raise e /\ exn_cls e = AttributeError
  end.
Proof.
  destruct v; try (eexists; split; reflexivity).
  apply BoundingBoxFacts.from_string_total.
Qed.

(** ** The data classes *)

Module DocumentFacts.
Import DocumentSpec.

Lemma mapM_total {A B} (f : A -> res B) (P : A -> Prop) (l : list A) :
  (forall a, P a -> exists b, f a = Ok b) ->
  Forall P l -> exists bs, mapM f l = Ok bs.
Proof.
  intros Hf. induction 1 as [|a l Ha _ [bs IH]]; cbn [mapM]; [eauto|].
  destruct (Hf a Ha) as [b ->]. rewrite IH. cbn [bind]. eauto.
Qed.

(** The box of a dict whose [boundingBox] is a string or is missing. *)
Lemma box_field_Ok (entries : list (pystr * json)) :
  box_field entries ->
  exists b,
    BoundingBox.from_string
      (match Json.lookup (u "boundingBox") entries with
       | Some x => x
       | None => BoundingBox.default_string
       end) = Ok b.
Proof.
  unfold box_field.
  destruct (Json.lookup (u "boundingBox") entries) as [[]|];
    try contradiction; intros _;
    apply BoundingBoxFacts.from_string_total.
Qed.

Lemma word_from_dict_Ok (v : json) :
  word_json v -> exists w, Word.from_dict v = Ok w.
Proof.
  intros (entries & -> & Hb). unfold Word.from_dict, Json.get. cbn [bind].
  destruct (box_field_Ok entries Hb) as [b ->]. cbn [bind]. eauto.
Qed.

(** The items of a list-valued key are the ones the comprehension
    iterates over. *)
Lemma items_field_iter (key : pystr) (P : json -> Prop)
    (entries : list (pystr * json)) :
  items_field key P entries ->
  Json.iter (match Json.lookup key entries with
             | Some x => x
             | None => JList []
             end) = Ok (items_of key entries)
  /\ Forall P (items_of key entries).
Proof.
  unfold items_field, items_of.
  destruct (Json.lookup key entries) as [[]|]; try contradiction;
    intros H; split; first [reflexivity | assumption | constructor].
Qed.

Lemma line_from_dict_Ok (v : json) :
  line_json v -> exists l, Line.from_dict v = Ok l.
Proof.
  intros (entries & -> & Hb & Hw & Hh).
  unfold Line.from_dict, Json.get. cbn [bind].
  destruct (items_field_iter _ _ _ Hw) as [-> Hws]. cbn [bind].
  destruct (mapM_total Word.from_dict word_json _ word_from_dict_Ok Hws)
    as [ws ->]. cbn [bind].
  destruct (box_field_Ok entries Hb) as [b ->]. cbn [bind].
  assert (Hi : exists n,
    Json.int (or_else (match Json.lookup (u "text_height") entries with
                       | Some x => x
                       | None => JInt 0
                       end) (JInt 0)) = Ok n).
  { destruct (Json.lookup (u "text_height") entries) as [[]|];
      try contradiction; unfold or_else; cbn [truth];
      try (destruct (negb _)); try (destruct b0); cbn [Json.int]; eauto. }
  destruct Hi as [n ->]. cbn [bind]. eauto.
Qed.

Lemma region_from_dict_Ok (entries : list (pystr * json)) :
  box_field entries -> items_field (u "lines") line_json entries ->
  exists ls b,
    mapM Line.from_dict (items_of (u "lines") entries) = Ok ls
    /\ Region.from_dict (JDict entries)
       = Ok (Region.cls
               (match Json.lookup (u "lang") entries with
                | Some x => x
                | None => JStr []
                end)
               (match Json.lookup (u "dir") entries with
                | Some x => x
                | None => JStr HORIZONTAL
                end) ls b).
Proof.
  intros Hb Hl. unfold Region.from_dict, Json.get. cbn [bind].
  destruct (items_field_iter _ _ _ Hl) as [-> Hls]. cbn [bind].
  destruct (mapM_total Line.from_dict line_json _ line_from_dict_Ok Hls)
    as [ls Hm]. rewrite Hm. cbn [bind].
  destruct (box_field_Ok entries Hb) as [b ->]. cbn [bind].
  exists ls, b. split; reflexivity.
Qed.

End DocumentFacts.

(** X4.  [Region.from_dict] accepts every region of the input schema (a dict
    whose [lines] are dicts with [words] that are dicts, every box a string,
    every key optional): it builds one [Line] per item of [lines], and a
    missing [dir] reads as horizontal. *)
Theorem region_from_dict_schema (entries : list (pystr * json)) :
  DocumentSpec.region_json (JDict entries) ->
  exists r,
    Region.from_dict (JDict entries) = Ok r
    /\ length (Region.lines r)
       = length (DocumentSpec.items_of (u "lines") entries)
    /\ (Json.lookup (u "dir") entries = None ->
        Region.dir r = JStr HORIZONTAL).
Proof.
  intros (entries' & Heq & Hb & Hl). inversion Heq; subst entries'.
  destruct (DocumentFacts.region_from_dict_Ok entries Hb Hl)
    as (ls & b & Hm & Hr).
  eexists. split; [exact Hr|]. cbn [Region.lines Region.dir]. split.
  - exact (mapM_length _ _ _ Hm).
  - intros ->. reflexivity.
Qed.

Lemma region_from_dict_schema_witness :
  exists r,
    Region.from_dict
      (JDict [(u "lines",
               JList [JDict [(u "text", JStr (u "ab"));
                             (u "boundingBox", JStr (u "1,2,3,4"));
                             (u "words", JList [JDict []])];
                      JDict []])]) = Ok r
    /\ length (Region.lines r) = 2%nat.
Proof.
  destruct (region_from_dict_schema
              [(u "lines",
                JList [JDict [(u "text", JStr (u "ab"));
                              (u "boundingBox", JStr (u "1,2,3,4"));
                              (u "words", JList [JDict []])];
                       JDict []])]) as (r & Hr & Hlen & _).
  - eexists. split; [reflexivity|]. split; [exact I|].
    unfold DocumentSpec.items_field. cbn.
    repeat constructor.
    + eexists. split; [reflexivity|]. split; [exact I|]. split; [|exact I].
      unfold DocumentSpec.items_field. cbn. repeat constructor.
      eexists. split; [reflexivity | exact I].
    + eexists. split; [reflexivity|]. repeat split; exact I.
  - exists r. split; [exact Hr | exact Hlen].
Defined.

(** ** CJK detection and the median *)

Module SampleFacts.
Import OCRJsonToTextLine.

Lemma contains_cjk_loop_existsb (s : pystr) :
  contains_cjk_loop (map (fun c => JStr [c]) s) = Ok (existsb cjk_code s).
Proof.
  induction s as [|c s IH]; cbn [map contains_cjk_loop existsb];
    [reflexivity|].
  cbn [Json.ord bind]. destruct (cjk_code c); [reflexivity | exact IH].
Qed.

Lemma sorted_by_length {K A} (ltb : K -> K -> bool) (key : A -> K)
    (l : list A) :
  length (sorted_by ltb key l) = length l.
Proof.
  apply Permutation_length, sorted_by_perm.
Qed.

Lemma sorted_nth_In {K A} (ltb : K -> K -> bool) (key : A -> K)
    (l : list A) (i : nat) (d : A) :
  (i < length l)%nat -> In (nth i (sorted_by ltb key l) d) l.
Proof.
  intros Hi.
  apply (Permutation_in _ (sorted_by_perm ltb key l)).
  apply nth_In. now rewrite sorted_by_length.
Qed.

Lemma median_odd (data : list float) :
  Nat.odd (length data) = true ->
  exists v, median data = Ok v /\ In v data.
Proof.
  intros Hodd. unfold median. rewrite sorted_by_length.
  assert (Hmod : (length data mod 2 = 1)%nat).
  { rewrite <- Nat.bit0_mod, Nat.bit0_odd, Hodd. reflexivity. }
  destruct (length data) as [|n] eqn:En; [discriminate Hodd|].
  cbn [Nat.eqb]. rewrite Hmod. cbn [Nat.eqb].
  eexists. split; [reflexivity|].
  apply sorted_nth_In. rewrite En.
  apply Nat.div_lt; lia.
Qed.

Lemma median_even (data : list float) :
  data <> [] -> Nat.even (length data) = true ->
  exists a b v,
    In a data /\ In b data /\ median data = Ok v
    /\ fdiv (fadd a b) f2 = Ok v.
Proof.
  intros Hne Heven. unfold median. rewrite sorted_by_length.
  assert (Hmod : (length data mod 2 = 0)%nat).
  { rewrite <- Nat.bit0_mod, Nat.bit0_odd, <- Nat.negb_even, Heven.
    reflexivity. }
  destruct data as [|v0 data]; [congruence|].
  set (l := v0 :: data) in *.
  assert (Hlen : (2 <= length l)%nat).
  { subst l. cbn [length] in *. destruct (length data); [discriminate|lia]. }
  destruct (length l) as [|n] eqn:En; [lia|].
  cbn [Nat.eqb]. rewrite Hmod. cbn [Nat.eqb].
  exists (nth (S n / 2 - 1) (sorted_by flt (fun v => v) l) f0),
         (nth (S n / 2) (sorted_by flt (fun v => v) l) f0).
  eexists. split; [|split; [|split; reflexivity]].
  - apply sorted_nth_In. rewrite En.
    pose proof (Nat.div_lt (S n) 2). lia.
  - apply sorted_nth_In. rewrite En. apply Nat.div_lt; lia.
Qed.

End SampleFacts.

(** X5.  [_contains_cjk] of a string tells whether one of its code points
    lies in one of the six CJK ideograph ranges, and it never raises on a
    string. *)
Theorem contains_cjk_is_existsb (s : pystr) :
  OCRJsonToTextLine._contains_cjk (JStr s)
  = Ok (existsb OCRJsonToTextLine.cjk_code s).
Proof.
  unfold OCRJsonToTextLine._contains_cjk, Json.iter. cbn [bind].
  apply SampleFacts.contains_cjk_loop_existsb.
Qed.

(** X6.  [_robust_median] never raises.  It is 0.0 on no samples, one of
    the samples when their number is odd, and half the sum of two of the
    samples when it is even. *)
Theorem robust_median_of_samples (values : list float) :
  exists v,
    OCRJsonToTextLine._robust_median values = Ok v
    /\ match values with
       | [] => v = f0
       | _ :: _ =>
           if Nat.odd (length values) then In v values
           else exists a b,
                  In a values /\ In b values /\ fdiv (fadd a b) f2 = Ok v
       end.
Proof.
  destruct values as [|v0 vs]; [exists f0; split; reflexivity|].
  unfold OCRJsonToTextLine._robust_median.
  destruct (Nat.odd (length (v0 :: vs))) eqn:Hodd.
  - destruct (SampleFacts.median_odd _ Hodd) as (v & -> & Hin).
    exists v. split; [reflexivity | exact Hin].
  - assert (Heven : Nat.even (length (v0 :: vs)) = true)
      by (rewrite <- Nat.negb_odd, Hodd; reflexivity).
    destruct (SampleFacts.median_even (v0 :: vs)) as (a & b & v & Ha & Hb & -> & Hv);
      [discriminate | exact Heven |].
    exists v. split; [reflexivity|]. exists a, b. auto.
Qed.

(** ** The estimator and its store *)

Module StoreFacts.
Import OCRJsonToTextLine EstimatorSpec StoreSpec.

(** The history that the next run reads from a stored dict of constants. *)
Lemma history_constants_exact (ch m : float) (c l now : Z) :
  history (constants ch m c l now)
  = Ok (read_back (round_to ch 2), read_back (round_to m 3), c, l).
Proof.
  unfold history, constants, Json.get. cbv [Json.lookup]. simpl.
  unfold or_else, truth, Json.float, read_back, PyFloat.truthy.
  destruct (is_zero (round_to ch 2));
    destruct (is_zero (round_to m 3)); reflexivity.
Qed.

Lemma or_default_not_le (default x : float) :
  fle default f0 = false -> fle (or_default default x) f0 = false.
Proof.
  intros Hd. unfold or_default. destruct (fle x f0) eqn:E; assumption.
Qed.

Lemma or_default_positive (default x : float) :
  fgt x f0 = true -> or_default default x = x.
Proof.
  intros H. unfold or_default. now rewrite (fgt_not_fle x H).
Qed.

Lemma blend_fallback (current prev : float) (sparse : bool) (n prev_n : Z) :
  fgt prev f0 = true -> sparse || fle current f0 = true ->
  blend current prev sparse n prev_n = Ok prev.
Proof. intros Hp Hs. unfold blend. now rewrite Hp, Hs. Qed.

End StoreFacts.

(** X7.  What a run writes is what the next run reads: after a run on a
    writable store that returns [ch] and [m] with the counts [cn] and [ln],
    the history read from the store is [round(ch, 2)], [round(m, 3)] and
    the previous counts increased by [cn] and [ln], capped at 1000. *)
Theorem store_round_trip (regions : list Region.t) (w w' : world)
    (ch m : float) (cn ln : Z) :
  OCRJsonToTextLine.estimate_layout_constants regions w
  = (Ok (ch, m, (cn, ln)), w') ->
  writable w = true ->
  exists pch pm pcn pln,
    OCRJsonToTextLine.history (EstimatorSpec.loaded w) = Ok (pch, pm, pcn, pln)
    /\ OCRJsonToTextLine.history (EstimatorSpec.loaded w')
       = Ok (StoreSpec.read_back (round_to ch 2),
             StoreSpec.read_back (round_to m 3),
             Z.min 1000 (pcn + cn), Z.min 1000 (pln + ln)).
Proof.
  intros H Hw.
  destruct (EstimatorFacts.estimate_Ok _ _ _ _ _ _ H)
    as (chs & lhs & cch & clh & cm & pch & pm & pcn & pln & fch & fm
        & _ & _ & Hh & _ & _ & _ & _ & Hcnt & Hw').
  inversion Hcnt; subst cn ln.
  exists pch, pm, pcn, pln. split; [exact Hh|].
  rewrite Hw'. unfold OCRJsonToTextLine._save_constants. rewrite Hw.
  unfold EstimatorSpec.loaded. cbn [snd constants_file].
  apply StoreFacts.history_constants_exact.
Qed.

Lemma store_round_trip_witness :
  exists r w' h,
    OCRJsonToTextLine.estimate_layout_constants Examples.doc5 Examples.w_hist
    = (Ok r, w')
    /\ OCRJsonToTextLine.history (EstimatorSpec.loaded w') = Ok h
    /\ snd h = 6.
Proof.
  destruct (OCRJsonToTextLine.estimate_layout_constants Examples.doc5
              Examples.w_hist) as [[[[ch m] [cn ln]]|e] w'] eqn:E;
    [|vm_compute in E; discriminate].
  destruct (store_round_trip _ _ _ _ _ _ _ E eq_refl)
    as (pch & pm & pcn & pln & Hh & Hh').
  eexists _, w', _. split; [reflexivity|]. split; [exact Hh'|].
  vm_compute in Hh. inversion Hh; subst.
  vm_compute in E. inversion E; subst. reflexivity.
Defined.



(** X9.  The char height that a run returns is never zero or negative, so
    the divisions by it in the spacing computations cannot raise
    [ZeroDivisionError]. *)
Theorem char_height_not_zero (regions : list Region.t) (w w' : world)
    (ch m : float) (cnt : Z * Z) :
  OCRJsonToTextLine.estimate_layout_constants regions w
  = (Ok (ch, m, cnt), w') ->
  fle ch f0 = false
  /\ forall px, fdiv px ch = Ok (SFdiv prec emax px ch).
Proof.
  intros H.
  destruct (EstimatorFacts.estimate_Ok _ _ _ _ _ _ H)
    as (chs & lhs & cch & clh & cm & pch & pm & pcn & pln & fch & fm
        & _ & _ & _ & _ & _ & Hch & _).
  assert (Hle : fle ch f0 = false)
    by (rewrite Hch; now apply StoreFacts.or_default_not_le).
  split; [exact Hle|].
  intros px. unfold fdiv. now rewrite (not_fle_not_zero ch Hle).
Qed.

Lemma char_height_not_zero_witness :
  exists ch m cnt w',
    OCRJsonToTextLine.estimate_layout_constants Examples.doc6 Examples.w_cold
    = (Ok (ch, m, cnt), w')
    /\ fle ch f0 = false.
Proof.
  destruct (OCRJsonToTextLine.estimate_layout_constants Examples.doc6
              Examples.w_cold) as [[[[ch m] cnt]|e] w'] eqn:E;
    [|vm_compute in E; discriminate].
  exists ch, m, cnt, w'. split; [reflexivity|].
  exact (proj1 (char_height_not_zero _ _ _ _ _ _ E)).
Defined.

(** X10.  With too few samples in the document the run falls back on the
    history: fewer than 5 char samples and a positive stored char height
    give the stored char height; fewer than 3 line samples (or fewer than 5
    char samples, which leave no multiplier to estimate) and a positive
    stored multiplier give the stored multiplier, clamped to [1.2, 2.0]. *)
Theorem sparse_samples_fall_back (regions : list Region.t) (w w' : world)
    (ch m pch pm : float) (cnt : Z * Z) (pcn pln : Z)
    (chs lhs : list float) :
  OCRJsonToTextLine.estimate_layout_constants regions w
  = (Ok (ch, m, cnt), w') ->
  OCRJsonToTextLine.history (EstimatorSpec.loaded w) = Ok (pch, pm, pcn, pln) ->
  OCRJsonToTextLine.collect_samples regions [] [] = Ok (chs, lhs) ->
  ((length chs < 5)%nat -> fgt pch f0 = true -> ch = pch)
  /\ ((length lhs < 3)%nat \/ (length chs < 5)%nat ->
      fgt pm f0 = true -> m = EstimatorSpec.clamp pm).
Proof.
  intros H Hh Hs.
  destruct (EstimatorFacts.estimate_Ok _ _ _ _ _ _ H)
    as (chs' & lhs' & cch & clh & cm & pch' & pm' & pcn' & pln' & fch & fm
        & Hs' & Hc & Hh' & Hbc & Hbl & Hch & Hm & _).
  rewrite Hs in Hs'. inversion Hs'; subst chs' lhs'.
  rewrite Hh in Hh'. inversion Hh'; subst pch' pm' pcn' pln'.
  destruct (EstimatorFacts.current_estimates_total chs lhs)
    as (cch' & clh' & cm' & Hc' & Hsc & Hsl).
  rewrite Hc in Hc'. inversion Hc'; subst cch' clh' cm'.
  split.
  - intros Hlen Hp.
    rewrite StoreFacts.blend_fallback in Hbc; [|exact Hp|].
    + inversion Hbc; subst fch. rewrite Hch.
      now apply StoreFacts.or_default_positive.
    + apply orb_true_iff. left. apply Z.ltb_lt. lia.
  - intros Hlen Hp.
    rewrite StoreFacts.blend_fallback in Hbl; [|exact Hp|].
    + inversion Hbl; subst fm. rewrite Hm.
      now rewrite StoreFacts.or_default_positive.
    + apply orb_true_iff. destruct Hlen as [Hlen|Hlen].
      * left. apply Z.ltb_lt. lia.
      * right. destruct (Hsc Hlen) as [_ ->]. reflexivity.
Qed.

Lemma sparse_samples_fall_back_witness :
  exists ch m cnt w',
    OCRJsonToTextLine.estimate_layout_constants [] Examples.w_hist
    = (Ok (ch, m, cnt), w')
    /\ ch = of_decimal 20 0 /\ m = EstimatorSpec.clamp f1_5.
Proof.
  destruct (OCRJsonToTextLine.estimate_layout_constants [] Examples.w_hist)
    as [[[[ch m] cnt]|e] w'] eqn:E; [|vm_compute in E; discriminate].
  destruct (sparse_samples_fall_back [] Examples.w_hist w' ch m
              (of_decimal 20 0) f1_5 cnt 5 5 [] [] E eq_refl eq_refl)
    as [H1 H2].
  exists ch, m, cnt, w'. split; [reflexivity|]. split.
  - apply H1; [simpl; lia | reflexivity].
  - apply H2; [left; simpl; lia | reflexivity].
Defined.

(** ** Fragments and row groups *)

Module LayoutFacts.
Import OCRJsonToTextLine LayoutSpec.

Lemma fragment_of_falsy (line : Line.t) :
  truth (Line.text line) = false -> fragment_of line = [].
Proof.
  unfold fragment_of. destruct (Line.text line) as [| | | |[|c s]| |];
    try reflexivity. discriminate.
Qed.

Lemma line_fragments_spec (lines : list Line.t) :
  Forall textual lines ->
  forall acc,
    line_fragments lines acc = Ok (acc ++ flat_map fragment_of lines).
Proof.
  induction 1 as [|line lines Ht _ IH]; intros acc;
    cbn [line_fragments flat_map]; [now rewrite app_nil_r|].
  destruct (truth (Line.text line)) eqn:E; cbn [negb].
  - destruct (Ht E) as [s Hs]. unfold fragment_of. rewrite Hs in *.
    destruct s as [|c s]; [discriminate|]. cbn [Json.strip bind].
    rewrite IH, <- app_assoc. reflexivity.
  - rewrite (fragment_of_falsy line E). apply IH.
Qed.

Lemma region_fragments_spec (regions : list Region.t) :
  (forall r l, In r regions -> horizontal r = true ->
               In l (Region.lines r) -> textual l) ->
  forall acc, region_fragments regions acc = Ok (acc ++ fragments_of regions).
Proof.
  unfold fragments_of.
  induction regions as [|r regions IH]; intros Ht acc;
    cbn [region_fragments flat_map]; [now rewrite app_nil_r|].
  fold (horizontal r).
  assert (Hrest : forall r' l, In r' regions -> horizontal r' = true ->
                               In l (Region.lines r') -> textual l)
    by (intros r' l Hin; apply Ht; right; exact Hin).
  destruct (horizontal r) eqn:E; cbn [negb].
  - rewrite line_fragments_spec.
    + cbn [bind]. rewrite (IH Hrest), <- app_assoc. reflexivity.
    + apply Forall_forall. intros l Hl. apply (Ht r l); auto. left; reflexivity.
  - apply (IH Hrest).
Qed.

(** *** The groups are runs of the sorted list *)

Lemma group_loop_runs (threshold : float) (items : list Fragment.t) :
  forall groups cur mid groups' cur',
    (mid = None -> cur = []) ->
    group_loop threshold items groups cur mid = Ok (groups', cur') ->
    exists runs,
      groups' = groups ++ map sorted_by_x runs
      /\ concat runs ++ cur' = cur ++ items
      /\ Forall (fun g => g <> []) runs.
Proof.
  induction items as [|item rest IH]; intros groups cur mid groups' cur' Hm H.
  - cbn [group_loop] in H. inversion H; subst. exists [].
    cbn [map List.concat app]. rewrite !app_nil_r. auto.
  - cbn [group_loop] in H.
    assert (Hstart :
      cur = [] ->
      (ym <- Fragment.get_y_mid item ;;
       group_loop threshold rest groups [item] (Some ym)) = Ok (groups', cur') ->
      exists runs,
        groups' = groups ++ map sorted_by_x runs
        /\ concat runs ++ cur' = cur ++ item :: rest
        /\ Forall (fun g => g <> []) runs).
    { intros -> H'. apply bind_Ok in H'. destruct H' as [ym [_ H']].
      apply IH in H'; [exact H' | discriminate]. }
    destruct cur as [|c cs]; [exact (Hstart eq_refl H)|].
    destruct mid as [mid|]; [|discriminate (Hm eq_refl)].
    apply bind_Ok in H. destruct H as [ym [_ H]].
    destruct (fle (fabs (fsub ym mid)) threshold).
    + cbv zeta in H.
      apply bind_Ok in H. destruct H as [n1 [_ H]].
      apply bind_Ok in H. destruct H as [ym' [_ H]].
      apply bind_Ok in H. destruct H as [n [_ H]].
      apply bind_Ok in H. destruct H as [mid' [_ H]].
      apply IH in H; [|discriminate]. destruct H as (runs & Hg & Hc & Hn).
      exists runs. split; [exact Hg|]. split; [|exact Hn].
      rewrite Hc, <- app_assoc. reflexivity.
    + cbv zeta in H.
      apply bind_Ok in H. destruct H as [ym' [_ H]].
      apply IH in H; [|discriminate]. destruct H as (runs & Hg & Hc & Hn).
      exists ((c :: cs) :: runs). split; [|split].
      * rewrite Hg, <- app_assoc. reflexivity.
      * cbn [List.concat]. rewrite <- app_assoc, Hc. reflexivity.
      * constructor; [discriminate | exact Hn].
Qed.

Lemma group_fragments_runs (fragments : list Fragment.t) (ls ratio : float)
    (groups : list (list Fragment.t)) (frs : list Fragment.t) :
  _group_fragments_by_line fragments ls ratio = Ok (groups, frs) ->
  Sorted by_y_mid frs
  /\ exists runs,
       concat runs = frs /\ groups = map sorted_by_x runs
       /\ Forall (fun g => g <> []) runs.
Proof.
  unfold _group_fragments_by_line.
  destruct fragments as [|f fs]; cbn [is_empty].
  - intros H. inversion H; subst. split; [constructor|].
    exists []. repeat split; constructor.
  - intros H.
    apply bind_Ok in H. destruct H as [marked [Hm H]].
    apply bind_Ok in H. destruct H as [sorted [Hs H]].
    cbv zeta in H.
    apply bind_Ok in H. destruct H as [[gs cur] [Hg H]].
    inversion H; subst; clear H.
    split; [exact (SortFacts.sort_by_y_mid_sorted _ _ Hs)|].
    apply group_loop_runs in Hg; [|reflexivity].
    destruct Hg as (runs & Hgs & Hc & Hn). cbn [app] in Hgs, Hc.
    destruct cur as [|c cs]; cbn [is_empty negb].
    + exists runs. rewrite app_nil_r in Hc. auto.
    + exists (runs ++ [c :: cs]). split; [|split].
      * rewrite concat_app. cbn [List.concat]. now rewrite app_nil_r.
      * rewrite Hgs, map_app. reflexivity.
      * apply Forall_app. split; [exact Hn|].
        constructor; [discriminate | constructor].
Qed.

End LayoutFacts.

(** X11.  When the text of every line of every horizontal region is a
    string (or is false), [_collect_horizontal_fragments] returns one
    fragment per line with a non-empty text, in document order, with the
    stripped text and the box of the line; the lines of other regions give
    none. *)
Theorem collect_fragments_of_document (regions : list Region.t) :
  (forall r l, In r regions -> LayoutSpec.horizontal r = true ->
               In l (Region.lines r) -> LayoutSpec.textual l) ->
  OCRJsonToTextLine._collect_horizontal_fragments regions
  = Ok (LayoutSpec.fragments_of regions).
Proof.
  intros H. unfold OCRJsonToTextLine._collect_horizontal_fragments.
  now rewrite (LayoutFacts.region_fragments_spec regions H []).
Qed.

Lemma collect_fragments_of_document_witness :
  OCRJsonToTextLine._collect_horizontal_fragments Examples.doc5
  = Ok (LayoutSpec.fragments_of Examples.doc5).
Proof.
  apply collect_fragments_of_document.
  intros r l [<-|[]] _ [<-|[]] _. eexists. reflexivity.
Defined.

(** X12.  The row groups are consecutive runs of the list of fragments as
    the call leaves it (sorted by vertical midpoint): cutting that list
    into non-empty runs and sorting each run by [x] gives the groups, so
    each group reads left to right. *)
Theorem row_groups_are_runs (fragments : list Fragment.t) (ls ratio : float)
    (groups : list (list Fragment.t)) (frs : list Fragment.t) :
  OCRJsonToTextLine._group_fragments_by_line fragments ls ratio
  = Ok (groups, frs) ->
  (exists runs,
     concat runs = frs
     /\ groups = map OCRJsonToTextLine.sorted_by_x runs
     /\ Forall (fun g => g <> []) runs)
  /\ Forall (Sorted LayoutSpec.by_x) groups.
Proof.
  intros H.
  destruct (LayoutFacts.group_fragments_runs _ _ _ _ _ H)
    as [_ (runs & Hc & Hg & Hn)].
  split; [exists runs; auto|].
  rewrite Hg. apply Forall_forall. intros g Hin.
  apply in_map_iff in Hin. destruct Hin as [run [<- _]].
  apply SortFacts.sorted_by_x_sorted.
Qed.

Lemma row_groups_are_runs_witness :
  exists groups frs,
    OCRJsonToTextLine._group_fragments_by_line
      [Examples.frag "b" 50 4; Examples.frag "c" 0 30; Examples.frag "a" 0 0]
      Examples.f10 OCRJsonToTextLine.same_line_threshold_ratio
    = Ok (groups, frs)
    /\ Forall (Sorted LayoutSpec.by_x) groups.
Proof.
  destruct (OCRJsonToTextLine._group_fragments_by_line
      [Examples.frag "b" 50 4; Examples.frag "c" 0 30; Examples.frag "a" 0 0]
      Examples.f10 OCRJsonToTextLine.same_line_threshold_ratio)
    as [[groups frs]|e] eqn:E; [|vm_compute in E; discriminate].
  exists groups, frs. split; [reflexivity|].
  exact (proj2 (row_groups_are_runs _ _ _ _ _ E)).
Defined.

(** X13.  [_group_fragments_by_line] leaves the caller's list sorted from
    top to bottom: every fragment has its [y_mid], and no fragment has a
    midpoint above the one of the fragment before it. *)
Theorem fragments_left_sorted (fragments : list Fragment.t)
    (ls ratio : float) (groups : list (list Fragment.t))
    (frs : list Fragment.t) :
  OCRJsonToTextLine._group_fragments_by_line fragments ls ratio
  = Ok (groups, frs) ->
  Sorted LayoutSpec.by_y_mid frs
  /\ Forall (fun f => Fragment.y_mid f <> None) frs.
Proof.
  intros H.
  split; [exact (proj1 (LayoutFacts.group_fragments_runs _ _ _ _ _ H))|].
  destruct (ClusterFacts.group_fragments_Ok _ _ _ _ _ H)
    as (marked & Hm & Hp & _).
  apply (Permutation_Forall (Permutation_sym Hp)).
  exact (proj2 (ClusterFacts.marked_annotated _ _ Hm)).
Qed.

Lemma fragments_left_sorted_witness :
  exists groups frs,
    OCRJsonToTextLine._group_fragments_by_line
      [Examples.frag "c" 0 30; Examples.frag "a" 0 0] Examples.f10
      OCRJsonToTextLine.same_line_threshold_ratio
    = Ok (groups, frs)
    /\ Sorted LayoutSpec.by_y_mid frs.
Proof.
  destruct (OCRJsonToTextLine._group_fragments_by_line
      [Examples.frag "c" 0 30; Examples.frag "a" 0 0] Examples.f10
      OCRJsonToTextLine.same_line_threshold_ratio)
    as [[groups frs]|e] eqn:E; [|vm_compute in E; discriminate].
  exists groups, frs. split; [reflexivity|].
  exact (proj1 (fragments_left_sorted _ _ _ _ _ E)).
Defined.

(** ** Spacing: two spaces per char height *)

Module SpacingFacts.
Import OCRJsonToTextLine LayoutSpec FloatSpec FloatFacts.

Lemma fmul_two (n : positive) :
  Zpos n < 2 ^ 52 -> fmul (canon n) f2 = canon (n~0).
Proof.
  intros Hn.
  assert (Hd2 : Zpos (digits2_pos n~0) <= 53)
    by (apply digits2_bound; rewrite Pos2Z.inj_xO; lia).
  assert (Hd : Zpos (digits2_pos n) <= 52).
  { cbn [digits2_pos] in Hd2. rewrite Pos2Z.inj_succ in Hd2. lia. }
  rewrite <- (round_aux_exact (n~0) (104 - Zpos (digits2_pos n)));
    [|exact Hd2 | cbn [digits2_pos]; rewrite Pos2Z.inj_succ; lia].
  unfold fmul, canon, f2. cbn [SFmul xorb].
  f_equal.
  - rewrite Pos2Z.inj_mul, canon_mantissa by lia.
    change (Zpos n~0) with (2 * Zpos n).
    change (Zpos 4503599627370496) with (2 * 2 ^ 51).
    replace (104 - Zpos (digits2_pos n))
      with ((53 - Zpos (digits2_pos n)) + 51) by lia.
    rewrite Z.pow_add_r by lia.
    ring.
  - lia.
Qed.

Lemma round_canon (p : positive) :
  Zpos p < 2 ^ 53 -> PyFloat.round (canon p) = Ok (Zpos p).
Proof.
  intros Hp. apply digits2_bound in Hp.
  unfold PyFloat.round, canon. rewrite canon_mantissa by exact Hp.
  unfold nearest_even.
  destruct (0 <=? Zpos (digits2_pos p) - 53) eqn:E.
  - apply Z.leb_le in E. replace (Zpos (digits2_pos p)) with 53 by lia.
    f_equal. change (2 ^ (53 - 53)) with 1. change (2 ^ (53 - 53)) with 1. lia.
  - apply Z.leb_gt in E.
    replace (- (Zpos (digits2_pos p) - 53)) with (53 - Zpos (digits2_pos p))
      by lia.
    assert (Hpow : 0 < 2 ^ (53 - Zpos (digits2_pos p)))
      by (apply Z.pow_pos_nonneg; lia).
    rewrite Z.mod_mul, Z.div_mul by lia.
    rewrite Z.mul_0_r.
    destruct (0 ?= 2 ^ (53 - Zpos (digits2_pos p))) eqn:Ec.
    + apply Z.compare_eq in Ec. lia.
    + reflexivity.
    + apply Z.compare_gt_iff in Ec. lia.
Qed.

Lemma fle_canon (p : positive) : fle (canon p) f0 = false.
Proof. reflexivity. Qed.

(** The number of spaces for a gap of [n] char heights of [c] pixels. *)
Lemma spaces_of_gap (c : positive) (n : Z) :
  Zpos c < 2 ^ 53 -> 0 <= n -> n * Zpos c < 2 ^ 52 ->
  (px <- of_int (n * Zpos c) ;;
   q <- fdiv px (canon c) ;;
   PyFloat.round (fmul q f2)) = Ok (2 * n).
Proof.
  intros Hc Hn Hnc. destruct n as [|q|q]; [reflexivity| |lia].
  change (Zpos q * Zpos c) with (Zpos (q * c)) in *.
  assert (Hq : Zpos q < 2 ^ 52) by (rewrite Pos2Z.inj_mul in Hnc; nia).
  rewrite of_int_canon by lia. cbn [bind].
  unfold fdiv. change (is_zero (canon c)) with false. cbn [bind].
  rewrite (SFdiv_canon (q * c) c q) by lia.
  rewrite fmul_two by exact Hq.
  rewrite round_canon by (rewrite Pos2Z.inj_xO; lia).
  reflexivity.
Qed.

Lemma of_int_positive (c : Z) (ch : float) :
  0 < c < 2 ^ 53 -> of_int c = Ok ch ->
  exists p, c = Zpos p /\ ch = canon p.
Proof.
  intros [H0 H1] H. destruct c as [|p|p]; try lia.
  rewrite of_int_canon in H by exact H1. inversion H. eauto.
Qed.

Lemma join_concat (parts : list pystr) : join [] parts = concat parts.
Proof.
  induction parts as [|p [|p' ps] IH]; cbn [join List.concat app];
    [reflexivity | now rewrite app_nil_r |].
  cbn [join List.concat app] in IH. now rewrite IH.
Qed.

Lemma join_loop_spaced (c : positive) (row : list Fragment.t) :
  Zpos c < 2 ^ 53 ->
  forall parts prev,
    aligned (Zpos c) prev row ->
    exists parts',
      join_loop row (canon c) parts (Some prev) = Ok parts'
      /\ concat parts' = concat parts ++ spaced (Zpos c) prev row.
Proof.
  intros Hc. induction row as [|frag rest IH]; intros parts prev Ha.
  - exists parts. cbn [join_loop spaced]. split; [reflexivity|].
    symmetry. apply app_nil_r.
  - cbn [aligned] in Ha. destruct Ha as ([n Hn] & Hlt & Hrest).
    cbn [join_loop spaced]. fold (gap_before prev frag).
    assert (Hn0 : 0 <= n) by (unfold gap_before in Hn; nia).
    rewrite Hn in *.
    pose proof (spaces_of_gap c n Hc Hn0 Hlt) as Hsp.
    destruct (of_int (n * Zpos c)) as [px|e]; [|discriminate Hsp].
    cbn [bind] in Hsp |- *.
    destruct (fdiv px (canon c)) as [q|e]; [|discriminate Hsp].
    cbn [bind] in Hsp |- *. rewrite Hsp. cbn [bind].
    rewrite Z.div_mul by lia.
    destruct (IH (if 0 <? 2 * n
                  then (parts ++ [PyStr.spaces (2 * n)]) ++ [Fragment.text frag]
                  else parts ++ [Fragment.text frag])
                 (Fragment.x frag + Fragment.width frag) Hrest)
      as (parts' & Hj & Hcat).
    exists parts'. split.
    + destruct (0 <? 2 * n); exact Hj.
    + rewrite Hcat. destruct (0 <? 2 * n) eqn:E.
      * rewrite !concat_app. cbn [List.concat].
        rewrite !app_nil_r, <- !app_assoc. reflexivity.
      * apply Z.ltb_ge in E. replace (2 * n) with 0 by lia.
        rewrite !concat_app. cbn [List.concat PyStr.spaces].
        rewrite !app_nil_r, <- !app_assoc. reflexivity.
Qed.

End SpacingFacts.

(** X14.  The indent of a row is two spaces per char height: when the char
    height is a whole number [c] of pixels and the left edge of the row is
    [n] char heights right of the base (pixel values below [2^52]), the row
    is indented by [2 * n] spaces; a row at or left of the base is not
    indented. *)
Theorem indent_two_spaces_per_char_height (row : list Fragment.t)
    (base_left c n : Z) (ch : float) :
  row <> [] -> 0 < c < 2 ^ 53 -> of_int c = Ok ch ->
  0 <= n -> n * c < 2 ^ 52 ->
  Z.max 0 (LayoutSpec.row_left row - base_left) = n * c ->
  OCRJsonToTextLine._compute_row_indent_spaces row base_left ch = Ok (2 * n).
Proof.
  intros Hrow Hc Hch Hn Hnc Hgap.
  destruct (SpacingFacts.of_int_positive c ch Hc Hch) as (p & -> & ->).
  unfold OCRJsonToTextLine._compute_row_indent_spaces.
  unfold LayoutSpec.row_left in Hgap.
  destruct row as [|f row]; [congruence|]. cbn [map] in *.
  rewrite SpacingFacts.fle_canon, Hgap.
  pose proof (SpacingFacts.spaces_of_gap p n ltac:(lia) Hn Hnc) as Hsp.
  destruct (of_int (n * Zpos p)) as [px|e]; [|discriminate Hsp].
  cbn [bind] in Hsp |- *.
  destruct (fdiv px (FloatSpec.canon p)) as [q|e]; [|discriminate Hsp].
  cbn [bind] in Hsp |- *. rewrite Hsp. cbn [bind].
  f_equal. lia.
Qed.

Lemma indent_two_spaces_per_char_height_witness :
  OCRJsonToTextLine._compute_row_indent_spaces
    [Examples.frag "a" 164 0; Examples.frag "b" 100 0] 4 f32 = Ok 6.
Proof.
  apply (indent_two_spaces_per_char_height
           [Examples.frag "a" 164 0; Examples.frag "b" 100 0] 4 32 3 f32);
    try reflexivity; try lia; try discriminate.
Defined.

(** X15.  The fragments of a row are joined with two spaces per char
    height of gap: when the char height is a whole number [c] of pixels and
    every gap between a fragment and the right edge of the one before it is
    a whole number of char heights (overlaps counting as no gap), the
    joined text is the texts with [2 * gap / c] spaces before each but the
    first.  A gap of 2 char heights gives 4 spaces. *)
Theorem join_two_spaces_per_char_height (frag : Fragment.t)
    (rest : list Fragment.t) (c : Z) (ch : float) :
  0 < c < 2 ^ 53 -> of_int c = Ok ch ->
  LayoutSpec.aligned c (Fragment.x frag + Fragment.width frag) rest ->
  OCRJsonToTextLine._join_fragments_with_spacing (frag :: rest) ch
  = Ok (Fragment.text frag
          ++ LayoutSpec.spaced c (Fragment.x frag + Fragment.width frag) rest).
Proof.
  intros Hc Hch Ha.
  destruct (SpacingFacts.of_int_positive c ch Hc Hch) as (p & -> & ->).
  unfold OCRJsonToTextLine._join_fragments_with_spacing.
  cbn [OCRJsonToTextLine.is_empty]. rewrite SpacingFacts.fle_canon.
  cbn [OCRJsonToTextLine.join_loop app].
  destruct (SpacingFacts.join_loop_spaced p rest ltac:(lia)
              [Fragment.text frag] _ Ha) as (parts' & -> & Hcat).
  cbn [bind]. rewrite SpacingFacts.join_concat, Hcat.
  cbn [List.concat]. now rewrite app_nil_r.
Qed.

Lemma join_two_spaces_per_char_height_witness :
  OCRJsonToTextLine._join_fragments_with_spacing
    [Examples.frag "a" 0 0; Examples.frag "b" 74 0; Examples.frag "c" 80 0]
    f32
  = Ok (u "a    bc").
Proof.
  apply (join_two_spaces_per_char_height (Examples.frag "a" 0 0)
           [Examples.frag "b" 74 0; Examples.frag "c" 80 0] 32 f32);
    [lia | reflexivity |].
  cbn. repeat split; try lia.
  - exists 2. reflexivity.
  - exists 0. reflexivity.
Defined.

(** ** Vertical regions and the entry point *)

Module VerticalFacts.
Import OCRJsonToTextLine LayoutSpec VerticalSpec.

Lemma vertical_lines_spec (lines : list Line.t) :
  Forall textual lines ->
  forall acc, vertical_lines lines acc = Ok (acc ++ flat_map line_text lines).
Proof.
  induction 1 as [|line lines Ht _ IH]; intros acc;
    cbn [vertical_lines flat_map]; [now rewrite app_nil_r|].
  unfold or_else, line_text. unfold textual in Ht.
  destruct (truth (Line.text line)) eqn:E.
  - destruct (Ht eq_refl) as [s Hs]. rewrite Hs. cbn [Json.strip bind].
    rewrite IH. destruct (is_empty (PyStr.strip s)); cbn [app];
      [reflexivity | now rewrite <- app_assoc].
  - cbn [Json.strip bind]. change (is_empty (PyStr.strip [])) with true.
    cbn iota. rewrite IH. f_equal. f_equal.
    destruct (Line.text line) as [| | | |s| |]; try reflexivity.
    destruct s; [reflexivity | discriminate].
Qed.

Lemma vertical_texts_spec (regions : list Region.t) :
  (forall r l, In r regions -> In l (Region.lines r) -> textual l) ->
  forall acc,
    vertical_texts regions acc
    = Ok (acc ++ flat_map
            (fun r =>
               flat_map line_text
                 (sorted_by Z.ltb (fun l => BoundingBox.x (Line.boundingBox l))
                            (Region.lines r))) regions).
Proof.
  induction regions as [|r regions IH]; intros Ht acc;
    cbn [vertical_texts flat_map]; [now rewrite app_nil_r|].
  rewrite vertical_lines_spec.
  - cbn [bind]. rewrite IH, <- app_assoc; [reflexivity|].
    intros r' l Hr. apply Ht. right. exact Hr.
  - apply (Permutation_Forall (Permutation_sym (sorted_by_perm _ _ _))).
    apply Forall_forall. intros l Hl. apply (Ht r l); [left; reflexivity|exact Hl].
Qed.

Lemma vertical_regions_In (regions : list Region.t) (r : Region.t) :
  In r (vertical_regions regions) ->
  In r regions /\ Json.eq_str (Region.dir r) VERTICAL = true.
Proof.
  unfold vertical_regions. intros H.
  apply (Permutation_in _ (sorted_by_perm _ _ _)) in H.
  apply filter_In in H. exact H.
Qed.

End VerticalFacts.

(** X16.  The text lines of the vertical regions come last, after every
    row of horizontal text: the regions from left to right, the lines of
    each region from left to right, each text stripped and empty texts
    dropped.  Without horizontal fragments nothing else is returned. *)
Theorem vertical_text_comes_last (regions : list Region.t)
    (ch m : float) (lines : list pystr) :
  (forall r l, In r regions ->
               Json.eq_str (Region.dir r) VERTICAL = true ->
               In l (Region.lines r) -> LayoutSpec.textual l) ->
  OCRJsonToTextLine.convert_regions_to_text_lines regions ch m = Ok lines ->
  exists rows,
    lines = rows ++ VerticalSpec.vertical_text_of regions
    /\ (OCRJsonToTextLine._collect_horizontal_fragments regions = Ok [] ->
        rows = []).
Proof.
  intros Ht H. unfold OCRJsonToTextLine.convert_regions_to_text_lines in H.
  apply bind_Ok in H. destruct H as [fragments [Hf H]].
  apply bind_Ok in H. destruct H as [rows [Hr H]].
  cbv zeta in H. fold (LayoutSpec.vertical_regions regions) in H.
  rewrite VerticalFacts.vertical_texts_spec in H.
  - inversion H; subst. exists rows. split; [reflexivity|].
    rewrite Hf. intros Hnil. inversion Hnil; subst.
    cbn in Hr. now inversion Hr.
  - intros r l Hin Hl. apply VerticalFacts.vertical_regions_In in Hin.
    destruct Hin as [Hin Hv]. exact (Ht r l Hin Hv Hl).
Qed.

Lemma vertical_text_comes_last_witness :
  exists rows,
    [u "b"; u "a"] = rows ++ VerticalSpec.vertical_text_of
      [Region.cls (JStr []) (JStr (u "v"))
         [Line.cls (JStr (u " a ")) [] (BoundingBox.cls 9 0 1 1) 0 (JStr []);
          Line.cls (JStr (u "b")) [] (BoundingBox.cls 2 0 1 1) 0 (JStr [])]
         (BoundingBox.cls 0 0 0 0)].
Proof.
  destruct (vertical_text_comes_last
      [Region.cls (JStr []) (JStr (u "v"))
         [Line.cls (JStr (u " a ")) [] (BoundingBox.cls 9 0 1 1) 0 (JStr []);
          Line.cls (JStr (u "b")) [] (BoundingBox.cls 2 0 1 1) 0 (JStr [])]
         (BoundingBox.cls 0 0 0 0)] f32 f1_5 [u "b"; u "a"])
    as (rows & Hrows & _).
  - intros r l [<-|[]] _ [<-|[<-|[]]] _; eexists; reflexivity.
  - reflexivity.
  - exists rows. exact Hrows.
Defined.

(** ** The samples of a document *)

Module CollectFacts.
Import OCRJsonToTextLine EstimatorSpec SampleSpec FloatSpec.

Lemma of_int_Z2F (n : Z) : 0 <= n < 2 ^ 53 -> of_int n = Ok (Z2F n).
Proof.
  intros [H0 H1]. destruct n as [|p|p]; [reflexivity | | lia].
  now apply FloatFacts.of_int_canon.
Qed.

Lemma word_samples_spec (words : list Word.t) :
  Forall plain_word words ->
  forall chs,
    word_samples words chs
    = Ok (chs ++ map (fun w => Z2F (BoundingBox.height (Word.boundingBox w)))
                     (filter is_char_sample words)).
Proof.
  induction 1 as [|w words [[s Hs] Hh] _ IH]; intros chs;
    cbn [word_samples filter map]; [now rewrite app_nil_r|].
  unfold is_char_sample. rewrite Hs.
  destruct s as [|c s]; cbn [truth negb].
  - cbn [existsb andb]. apply IH.
  - unfold _contains_cjk, Json.iter. cbn [bind].
    rewrite SampleFacts.contains_cjk_loop_existsb. cbn [bind].
    destruct (existsb cjk_code (c :: s)
              && (0 <? BoundingBox.height (Word.boundingBox w))) eqn:E;
      [|apply IH].
    apply andb_prop in E. destruct E as [_ E]. apply Z.ltb_lt in E.
    rewrite of_int_Z2F by lia. cbn [bind map].
    rewrite IH, <- app_assoc. reflexivity.
Qed.

Lemma line_samples_spec (lines : list Line.t) :
  Forall plain_line lines ->
  forall chs lhs,
    line_samples lines chs lhs
    = Ok (chs ++ flat_map
                   (fun l =>
                      map (fun w => Z2F (BoundingBox.height (Word.boundingBox w)))
                          (filter is_char_sample (Line.words l))) lines,
          lhs ++ flat_map line_sample lines).
Proof.
  induction 1 as [|l lines (Hw & Hh & Ht) _ IH]; intros chs lhs;
    cbn [line_samples flat_map]; [now rewrite !app_nil_r|].
  unfold line_sample at 1.
  destruct (0 <? BoundingBox.height (Line.boundingBox l)) eqn:E.
  - apply Z.ltb_lt in E. rewrite of_int_Z2F by lia. cbn [bind].
    rewrite (word_samples_spec _ Hw). cbn [bind].
    rewrite IH, <- !app_assoc. reflexivity.
  - destruct (negb (Line.text_height l =? 0)) eqn:E0.
    + rewrite of_int_Z2F by lia. cbn [bind].
      rewrite (word_samples_spec _ Hw). cbn [bind].
      rewrite IH, <- !app_assoc. reflexivity.
    + cbn [bind]. rewrite (word_samples_spec _ Hw). cbn [bind].
      rewrite IH, <- !app_assoc. reflexivity.
Qed.

Lemma collect_samples_spec (regions : list Region.t) :
  Forall plain_region regions ->
  forall chs lhs,
    collect_samples regions chs lhs
    = Ok (chs ++ char_samples_of regions, lhs ++ line_samples_of regions).
Proof.
  unfold char_samples_of, line_samples_of.
  induction 1 as [|r regions Hr _ IH]; intros chs lhs;
    cbn [collect_samples flat_map]; [now rewrite !app_nil_r|].
  rewrite (line_samples_spec _ Hr). cbn [bind].
  rewrite IH, <- !app_assoc. reflexivity.
Qed.

End CollectFacts.

(** X17.  On a document as the OCR service sends it (the text of every
    word a string, heights below [2^53]) the run counts as char-height
    samples the box heights of the words that contain a CJK ideograph and
    have a positive box height, and as line-height samples, per line, the
    box height when positive, else the [text_height] when not 0; these
    numbers are the sample counts it returns. *)
Theorem samples_of_document (regions : list Region.t) (w w' : world)
    (ch m : float) (cnt : Z * Z) :
  Forall EstimatorSpec.plain_region regions ->
  OCRJsonToTextLine.collect_samples regions [] []
  = Ok (SampleSpec.char_samples_of regions, SampleSpec.line_samples_of regions)
  /\ (OCRJsonToTextLine.estimate_layout_constants regions w
      = (Ok (ch, m, cnt), w') ->
      cnt = (Z.of_nat (length (SampleSpec.char_samples_of regions)),
             Z.of_nat (length (SampleSpec.line_samples_of regions)))).
Proof.
  intros Hp.
  pose proof (CollectFacts.collect_samples_spec regions Hp [] []) as Hs.
  cbn [app] in Hs. split; [exact Hs|].
  intros H.
  destruct (EstimatorFacts.estimate_Ok _ _ _ _ _ _ H)
    as (chs & lhs & cch & clh & cm & pch & pm & pcn & pln & fch & fm
        & Hs' & _ & _ & _ & _ & _ & _ & Hcnt & _).
  rewrite Hs in Hs'. inversion Hs'; subst. reflexivity.
Qed.

Lemma samples_of_document_witness :
  OCRJsonToTextLine.collect_samples Examples.doc6 [] []
  = Ok (repeat (of_decimal 40 0) 6, repeat (of_decimal 60 0) 3).
Proof.
  refine (proj1 (samples_of_document Examples.doc6 Examples.w_cold
                   Examples.w_cold f0 f0 (0, 0) _)).
  repeat constructor; try (eexists; reflexivity); cbn; lia.
Defined.

(** ** The store and the entry point *)

(** X18.  A store file that holds valid JSON which is not an object (a
    list, a number, ...) is not tolerated the way a missing or corrupt file
    is: every run on a document whose samples can be collected raises
    [AttributeError] and leaves the store as it is. *)
Theorem store_not_a_dict_raises (regions : list Region.t) (w : world)
    (v : json) (chs lhs : list float) :
  constants_file w = Holds v -> OCRJsonToTextLine.is_dict v = false ->
  OCRJsonToTextLine.collect_samples regions [] [] = Ok (chs, lhs) ->
  exists e,
    OCRJsonToTextLine.estimate_layout_constants regions w = (Raise e, w)
    /\ exn_cls e = AttributeError.
Proof.
  intros Hf Hv Hs. rewrite EstimatorFacts.estimate_unfold, Hs.
  destruct (EstimatorFacts.current_estimates_total chs lhs)
    as (cch & clh & cm & -> & _).
  unfold EstimatorSpec.loaded. rewrite Hf.
  destruct v; try discriminate Hv; eexists; split; reflexivity.
Qed.

Lemma store_not_a_dict_raises_witness :
  exists e,
    OCRJsonToTextLine.estimate_layout_constants Examples.doc5
      (mk_world (Holds (JList [])) true 0)
    = (Raise e, mk_world (Holds (JList [])) true 0)
    /\ exn_cls e = AttributeError.
Proof.
  destruct (OCRJsonToTextLine.collect_samples Examples.doc5 [] [])
    as [[chs lhs]|e] eqn:E; [|vm_compute in E; discriminate].
  exact (store_not_a_dict_raises Examples.doc5
           (mk_world (Holds (JList [])) true 0) (JList []) chs lhs
           eq_refl eq_refl E).
Defined.

Module EntryFacts.
Import OCRJsonToTextLine EstimatorSpec.

(** A run on a document without any sample returns whenever the history
    can be read. *)
Lemma estimate_no_regions (w : world) (h : float * float * Z * Z) :
  history (loaded w) = Ok h ->
  exists ch m w',
    estimate_layout_constants [] w = (Ok (ch, m, (0, 0)), w').
Proof.
  intros Hh. rewrite EstimatorFacts.estimate_unfold.
  cbn [collect_samples]. change (current_estimates [] []) with (Ok (f0, f0, f0)).
  rewrite Hh. destruct h as [[[pch pm] pcn] pln]. cbv zeta.
  cbn [length Z.of_nat Z.ltb Z.compare].
  unfold blend. cbn [orb].
  destruct (fgt pch f0); destruct (fgt pm f0); eauto.
Qed.

End EntryFacts.

(** X19.  A document without regions (the [regions] key missing or an
    empty list) converts to the empty string, whenever the history in the
    store can be read. *)
Theorem empty_document_gives_empty_text (ocr_json entries : list (pystr * json))
    (w : world) (h : float * float * Z * Z) :
  Json.lookup (u "Result") ocr_json = Some (JDict entries) ->
  Json.lookup (u "regions") entries = None
  \/ Json.lookup (u "regions") entries = Some (JList []) ->
  OCRJsonToTextLine.history (EstimatorSpec.loaded w) = Ok h ->
  fst (OCRJsonToTextLine.convert_json_to_text ocr_json w) = Ok [].
Proof.
  intros Hr Hregions Hh.
  destruct (EntryFacts.estimate_no_regions w h Hh) as (ch & m & w' & He).
  unfold OCRJsonToTextLine.convert_json_to_text, try_exceptM,
    OCRJsonToTextLine.convert_try, Json.contains, Json.getitem.
  rewrite Hr. cbn [negb]. unfold bindM, lift, Json.get.
  assert (Hi : Json.iter (match Json.lookup (u "regions") entries with
                          | Some x => x
                          | None => JList []
                          end) = Ok []).
  { destruct Hregions as [-> | ->]; reflexivity. }
  rewrite Hi. cbn [mapM]. rewrite He. reflexivity.
Qed.

Lemma empty_document_gives_empty_text_witness :
  fst (OCRJsonToTextLine.convert_json_to_text
         [(u "Result", JDict [(u "orientation", JStr (u "UP"))])]
         Examples.w_hist) = Ok [].
Proof.
  apply (empty_document_gives_empty_text _
           [(u "orientation", JStr (u "UP"))] Examples.w_hist
           (of_decimal 20 0, f1_5, 5, 5));
    [reflexivity | left; reflexivity | reflexivity].
Defined.

(** ** Rows *)

Module RowFacts.
Import OCRJsonToTextLine LayoutSpec.

Lemma starts_with_text_app (l l' : list pystr) :
  l <> [] -> starts_with_text l -> starts_with_text (l ++ l').
Proof. destruct l; [congruence | auto]. Qed.

Lemma rows_loop_starts_with_text (grouped : list (list Fragment.t))
    (base_left : Z) (ch ls : float) :
  forall text_lines prev_row out,
    (prev_row = None -> text_lines = []) ->
    (prev_row <> None -> text_lines <> []) ->
    starts_with_text text_lines ->
    rows_loop grouped base_left ch ls text_lines prev_row = Ok out ->
    starts_with_text out.
Proof.
  induction grouped as [|row rest IH]; intros text_lines prev_row out Hn Hs Hst H.
  - cbn [rows_loop] in H. inversion H; subst. exact Hst.
  - cbn [rows_loop] in H.
    apply bind_Ok in H. destruct H as [tl [Htl H]].
    apply bind_Ok in H. destruct H as [indent [_ H]].
    apply bind_Ok in H. destruct H as [joined [_ H]].
    cbv zeta in H.
    assert (Htl' : (prev_row = None -> tl = [])
                   /\ (prev_row <> None -> tl <> [])
                   /\ starts_with_text tl).
    { destruct prev_row as [prev|].
      - apply bind_Ok in Htl. destruct Htl as [blanks [_ Htl]].
        inversion Htl; subst. assert (Hne : text_lines <> []) by (apply Hs; discriminate).
        split; [discriminate|].
        destruct (0 <? blanks).
        + split; [|now apply starts_with_text_app].
          intros _ Happ. apply app_eq_nil in Happ. now destruct Happ.
        + split; auto.
      - inversion Htl; subst. rewrite (Hn eq_refl).
        split; [reflexivity|]. split; [congruence | exact I]. }
    destruct Htl' as (Hn' & Hs' & Hst').
    destruct (is_empty (PyStr.strip joined)) eqn:E.
    + exact (IH tl prev_row out Hn' Hs' Hst' H).
    + apply (IH _ (Some row) out) in H; [exact H | discriminate | |].
      * intros _ Happ. apply app_eq_nil in Happ. destruct Happ; discriminate.
      * destruct tl as [|t tl'].
        -- cbn [app starts_with_text]. intros Happ.
           apply app_eq_nil in Happ. destruct Happ as [_ Happ].
           rewrite Happ in E. discriminate.
        -- exact Hst'.
Qed.

Lemma starts_with_text_snoc (l : list pystr) (t : pystr) :
  t <> [] -> starts_with_text l -> starts_with_text (l ++ [t]).
Proof. destruct l; cbn [app starts_with_text]; auto. Qed.

Lemma vertical_lines_starts_with_text (lines : list Line.t) :
  forall acc out,
    vertical_lines lines acc = Ok out ->
    starts_with_text acc -> starts_with_text out.
Proof.
  induction lines as [|line lines IH]; intros acc out H Hst;
    cbn [vertical_lines] in H.
  - inversion H; subst. exact Hst.
  - apply bind_Ok in H. destruct H as [t [_ H]].
    apply (IH _ _ H). destruct t as [|c t]; cbn [is_empty]; [exact Hst|].
    apply starts_with_text_snoc; [discriminate | exact Hst].
Qed.

Lemma vertical_texts_starts_with_text (regions : list Region.t) :
  forall acc out,
    vertical_texts regions acc = Ok out ->
    starts_with_text acc -> starts_with_text out.
Proof.
  induction regions as [|r regions IH]; intros acc out H Hst;
    cbn [vertical_texts] in H.
  - inversion H; subst. exact Hst.
  - cbv zeta in H. apply bind_Ok in H. destruct H as [tl [Htl H]].
    apply (IH _ _ H). exact (vertical_lines_starts_with_text _ _ _ Htl Hst).
Qed.

Lemma SFdiv_zero (ch : float) :
  ch <> S754_nan -> is_zero ch = false ->
  SFdiv prec emax (S754_zero false) ch = S754_zero (sign_bit ch).
Proof.
  destruct ch as [s|s| |s m e]; cbn [is_zero]; try discriminate; try congruence;
    intros _ _; destruct s; reflexivity.
Qed.

End RowFacts.

(** X20.  The text lines never start with a blank line: blank lines are
    only inserted between two rows that hold text, and the text of a
    vertical line is only added when it is not empty, so the first line
    that [convert_regions_to_text_lines] returns, if any, is not empty. *)
Theorem text_never_starts_blank (regions : list Region.t) (ch m : float)
    (lines : list pystr) :
  OCRJsonToTextLine.convert_regions_to_text_lines regions ch m = Ok lines ->
  LayoutSpec.starts_with_text lines.
Proof.
  intros H. unfold OCRJsonToTextLine.convert_regions_to_text_lines in H.
  apply bind_Ok in H. destruct H as [fragments [_ H]].
  apply bind_Ok in H. destruct H as [rows [Hr H]]. cbv zeta in H.
  apply (RowFacts.vertical_texts_starts_with_text _ _ _ H).
  destruct (negb (OCRJsonToTextLine.is_empty fragments)).
  - cbv zeta in Hr. apply bind_Ok in Hr. destruct Hr as [[grouped frs] [_ Hr]].
    exact (RowFacts.rows_loop_starts_with_text _ _ _ _ [] None rows
             (fun _ => eq_refl) (fun Hc => False_ind _ (Hc eq_refl)) I Hr).
  - inversion Hr; subst. exact I.
Qed.

Lemma text_never_starts_blank_witness :
  exists lines,
    OCRJsonToTextLine.convert_regions_to_text_lines Examples.doc6 f32 f1_5
    = Ok lines
    /\ LayoutSpec.starts_with_text lines.
Proof.
  destruct (OCRJsonToTextLine.convert_regions_to_text_lines Examples.doc6
              f32 f1_5) as [lines|e] eqn:E; [|vm_compute in E; discriminate].
  exists lines. split; [reflexivity|].
  exact (text_never_starts_blank _ _ _ _ E).
Defined.

(** X21.  A row that starts at the left edge of the text area (or left of
    it) is not indented, whatever the char height, unless the char height
    is NaN. *)
Theorem flush_left_row_not_indented (row : list Fragment.t) (base_left : Z)
    (ch : float) :
  ch <> S754_nan -> LayoutSpec.row_left row <= base_left ->
  OCRJsonToTextLine._compute_row_indent_spaces row base_left ch = Ok 0.
Proof.
  intros Hnan Hleft. unfold OCRJsonToTextLine._compute_row_indent_spaces.
  unfold LayoutSpec.row_left in Hleft.
  destruct (map Fragment.x row) as [|x0 xs]; [reflexivity|].
  replace (Z.max 0 (min_of x0 xs - base_left)) with 0 by lia.
  change (of_int 0) with (Ok (S754_zero false)). cbn [bind].
  set (c := if fle ch f0 then f32 else ch).
  assert (Hc : c <> S754_nan /\ is_zero c = false).
  { subst c. destruct (fle ch f0) eqn:E; [split; [discriminate|reflexivity]|].
    split; [exact Hnan | exact (not_fle_not_zero ch E)]. }
  destruct Hc as [Hc1 Hc2]. unfold fdiv. rewrite Hc2. cbn [bind].
  rewrite (RowFacts.SFdiv_zero c Hc1 Hc2).
  destruct (sign_bit c); reflexivity.
Qed.

Lemma flush_left_row_not_indented_witness :
  OCRJsonToTextLine._compute_row_indent_spaces
    [Examples.frag "a" 30 0; Examples.frag "b" 7 0] 7 (of_decimal 375 (-1))
  = Ok 0.
Proof.
  apply flush_left_row_not_indented; [discriminate | cbn; lia].
Defined.

(** ** Blank fields of a box string *)

Module TokenFacts.
Import BoundingBox BoundingBoxSpec.

Lemma split_not_nil (sep : Z) (s : pystr) : split sep s <> [].
Proof.
  induction s as [|c s IH]; cbn [split]; [discriminate|].
  destruct (c =? sep); [discriminate|].
  destruct (split sep s); [contradiction | discriminate].
Qed.

(** Splitting at a separator splits the list of fields. *)
Lemma split_at_sep (sep : Z) (a b : pystr) :
  split sep (a ++ sep :: b) = split sep a ++ split sep b.
Proof.
  induction a as [|c a IH]; cbn [split app].
  - now rewrite Z.eqb_refl.
  - destruct (c =? sep); [now rewrite IH|].
    rewrite IH. pose proof (split_not_nil sep a) as Hne.
    destruct (split sep a) as [|p ps]; [contradiction | reflexivity].
Qed.

Lemma usable_app (l1 l2 : list pystr) :
  usable (l1 ++ l2) = usable l1 ++ usable l2.
Proof. unfold usable. now rewrite filter_app, map_app. Qed.

(** The box depends on the usable tokens only. *)
Lemma from_string_tokens (s s' : pystr) :
  tokens s = tokens s' -> from_string (JStr s) = from_string (JStr s').
Proof.
  intros H. unfold from_string, from_string_try, Json.split_comma.
  cbn [bind]. fold (tokens s) (tokens s'). now rewrite H.
Qed.

End TokenFacts.

(** X22.  Blank fields of a box string are ignored: a field that is empty
    or holds only whitespace (a doubled or a trailing comma, for instance)
    changes nothing to the box that is read. *)
Theorem blank_fields_ignored (a ws b : pystr) :
  TokenSpec.blank_field ws ->
  BoundingBox.from_string (JStr (a ++ 0x2C :: ws ++ 0x2C :: b))
  = BoundingBox.from_string (JStr (a ++ 0x2C :: b))
  /\ BoundingBox.from_string (JStr (a ++ 0x2C :: ws))
     = BoundingBox.from_string (JStr a).
Proof.
  intros [Hc Hs].
  assert (Hws : BoundingBox.usable (split 0x2C ws) = []).
  { rewrite BoxFacts.split_no_sep by exact Hc.
    unfold BoundingBox.usable. cbn [filter]. now rewrite Hs. }
  split; apply TokenFacts.from_string_tokens; unfold BoundingBoxSpec.tokens;
    rewrite !TokenFacts.split_at_sep, !TokenFacts.usable_app, Hws.
  - reflexivity.
  - now rewrite app_nil_r.
Qed.

Lemma blank_fields_ignored_witness :
  BoundingBox.from_string (JStr (u "1, 2" ++ 0x2C :: u "  " ++ 0x2C :: u "3,4"))
  = BoundingBox.from_string (JStr (u "1, 2" ++ 0x2C :: u "3,4")).
Proof.
  apply (blank_fields_ignored (u "1, 2") (u "  ") (u "3,4")).
  split; [vm_compute; intuition discriminate | reflexivity].
Defined.

(** ** A cold start on a document with enough samples *)

(** X23.  Without persisted history, a document with at least 5 char-height
    samples whose median is positive gets this median as its char height
    (and its own sample counts): the defaults are for sparse documents
    only. *)
Theorem cold_start_uses_document_median (regions : list Region.t) (w : world)
    (chs lhs : list float) (v : float) :
  EstimatorSpec.no_history w ->
  OCRJsonToTextLine.collect_samples regions [] [] = Ok (chs, lhs) ->
  (5 <= length chs)%nat ->
  OCRJsonToTextLine._robust_median chs = Ok v -> fgt v f0 = true ->
  exists m w',
    OCRJsonToTextLine.estimate_layout_constants regions w
    = (Ok (v, m, (Z.of_nat (length chs), Z.of_nat (length lhs))), w').
Proof.
  intros Hw Hs Hlen Hv Hpos.
  rewrite EstimatorFacts.estimate_unfold, Hs.
  unfold OCRJsonToTextLine.current_estimates.
  apply Nat.leb_le in Hlen. rewrite Hlen, Hv. cbn [bind].
  assert (Hl : exists clh,
    (if (3 <=? length lhs)%nat
     then OCRJsonToTextLine._robust_median lhs else Ok f0) = Ok clh).
  { destruct (3 <=? length lhs)%nat; [|eauto].
    apply EstimatorFacts.robust_median_total. }
  destruct Hl as [clh ->]. cbn [bind]. rewrite Hpos. cbn [andb].
  assert (Hm : exists cm,
    (if fgt clh f0
     then rs <- OCRJsonToTextLine.ratios lhs v ;;
          OCRJsonToTextLine._robust_median rs
     else Ok f0) = Ok cm).
  { destruct (fgt clh f0); [|eauto].
    destruct (EstimatorFacts.ratios_total lhs v Hpos) as [rs ->]. cbn [bind].
    apply EstimatorFacts.robust_median_total. }
  destruct Hm as [cm ->]. cbn [bind].
  rewrite (EstimatorFacts.no_history_loaded w Hw),
    EstimatorFacts.history_empty.
  cbv zeta. rewrite !EstimatorFacts.blend_no_history.
  rewrite (StoreFacts.or_default_positive f32 v Hpos).
  eexists _, _. reflexivity.
Qed.

Lemma cold_start_uses_document_median_witness :
  exists m w',
    OCRJsonToTextLine.estimate_layout_constants Examples.doc5 Examples.w_cold
    = (Ok (of_decimal 40 0, m, (5, 1)), w').
Proof.
  exact (cold_start_uses_document_median Examples.doc5 Examples.w_cold
           (repeat (of_decimal 40 0) 5) [of_decimal 60 0] (of_decimal 40 0)
           (or_introl eq_refl) eq_refl (le_n 5) eq_refl eq_refl).
Defined.
